(** * Download archives: a shallow embedding of [gallery_dl/archive.py]

    The module implements a deduplication ledger with four classes
    ([DownloadArchive], [DownloadArchiveMemory], [DownloadArchivePostgresql],
    [DownloadArchivePostgresqlMemory]) and the entry point [connect].

    The Python code is effectful: it talks to two database engines, to the
    file system and to the logger, and it raises and catches exceptions.  It is
    embedded here as functions in a state-and-exception monad over a [world]
    (database files, servers, directories, the call history and the log).
    The engines and the operating system are not part of the module; they are
    represented by a small executable model that an [oracle] can make fail at
    any call. *)

From stdpp Require Import gmap strings list.
From Stdlib Require Import String Ascii ZArith Lia.

Local Open Scope string_scope.
Local Open Scope Z_scope.

(** ** Strings *)

Definition dquote : ascii := "034"%char.
Definition sep : ascii := "/"%char.

(** [s.replace(old, new)] for one-character [old] and [new]. *)
Fixpoint replace (old new : ascii) (s : string) : string :=
  match s with
  | EmptyString => EmptyString
  | String c s' =>
      String (if Ascii.eqb c old then new else c) (replace old new s')
  end.

(** [c in s] for a character [c]. *)
Fixpoint contains (c : ascii) (s : string) : bool :=
  match s with
  | EmptyString => false
  | String a s' => Ascii.eqb a c || contains c s'
  end.

(** [s.startswith(p)] *)
Definition startswith (s p : string) : bool := String.prefix p s.

(** [s.rfind(c)]: the index of the last occurrence of [c], or [-1]. *)
Fixpoint rfind (c : ascii) (s : string) : Z :=
  match s with
  | EmptyString => -1
  | String a s' =>
      let i := rfind c s' in
      if i <? 0 then (if Ascii.eqb a c then 0 else -1) else i + 1
  end.

(** [s.rstrip(c)] *)
Fixpoint rstrip (c : ascii) (s : string) : string :=
  match s with
  | EmptyString => EmptyString
  | String a s' =>
      match rstrip c s' with
      | EmptyString => if Ascii.eqb a c then EmptyString else String a EmptyString
      | r => String a r
      end
  end.

(** [s == c * len(s)] *)
Fixpoint all_chars (c : ascii) (s : string) : bool :=
  match s with
  | EmptyString => true
  | String a s' => Ascii.eqb a c && all_chars c s'
  end.

(** Truth value of a Python string: the empty string is false. *)
Definition truthy_str (s : string) : bool :=
  match s with EmptyString => false | _ => true end.

(** ** [sanitize] (archive.py, lines 66-67) *)

Definition sanitize (name : string) : string :=
  String dquote (replace dquote "_"%char name ++ String dquote EmptyString).

(** ** [os.path.dirname] (posixpath)

    [i = p.rfind('/') + 1; head = p[:i];
     if head and head != '/' * len(head): head = head.rstrip('/')] *)

Definition dirname (p : string) : string :=
  let i := rfind sep p + 1 in
  let head := String.substring 0 (Z.to_nat i) p in
  if truthy_str head && negb (all_chars sep head) then rstrip sep head else head.

(** ** The SQL text the engines accept

    The engines are external.  Their model reads a statement the way an SQL
    scanner does: a keyword prefix, one table identifier (bare, or delimited by
    double quotes with a doubled quote standing for one quote character), and a
    fixed rest.  It accepts every identifier and tells tables apart by the
    exact text of their names; what the engines refuse on top of that (see
    [surely_refused]) is a fault of the call, raised through [oracle]. *)

Inductive statement : Type :=
  | Select1 (table : string)
  | SelectEntries (table : string)
  | InsertIfAbsent (table : string)
  | CreateTableIfNotExists (table : string) (without_rowid : bool)
  | Begin
  | Pragma (directive : string).

Fixpoint strip_prefix (p s : string) : option string :=
  match p with
  | EmptyString => Some s
  | String a p' =>
      match s with
      | String b s' => if Ascii.eqb a b then strip_prefix p' s' else None
      | EmptyString => None
      end
  end.

(** Scan a delimited identifier whose opening quote has been consumed:
    the identifier's characters and the text after the closing quote. *)
Fixpoint scan_delimited (s : string) : option (string * string) :=
  match s with
  | EmptyString => None
  | String c s' =>
      if Ascii.eqb c dquote then
        match s' with
        | String c' s'' =>
            if Ascii.eqb c' dquote then
              match scan_delimited s'' with
              | Some (id, r) => Some (String dquote id, r)
              | None => None
              end
            else Some (EmptyString, s')
        | EmptyString => Some (EmptyString, EmptyString)
        end
      else
        match scan_delimited s' with
        | Some (id, r) => Some (String c id, r)
        | None => None
        end
  end.

Definition ident_char (c : ascii) : bool :=
  let n := nat_of_ascii c in
  ((97 <=? n)%nat && (n <=? 122)%nat) || ((65 <=? n)%nat && (n <=? 90)%nat)
  || ((48 <=? n)%nat && (n <=? 57)%nat) || (n =? 95)%nat.

Fixpoint scan_bare (s : string) : string * string :=
  match s with
  | EmptyString => (EmptyString, EmptyString)
  | String c s' =>
      if ident_char c then
        let '(id, r) := scan_bare s' in (String c id, r)
      else (EmptyString, s)
  end.

Definition scan_ident (s : string) : option (string * string) :=
  match s with
  | EmptyString => None
  | String c s' =>
      if Ascii.eqb c dquote then scan_delimited s'
      else match scan_bare s with
           | (EmptyString, _) => None
           | p => Some p
           end
  end.

(** [pre], one table identifier, then exactly [post]. *)
Definition parse_table (pre post sql : string) : option string :=
  match strip_prefix pre sql with
  | None => None
  | Some r =>
      match scan_ident r with
      | Some (t, rest) => if String.eqb rest post then Some t else None
      | None => None
      end
  end.

Definition or_else {A} (o : option A) (k : option A) : option A :=
  match o with Some a => Some a | None => k end.

(** The statements the SQLite model understands ([?] placeholders). *)
Definition sqlite_parse (sql : string) : option statement :=
  or_else (Select1 <$> parse_table "SELECT 1 FROM " " WHERE entry=? LIMIT 1" sql)
  (or_else (InsertIfAbsent <$>
              parse_table "INSERT OR IGNORE INTO " " (entry) VALUES (?)" sql)
  (or_else ((fun t => CreateTableIfNotExists t true) <$>
              parse_table "CREATE TABLE IF NOT EXISTS "
                          " (entry TEXT PRIMARY KEY) WITHOUT ROWID" sql)
  (or_else ((fun t => CreateTableIfNotExists t false) <$>
              parse_table "CREATE TABLE IF NOT EXISTS "
                          " (entry TEXT PRIMARY KEY)" sql)
  (or_else (SelectEntries <$> parse_table "SELECT entry FROM " "" sql)
  (or_else (if String.eqb sql "BEGIN" then Some Begin else None)
           (Pragma <$> strip_prefix "PRAGMA " sql)))))).

(** The statements the PostgreSQL model understands ([%s] placeholders). *)
Definition pg_parse (sql : string) : option statement :=
  or_else (Select1 <$>
             parse_table "SELECT true FROM " " WHERE entry=%s LIMIT 1" sql)
  (or_else (InsertIfAbsent <$>
              parse_table "INSERT INTO "
                          " (entry) VALUES (%s) ON CONFLICT DO NOTHING" sql)
           ((fun t => CreateTableIfNotExists t false) <$>
              parse_table "CREATE TABLE IF NOT EXISTS "
                          " (entry TEXT PRIMARY KEY)" sql)).

(** ** Exceptions and Python values *)

(** The exception classes that occur; all of them derive from [Exception]. *)
Inductive exn : Type :=
  | sqlite3_OperationalError (msg : string)
  | sqlite3_ProgrammingError (msg : string)
  | psycopg_Error (msg : string)
  | FileNotFoundError (filename : string)
  | FileExistsError (filename : string)
  | ImportError (name : string)
  | OtherException (msg : string).

(** [isinstance(e, sqlite3.OperationalError)] *)
Definition is_sqlite3_OperationalError (e : exn) : bool :=
  match e with sqlite3_OperationalError _ => true | _ => false end.

Inductive result (A : Type) : Type :=
  | Ok (a : A)
  | Raise (e : exn).
Arguments Ok {A} a.
Arguments Raise {A} e.

(** What [check] can return: [True], [False], a fetched row or [None]. *)
Inductive pyvalue : Type :=
  | PyNone
  | PyBool (b : bool)
  | PyRow (column : string).

Definition truthy (v : pyvalue) : bool :=
  match v with
  | PyNone => false
  | PyBool b => b
  | PyRow _ => true
  end.

(** [a or b] on an optional string ([None] and the empty string are false). *)
Definition py_or (a : option string) (b : string) : string :=
  match a with
  | Some s => if truthy_str s then s else b
  | None => b
  end.

(** ** The world *)

(** A database: its tables, each one the list of its [entry] values. *)
Abbreviation database := (gmap string (list string)).

Record connection_state : Type := {
  committed : database;
  current : database;
  in_transaction : bool
}.

Definition empty_database : connection_state :=
  {| committed := ∅; current := ∅; in_transaction := false |}.

Inductive handle : Type :=
  | SqliteCon (path : string)
  | PgCon (uri : string).

Inductive syscall : Type :=
  | import_call (name : string)
  | sqlite3_connect_call (path : string)
  | psycopg_connect_call (uri : string)
  | execute_call (con : handle) (sql : string) (params : list string)
  | executemany_call (con : handle) (sql : string) (rows : list string)
  | commit_call (con : handle)
  | rollback_call (con : handle)
  | close_call (con : handle)
  | makedirs_call (name : string)
  | remove_call (path : string).

Inductive level : Type := DEBUG | INFO | WARNING | ERROR.

Record world : Type := {
  files : gmap string connection_state;   (* SQLite database files, by path *)
  dirs : gset string;                     (* existing directories *)
  servers : gmap string connection_state; (* reachable PostgreSQL servers, by URI *)
  sqlite3_module : bool;   (* [DownloadArchive._sqlite3 is not None] *)
  psycopg_module : bool;   (* [DownloadArchivePostgresql._psycopg is not None] *)
  dicts : gmap nat (gmap string string);  (* Python dict objects, by identity *)
  sets : gmap nat (gset string);          (* Python set objects, by identity *)
  history : list syscall;                 (* engine and OS calls made so far *)
  logged : list (level * string)          (* log records emitted so far *)
}.

(** What the module takes from its surroundings: the fault behaviour of the
    engines and of the operating system (given the calls made so far, the
    last one being the call in progress, either serve it or raise), and the
    two helpers of the package that live in other modules. *)
Record env : Type := {
  oracle : list syscall -> option exn;
  util_expand_path : string -> string;
  formatter_parse : string -> gmap string string -> string
}.

(** ** The monad: environment, state and exceptions *)

Definition M (A : Type) : Type := env -> world -> result A * world.

Definition ret {A} (a : A) : M A := fun _ w => (Ok a, w).

Definition bind {A B} (m : M A) (k : A -> M B) : M B :=
  fun E w =>
    match m E w with
    | (Ok a, w') => k a E w'
    | (Raise e, w') => (Raise e, w')
    end.

Definition raise {A} (e : exn) : M A := fun _ w => (Raise e, w).

#[global] Instance M_ret : MRet M := @ret.
#[global] Instance M_bind : MBind M := fun A B k m => bind m k.
#[global] Instance M_fmap : FMap M := fun A B f m => bind m (fun a => ret (f a)).

(** [try: body / except <filter> as e: handler(e)] *)
Definition try_except_when {A} (filter : exn -> bool)
    (body : M A) (handler : exn -> M A) : M A :=
  fun E w =>
    match body E w with
    | (Ok a, w') => (Ok a, w')
    | (Raise e, w') => if filter e then handler e E w' else (Raise e, w')
    end.

(** [try: body / except Exception as e: handler(e)] *)
Definition try_except {A} (body : M A) (handler : exn -> M A) : M A :=
  try_except_when (fun _ => true) body handler.

(** [try: body / finally: final] *)
Definition try_finally {A} (body : M A) (final : M unit) : M A :=
  fun E w =>
    match body E w with
    | (r, w') =>
        match final E w' with
        | (Ok _, w'') => (r, w'')
        | (Raise e, w'') => (Raise e, w'')
        end
    end.

Definition get : M world := fun _ w => (Ok w, w).
Definition put (w : world) : M unit := fun _ _ => (Ok tt, w).
Definition ask : M env := fun E w => (Ok E, w).

(** [for x in xs: body(x)] *)
Fixpoint for_each {A} (xs : list A) (body : A -> M unit) : M unit :=
  match xs with
  | [] => ret tt
  | x :: xs' => bind (body x) (fun _ => for_each xs' body)
  end.

(** Field updates. *)
Definition set_files (f : gmap string connection_state) (w : world) : world :=
  {| files := f; dirs := dirs w; servers := servers w;
     sqlite3_module := sqlite3_module w; psycopg_module := psycopg_module w;
     dicts := dicts w; sets := sets w; history := history w;
     logged := logged w |}.
Definition set_dirs (d : gset string) (w : world) : world :=
  {| files := files w; dirs := d; servers := servers w;
     sqlite3_module := sqlite3_module w; psycopg_module := psycopg_module w;
     dicts := dicts w; sets := sets w; history := history w;
     logged := logged w |}.
Definition set_servers (s : gmap string connection_state) (w : world) : world :=
  {| files := files w; dirs := dirs w; servers := s;
     sqlite3_module := sqlite3_module w; psycopg_module := psycopg_module w;
     dicts := dicts w; sets := sets w; history := history w;
     logged := logged w |}.
Definition set_sqlite3_module (b : bool) (w : world) : world :=
  {| files := files w; dirs := dirs w; servers := servers w;
     sqlite3_module := b; psycopg_module := psycopg_module w;
     dicts := dicts w; sets := sets w; history := history w;
     logged := logged w |}.
Definition set_psycopg_module (b : bool) (w : world) : world :=
  {| files := files w; dirs := dirs w; servers := servers w;
     sqlite3_module := sqlite3_module w; psycopg_module := b;
     dicts := dicts w; sets := sets w; history := history w;
     logged := logged w |}.
Definition set_dicts (d : gmap nat (gmap string string)) (w : world) : world :=
  {| files := files w; dirs := dirs w; servers := servers w;
     sqlite3_module := sqlite3_module w; psycopg_module := psycopg_module w;
     dicts := d; sets := sets w; history := history w;
     logged := logged w |}.
Definition set_sets (s : gmap nat (gset string)) (w : world) : world :=
  {| files := files w; dirs := dirs w; servers := servers w;
     sqlite3_module := sqlite3_module w; psycopg_module := psycopg_module w;
     dicts := dicts w; sets := s; history := history w;
     logged := logged w |}.
Definition set_history (h : list syscall) (w : world) : world :=
  {| files := files w; dirs := dirs w; servers := servers w;
     sqlite3_module := sqlite3_module w; psycopg_module := psycopg_module w;
     dicts := dicts w; sets := sets w; history := h;
     logged := logged w |}.
Definition set_logged (l : list (level * string)) (w : world) : world :=
  {| files := files w; dirs := dirs w; servers := servers w;
     sqlite3_module := sqlite3_module w; psycopg_module := psycopg_module w;
     dicts := dicts w; sets := sets w; history := history w;
     logged := l |}.

Definition modify (f : world -> world) : M unit := fun _ w => (Ok tt, f w).

(** Every call to an engine or to the operating system is recorded, and the
    oracle decides whether it is served. *)
Definition request (c : syscall) : M unit :=
  fun E w =>
    let h := (history w ++ [c])%list in
    match oracle E h with
    | Some e => (Raise e, set_history h w)
    | None => (Ok tt, set_history h w)
    end.

(** [log.<level>(msg, ...)]; the format string is recorded. *)
Definition log (l : level) (msg : string) : M unit :=
  modify (fun w => set_logged (logged w ++ [(l, msg)])%list w).

(** [traceback.format_exc()] *)
Definition traceback_format_exc : string := "Traceback (most recent call last):".

(** ** Python objects shared by reference *)

Definition dict_read (d : nat) : M (gmap string string) :=
  w ← get; mret (default ∅ (dicts w !! d)).

(** [d[k] = v] *)
Definition dict_setitem (d : nat) (k v : string) : M unit :=
  modify (fun w => set_dicts (<[d := <[k := v]> (default ∅ (dicts w !! d))]> (dicts w)) w).

(** [set()] *)
Definition set_new : M nat :=
  w ← get;
  let s := fresh (dom (sets w)) in
  put (set_sets (<[s := ∅]> (sets w)) w);;
  mret s.

Definition set_read (s : nat) : M (gset string) :=
  w ← get; mret (default ∅ (sets w !! s)).

(** [s.add(k)] *)
Definition set_add (s : nat) (k : string) : M unit :=
  modify (fun w => set_sets (<[s := {[k]} ∪ default ∅ (sets w !! s)]> (sets w)) w).

(** ** The model of the engines *)

Inductive sql_error : Type :=
  | NoSuchTable (table : string)
  | WrongBindings
  | SyntaxError
  | NestedTransaction
  | NoConnection.

Definition engine_exn (con : handle) (e : sql_error) : exn :=
  match con, e with
  | SqliteCon _, NoSuchTable t => sqlite3_OperationalError ("no such table: " ++ t)
  | SqliteCon _, WrongBindings =>
      sqlite3_ProgrammingError "Incorrect number of bindings supplied"
  | SqliteCon _, SyntaxError => sqlite3_OperationalError "syntax error"
  | SqliteCon _, NestedTransaction =>
      sqlite3_OperationalError "cannot start a transaction within a transaction"
  | SqliteCon _, NoConnection => sqlite3_OperationalError "unable to open database file"
  | PgCon _, NoSuchTable t => psycopg_Error ("relation does not exist: " ++ t)
  | PgCon _, WrongBindings => psycopg_Error "wrong number of parameters"
  | PgCon _, SyntaxError => psycopg_Error "syntax error"
  | PgCon _, NestedTransaction => psycopg_Error "already in a transaction"
  | PgCon _, NoConnection => psycopg_Error "the connection is lost"
  end.

(** One statement on one database.  [InsertIfAbsent] is the meaning of both
    [INSERT OR IGNORE] and [INSERT ... ON CONFLICT DO NOTHING] on a table whose
    primary key is [entry].  The rows of a table are listed in the order of
    their insertion; the order in which an engine returns them is its own (a
    SQLite table [WITHOUT ROWID] is read in key order). *)
Definition run_statement (s : statement) (params : list string) (d : database)
  : sql_error + (database * list string) :=
  match s with
  | Select1 t =>
      match d !! t, params with
      | None, _ => inl (NoSuchTable t)
      | Some entries, [k] =>
          inr (d, if bool_decide (k ∈ entries) then ["1"] else [])
      | Some _, _ => inl WrongBindings
      end
  | SelectEntries t =>
      match d !! t, params with
      | None, _ => inl (NoSuchTable t)
      | Some entries, [] => inr (d, entries)
      | Some _, _ => inl WrongBindings
      end
  | InsertIfAbsent t =>
      match d !! t, params with
      | None, _ => inl (NoSuchTable t)
      | Some entries, [k] =>
          inr (<[t := if bool_decide (k ∈ entries) then entries
                      else (entries ++ [k])%list]> d, [])
      | Some _, _ => inl WrongBindings
      end
  | CreateTableIfNotExists t _ =>
      match d !! t, params with
      | None, [] => inr (<[t := []]> d, [])
      | Some _, [] => inr (d, [])
      | _, _ => inl WrongBindings
      end
  | Begin => inr (d, [])
  | Pragma _ => inr (d, [])
  end.

Fixpoint run_many (s : statement) (rows : list string) (d : database)
  : sql_error + database :=
  match rows with
  | [] => inr d
  | r :: rows' =>
      match run_statement s [r] d with
      | inl e => inl e
      | inr (d', _) => run_many s rows' d'
      end
  end.

Definition parse (con : handle) (sql : string) : option statement :=
  match con with
  | SqliteCon _ => sqlite_parse sql
  | PgCon _ => pg_parse sql
  end.

Definition lookup_con (con : handle) (w : world) : option connection_state :=
  match con with
  | SqliteCon p => files w !! p
  | PgCon u => servers w !! u
  end.

Definition store_con (con : handle) (st : connection_state) (w : world) : world :=
  match con with
  | SqliteCon p => set_files (<[p := st]> (files w)) w
  | PgCon u => set_servers (<[u := st]> (servers w)) w
  end.

(** A SQLite connection with [isolation_level = None] commits every statement
    at once unless a transaction was opened with [BEGIN]; a psycopg connection
    keeps every statement in a transaction until [commit] or [rollback]. *)
Definition after_statement (con : handle) (st : connection_state) (d : database)
  : connection_state :=
  match con with
  | SqliteCon _ =>
      {| committed := if in_transaction st then committed st else d;
         current := d;
         in_transaction := in_transaction st |}
  | PgCon _ =>
      {| committed := committed st; current := d; in_transaction := true |}
  end.

(** [cursor.execute(sql, params)]; the result is what the cursor then holds. *)
Definition cursor_execute (con : handle) (sql : string) (params : list string)
  : M (list string) :=
  request (execute_call con sql params);;
  w ← get;
  match lookup_con con w with
  | None => raise (engine_exn con NoConnection)
  | Some st =>
      match parse con sql with
      | None => raise (engine_exn con SyntaxError)
      | Some Begin =>
          if in_transaction st then raise (engine_exn con NestedTransaction)
          else
            put (store_con con {| committed := committed st;
                                  current := current st;
                                  in_transaction := true |} w);;
            mret []
      | Some s =>
          match run_statement s params (current st) with
          | inl err => raise (engine_exn con err)
          | inr (d, rows) =>
              put (store_con con (after_statement con st d) w);; mret rows
          end
      end
  end.

(** [cursor.executemany(sql, rows)], each row binding the one parameter. *)
Definition cursor_executemany (con : handle) (sql : string) (rows : list string)
  : M unit :=
  request (executemany_call con sql rows);;
  w ← get;
  match lookup_con con w with
  | None => raise (engine_exn con NoConnection)
  | Some st =>
      match parse con sql with
      | None => raise (engine_exn con SyntaxError)
      | Some s =>
          match run_many s rows (current st) with
          | inl err => raise (engine_exn con err)
          | inr d => put (store_con con (after_statement con st d) w)
          end
      end
  end.

(** [cursor.fetchone()] on what [execute] left in the cursor. *)
Definition fetchone (rows : list string) : pyvalue :=
  match rows with
  | [] => PyNone
  | r :: _ => PyRow r
  end.

(** [connection.commit()] *)
Definition commit (con : handle) : M unit :=
  request (commit_call con);;
  w ← get;
  match lookup_con con w with
  | None => raise (engine_exn con NoConnection)
  | Some st =>
      put (store_con con {| committed := current st; current := current st;
                            in_transaction := false |} w)
  end.

(** [connection.rollback()] *)
Definition rollback (con : handle) : M unit :=
  request (rollback_call con);;
  w ← get;
  match lookup_con con w with
  | None => raise (engine_exn con NoConnection)
  | Some st =>
      put (store_con con {| committed := committed st; current := committed st;
                            in_transaction := false |} w)
  end.

(** [connection.close()] *)
Definition close (con : handle) : M unit :=
  request (close_call con).

(** [with connection: body] on a SQLite connection: commit when the body
    returns, roll back and re-raise when it raises. *)
Definition with_connection {A} (con : handle) (body : M A) : M A :=
  fun E w =>
    match body E w with
    | (Ok a, w') => (commit con;; mret a) E w'
    | (Raise e, w') => (rollback con;; raise e) E w'
    end.

(** [__import__(name)] *)
Definition import (name : string) : M unit :=
  request (import_call name).

(** A new session sees the committed data and has no open transaction. *)
Definition new_session (st : connection_state) : connection_state :=
  {| committed := committed st; current := committed st;
     in_transaction := false |}.

(** [sqlite3.connect(path, timeout=60, check_same_thread=False)]: an existing
    file is opened, a missing one is created when its directory exists (the
    empty directory name is the working directory). *)
Definition sqlite3_connect (path : string) : M handle :=
  request (sqlite3_connect_call path);;
  w ← get;
  match files w !! path with
  | Some st =>
      put (set_files (<[path := new_session st]> (files w)) w);;
      mret (SqliteCon path)
  | None =>
      if bool_decide (path ∈ dirs w) then
        raise (engine_exn (SqliteCon path) NoConnection)
      else if negb (truthy_str (dirname path)) || bool_decide (dirname path ∈ dirs w)
      then put (set_files (<[path := empty_database]> (files w)) w);;
           mret (SqliteCon path)
      else raise (engine_exn (SqliteCon path) NoConnection)
  end.

(** [psycopg.connect(uri)] *)
Definition psycopg_connect (uri : string) : M handle :=
  request (psycopg_connect_call uri);;
  w ← get;
  match servers w !! uri with
  | Some st =>
      put (set_servers (<[uri := new_session st]> (servers w)) w);;
      mret (PgCon uri)
  | None => raise (psycopg_Error "connection failed")
  end.

(** ** The model of the operating system *)

(** The directories above [name]: its prefixes that end before a separator. *)
Fixpoint parents_from (pre s : string) : list string :=
  match s with
  | EmptyString => []
  | String c s' =>
      ((if Ascii.eqb c sep && truthy_str pre then [pre] else [])
         ++ parents_from (pre ++ String c EmptyString) s')%list
  end.

(** [os.makedirs(name)]: [mkdir] of the empty name fails with ENOENT, an
    existing name fails with EEXIST, otherwise the directory and its missing
    parents are created. *)
Definition makedirs (name : string) : M unit :=
  request (makedirs_call name);;
  w ← get;
  if negb (truthy_str name) then raise (FileNotFoundError name)
  else if bool_decide (name ∈ dirs w) || bool_decide (is_Some (files w !! name))
  then raise (FileExistsError name)
  else put (set_dirs ({[name]} ∪ list_to_set (parents_from EmptyString name) ∪ dirs w) w).

(** [os.remove(path)] *)
Definition remove (path : string) : M unit :=
  request (remove_call path);;
  w ← get;
  match files w !! path with
  | Some _ => put (set_files (delete path (files w)) w)
  | None => raise (FileNotFoundError path)
  end.

(** [os.path.exists(path)] *)
Definition exists_ (path : string) : M bool :=
  w ← get;
  mret (bool_decide (is_Some (files w !! path)) || bool_decide (path ∈ dirs w)).

(** [if DownloadArchive._sqlite3 is None:
      DownloadArchive._sqlite3 = __import__("sqlite3")]
    (lines 74-75 and 226-227) *)
Definition ensure_sqlite3 : M unit :=
  w ← get;
  if sqlite3_module w then mret tt
  else import "sqlite3";; modify (set_sqlite3_module true).

(** [if self._psycopg is None:
      DownloadArchivePostgresql._psycopg = __import__("psycopg")]
    (lines 171-172) *)
Definition ensure_psycopg : M unit :=
  w ← get;
  if psycopg_module w then mret tt
  else import "psycopg";; modify (set_psycopg_module true).

(** ** class DownloadArchive (archive.py, lines 70-126) *)

Module DownloadArchive.

Record t : Type := {
  keygen : gmap string string -> string;
  connection : handle;
  _cache_key : string;
  _stmt_select : string;
  _stmt_insert : string
}.

(** The statement texts of lines 93-100 and 107-112, [table] being the
    table as it is spliced into them. *)
Definition stmt_select (table : string) : string :=
  "SELECT 1 " ++ "FROM " ++ table ++ " " ++ "WHERE entry=? " ++ "LIMIT 1".
Definition stmt_insert (table : string) : string :=
  "INSERT OR IGNORE INTO " ++ table ++ " " ++ "(entry) VALUES (?)".
Definition stmt_create_without_rowid (table : string) : string :=
  "CREATE TABLE IF NOT EXISTS " ++ table ++ " "
  ++ "(entry TEXT PRIMARY KEY) WITHOUT ROWID".
Definition stmt_create (table : string) : string :=
  "CREATE TABLE IF NOT EXISTS " ++ table ++ " " ++ "(entry TEXT PRIMARY KEY)".

(** [con.isolation_level = None] is the autocommit mode that
    [after_statement] gives every SQLite session. *)
Definition __init__ (path : string) (keygen : gmap string string -> string)
    (table : option string) (pragma : option (list string))
    (cache_key : option string) : M t :=
  ensure_sqlite3;;
  con ← try_except_when is_sqlite3_OperationalError
          (sqlite3_connect path)
          (fun _ => makedirs (dirname path);; sqlite3_connect path);
  let cache_key := py_or cache_key "_archive_key" in
  let table := match table with None => "archive" | Some t => sanitize t end in
  let _stmt_select := stmt_select table in
  let _stmt_insert := stmt_insert table in
  match pragma with
  | Some stmts =>
      for_each stmts (fun stmt => cursor_execute con ("PRAGMA " ++ stmt) [];; mret tt)
  | None => mret tt
  end;;
  try_except_when is_sqlite3_OperationalError
    (cursor_execute con (stmt_create_without_rowid table) [];; mret tt)
    (fun _ =>
       (* fallback for missing WITHOUT ROWID support (#553) *)
       cursor_execute con (stmt_create table) [];; mret tt);;
  mret {| keygen := keygen; connection := con; _cache_key := cache_key;
          _stmt_select := _stmt_select; _stmt_insert := _stmt_insert |}.

(** Add item described by 'kwdict' to archive *)
Definition add (self : t) (kwdict : nat) : M unit :=
  kw ← dict_read kwdict;
  let key := py_or (kw !! _cache_key self) (keygen self kw) in
  cursor_execute (connection self) (_stmt_insert self) [key];;
  mret tt.

(** Return True if the item described by 'kwdict' exists in archive *)
Definition check (self : t) (kwdict : nat) : M pyvalue :=
  kw ← dict_read kwdict;
  let key := keygen self kw in
  dict_setitem kwdict (_cache_key self) key;;
  rows ← cursor_execute (connection self) (_stmt_select self) [key];
  mret (fetchone rows).

Definition finalize (self : t) : M unit := mret tt.

End DownloadArchive.

(** ** class DownloadArchiveMemory(DownloadArchive) (lines 129-164) *)

Module DownloadArchiveMemory.

Record t : Type := {
  base : DownloadArchive.t;
  keys : nat   (* the set object bound to [self.keys] *)
}.

Definition __init__ (path : string) (keygen : gmap string string -> string)
    (table : option string) (pragma : option (list string))
    (cache_key : option string) : M t :=
  b ← DownloadArchive.__init__ path keygen table pragma cache_key;
  s ← set_new;
  mret {| base := b; keys := s |}.

Definition add (self : t) (kwdict : nat) : M unit :=
  kw ← dict_read kwdict;
  set_add (keys self)
    (py_or (kw !! DownloadArchive._cache_key (base self))
           (DownloadArchive.keygen (base self) kw)).

Definition check (self : t) (kwdict : nat) : M pyvalue :=
  kw ← dict_read kwdict;
  let key := DownloadArchive.keygen (base self) kw in
  dict_setitem kwdict (DownloadArchive._cache_key (base self)) key;;
  ks ← set_read (keys self);
  if bool_decide (key ∈ ks) then mret (PyBool true)
  else
    rows ← cursor_execute (DownloadArchive.connection (base self))
             (DownloadArchive._stmt_select (base self)) [key];
    mret (fetchone rows).

Definition finalize (self : t) : M unit :=
  ks ← set_read (keys self);
  if bool_decide (ks = ∅) then mret tt
  else
    let cursor := DownloadArchive.connection (base self) in
    with_connection (DownloadArchive.connection (base self))
      (try_except_when is_sqlite3_OperationalError
         (cursor_execute cursor "BEGIN" [];; mret tt)
         (fun _ => mret tt);;
       let stmt := DownloadArchive._stmt_insert (base self) in
       if (size ks <? 100)%nat then
         for_each (elements ks) (fun key => cursor_execute cursor stmt [key];; mret tt)
       else
         cursor_executemany cursor stmt (elements ks)).

End DownloadArchiveMemory.

(** ** class DownloadArchivePostgresql (lines 167-270) *)

Module DownloadArchivePostgresql.

Record t : Type := {
  keygen : gmap string string -> string;
  connection : handle;
  _cache_key : string;
  _stmt_select : string;
  _stmt_insert : string
}.

(** The statement texts of lines 181-193 and 239. *)
Definition stmt_select (table : string) : string :=
  "SELECT true " ++ "FROM " ++ table ++ " " ++ "WHERE entry=%s " ++ "LIMIT 1".
Definition stmt_insert (table : string) : string :=
  "INSERT INTO " ++ table ++ " (entry) " ++ "VALUES (%s) "
  ++ "ON CONFLICT DO NOTHING".
Definition stmt_create (table : string) : string :=
  "CREATE TABLE IF NOT EXISTS " ++ table ++ " " ++ "(entry TEXT PRIMARY KEY)".
Definition stmt_select_entries (table : string) : string :=
  "SELECT entry FROM " ++ table.

Definition __init__ (uri : string) (keygen : gmap string string -> string)
    (table : option string) (pragma : option (list string))
    (cache_key : option string) : M t :=
  ensure_psycopg;;
  con ← psycopg_connect uri;
  let cache_key := py_or cache_key "_archive_key" in
  let table := match table with None => "archive" | Some t => sanitize t end in
  let _stmt_select := stmt_select table in
  let _stmt_insert := stmt_insert table in
  try_except
    (cursor_execute con (stmt_create table) [];;
     commit con)
    (fun exc =>
       log ERROR "%s: %s when creating '%s' table: %s";;
       rollback con;;
       raise exc);;
  mret {| keygen := keygen; connection := con; _cache_key := cache_key;
          _stmt_select := _stmt_select; _stmt_insert := _stmt_insert |}.

Definition add (self : t) (kwdict : nat) : M unit :=
  kw ← dict_read kwdict;
  let key := py_or (kw !! _cache_key self) (keygen self kw) in
  try_except
    (cursor_execute (connection self) (_stmt_insert self) [key];;
     commit (connection self))
    (fun exc =>
       log ERROR "%s: %s when writing entry: %s";;
       rollback (connection self)).

Definition check (self : t) (kwdict : nat) : M pyvalue :=
  kw ← dict_read kwdict;
  let key := keygen self kw in
  dict_setitem kwdict (_cache_key self) key;;
  try_except
    (rows ← cursor_execute (connection self) (_stmt_select self) [key];
     mret (fetchone rows))
    (fun exc =>
       log ERROR "%s: %s when checking entry: %s";;
       rollback (connection self);;
       mret (PyBool false)).

Definition finalize (self : t) : M unit := mret tt.

Definition sync_from_sqlite (self : t) (sqlite_path : string)
    (table : option string) (delete_sqlite : bool) : M Z :=
  ensure_sqlite3;;
  E ← ask;
  let sqlite_path := util_expand_path E sqlite_path in
  con_sqlite ← sqlite3_connect sqlite_path;
  let sqlite_table := match table with None => "archive" | Some t => t end in
  let sqlite_table_quoted := sanitize sqlite_table in
  try_finally
    (rows ← cursor_execute con_sqlite (stmt_select_entries sqlite_table_quoted) [];
     match rows with
     | [] =>
         log INFO "No new entries to sync from SQLite";;
         mret 0
     | _ =>
         try_except
           (cursor_executemany (connection self) (_stmt_insert self) rows;;
            commit (connection self);;
            let synced := Z.of_nat (List.length rows) in
            log INFO "Synced %d entries from SQLite to PostgreSQL";;
            (if delete_sqlite then
               try_except
                 (close con_sqlite;;
                  remove sqlite_path;;
                  log INFO "Removed fallback sqlite archive %s")
                 (fun exc =>
                    log ERROR "Failed to remove sqlite fallback file: %s";;
                    log ERROR traceback_format_exc)
             else mret tt);;
            mret synced)
           (fun exc =>
              log ERROR "Failed syncing from SQLite into Postgres: %s";;
              rollback (connection self);;
              log ERROR traceback_format_exc;;
              raise exc)
     end)
    (try_except (close con_sqlite) (fun _ => mret tt)).

End DownloadArchivePostgresql.

(** ** class DownloadArchivePostgresqlMemory(DownloadArchivePostgresql)
       (lines 273-309) *)

Module DownloadArchivePostgresqlMemory.

Record t : Type := {
  base : DownloadArchivePostgresql.t;
  keys : nat
}.

Definition __init__ (path : string) (keygen : gmap string string -> string)
    (table : option string) (pragma : option (list string))
    (cache_key : option string) : M t :=
  b ← DownloadArchivePostgresql.__init__ path keygen table pragma cache_key;
  s ← set_new;
  mret {| base := b; keys := s |}.

Definition add (self : t) (kwdict : nat) : M unit :=
  kw ← dict_read kwdict;
  set_add (keys self)
    (py_or (kw !! DownloadArchivePostgresql._cache_key (base self))
           (DownloadArchivePostgresql.keygen (base self) kw)).

Definition check (self : t) (kwdict : nat) : M pyvalue :=
  kw ← dict_read kwdict;
  let key := DownloadArchivePostgresql.keygen (base self) kw in
  dict_setitem kwdict (DownloadArchivePostgresql._cache_key (base self)) key;;
  ks ← set_read (keys self);
  if bool_decide (key ∈ ks) then mret (PyBool true)
  else
    try_except
      (rows ← cursor_execute (DownloadArchivePostgresql.connection (base self))
                (DownloadArchivePostgresql._stmt_select (base self)) [key];
       mret (fetchone rows))
      (fun exc =>
         log ERROR "%s: %s when checking entry: %s";;
         rollback (DownloadArchivePostgresql.connection (base self));;
         mret (PyBool false)).

Definition finalize (self : t) : M unit :=
  ks ← set_read (keys self);
  if bool_decide (ks = ∅) then mret tt
  else
    try_except
      (cursor_executemany (DownloadArchivePostgresql.connection (base self))
         (DownloadArchivePostgresql._stmt_insert (base self)) (elements ks);;
       commit (DownloadArchivePostgresql.connection (base self)))
      (fun exc =>
         log ERROR "%s: %s when writing entries: %s";;
         rollback (DownloadArchivePostgresql.connection (base self))).

(** Inherited from [DownloadArchivePostgresql]. *)
Definition sync_from_sqlite (self : t) :=
  DownloadArchivePostgresql.sync_from_sqlite (base self).

End DownloadArchivePostgresqlMemory.

(** ** The ledger objects and the classes as values *)

Inductive cls : Type :=
  | Cls_DownloadArchive
  | Cls_DownloadArchiveMemory
  | Cls_DownloadArchivePostgresql
  | Cls_DownloadArchivePostgresqlMemory.

Inductive archive : Type :=
  | Sqlite (a : DownloadArchive.t)
  | SqliteMemory (a : DownloadArchiveMemory.t)
  | Postgresql (a : DownloadArchivePostgresql.t)
  | PostgresqlMemory (a : DownloadArchivePostgresqlMemory.t).

(** [cls(path, keygen, table, pragma, cache_key)] *)
Definition construct (c : cls) (path : string)
    (keygen : gmap string string -> string) (table : option string)
    (pragma : option (list string)) (cache_key : option string) : M archive :=
  match c with
  | Cls_DownloadArchive =>
      Sqlite <$> DownloadArchive.__init__ path keygen table pragma cache_key
  | Cls_DownloadArchiveMemory =>
      SqliteMemory <$> DownloadArchiveMemory.__init__ path keygen table pragma cache_key
  | Cls_DownloadArchivePostgresql =>
      Postgresql <$> DownloadArchivePostgresql.__init__ path keygen table pragma cache_key
  | Cls_DownloadArchivePostgresqlMemory =>
      PostgresqlMemory <$>
        DownloadArchivePostgresqlMemory.__init__ path keygen table pragma cache_key
  end.

(** [isinstance(a, DownloadArchive)]: the embedded (SQLite) ledgers. *)
Definition is_embedded (a : archive) : bool :=
  match a with
  | Sqlite _ | SqliteMemory _ => true
  | Postgresql _ | PostgresqlMemory _ => false
  end.

(** Method dispatch. *)
Definition archive_add (a : archive) (kwdict : nat) : M unit :=
  match a with
  | Sqlite s => DownloadArchive.add s kwdict
  | SqliteMemory s => DownloadArchiveMemory.add s kwdict
  | Postgresql s => DownloadArchivePostgresql.add s kwdict
  | PostgresqlMemory s => DownloadArchivePostgresqlMemory.add s kwdict
  end.

Definition archive_check (a : archive) (kwdict : nat) : M pyvalue :=
  match a with
  | Sqlite s => DownloadArchive.check s kwdict
  | SqliteMemory s => DownloadArchiveMemory.check s kwdict
  | Postgresql s => DownloadArchivePostgresql.check s kwdict
  | PostgresqlMemory s => DownloadArchivePostgresqlMemory.check s kwdict
  end.

Definition archive_finalize (a : archive) : M unit :=
  match a with
  | Sqlite s => DownloadArchive.finalize s
  | SqliteMemory s => DownloadArchiveMemory.finalize s
  | Postgresql s => DownloadArchivePostgresql.finalize s
  | PostgresqlMemory s => DownloadArchivePostgresqlMemory.finalize s
  end.

(** [pg.sync_from_sqlite(...)] for [pg] an instance of either PostgreSQL class;
    the embedded classes have no such method. *)
Definition archive_sync_from_sqlite (a : archive) (sqlite_path : string)
    (table : option string) (delete_sqlite : bool) : M Z :=
  match a with
  | Postgresql s =>
      DownloadArchivePostgresql.sync_from_sqlite s sqlite_path table delete_sqlite
  | PostgresqlMemory s =>
      DownloadArchivePostgresqlMemory.sync_from_sqlite s sqlite_path table delete_sqlite
  | _ => raise (OtherException "AttributeError: sync_from_sqlite")
  end.

(** ** [connect] (archive.py, lines 19-63)

    The body of the first [try] either returns the ledger ([inl]) or, through
    its handler, falls out of the [if] with the local variables [path] and
    [cls] as they then are ([inr]); [cls] was bound inside the [try].
    [path] is a string here, so [isinstance(path, str)] holds. *)
Definition connect (path prefix format : string) (table : option string)
    (mode : option string) (pragma : option (list string))
    (kwdict : option nat) (cache_key : option string) : M archive :=
  E ← ask;
  let keygen := formatter_parse E (prefix ++ format) in
  r ← (if startswith path "postgres://" || startswith path "postgresql://" then
         let cls :=
           if bool_decide (mode = Some "memory")
           then Cls_DownloadArchivePostgresqlMemory
           else Cls_DownloadArchivePostgresql in
         try_except
           (pg ← construct cls path keygen table pragma cache_key;
            try_except
              (let fallback_path := util_expand_path E "archive-fallback.sqlite3" in
               present ← exists_ fallback_path;
               if present : bool then
                 try_except
                   (synced ← archive_sync_from_sqlite pg fallback_path table false;
                    log INFO "Postgres is up — synced %s entries from fallback sqlite")
                   (fun _ =>
                      log ERROR "Postgres is up but syncing from fallback sqlite failed";;
                      log ERROR traceback_format_exc)
               else mret tt)
              (fun _ =>
                 log DEBUG "Could not check or sync fallback archive";;
                 log ERROR traceback_format_exc);;
            mret (inl pg))
           (fun e =>
              log WARNING "PostgreSQL unavailable (%s). Falling back to SQLite.";;
              log ERROR traceback_format_exc;;
              mret (inr ("archive-fallback.sqlite3", cls)))
       else
         let path := util_expand_path E path in
         path ← match kwdict with
                | Some kw =>
                    if contains "{"%char path then
                      d ← dict_read kw; mret (formatter_parse E path d)
                    else mret path
                | None => mret path
                end;
         let cls :=
           if bool_decide (mode = Some "memory")
           then Cls_DownloadArchiveMemory
           else Cls_DownloadArchive in
         mret (inr (path, cls)));
  match r with
  | inl pg => mret pg
  | inr (path, cls) =>
      table ← match kwdict, table with
              | Some kw, Some t =>
                  if truthy_str t then
                    d ← dict_read kw; mret (Some (formatter_parse E t d))
                  else mret table
              | _, _ => mret table
              end;
      construct cls path keygen table pragma cache_key
  end.

(** ** Vocabulary of the statements *)

(** The table as [__init__] splices it into the statements (lines 92, 180):
    [table = "archive" if table is None else sanitize(table)]. *)
Definition table_text (table : option string) : string :=
  match table with None => "archive" | Some t => sanitize t end.

(** The identifier the engine reads from [table_text table]. *)
Definition table_name (table : option string) : string :=
  match table with None => "archive" | Some t => replace dquote "_"%char t end.

Definition starts_with_dquote (s : string) : bool :=
  match s with
  | String c _ => Ascii.eqb c dquote
  | EmptyString => false
  end.

(** Following the spec's words for the key of an item:
    [key = cache[item] or KeyFormatter(item)]. *)
Definition spec_key (cache_key : string) (keygen : gmap string string -> string)
    (kw : gmap string string) : string :=
  py_or (kw !! cache_key) (keygen kw).

(** ** Vocabulary of the ledgers *)

Definition is_buffered (a : archive) : bool :=
  match a with
  | SqliteMemory _ | PostgresqlMemory _ => true
  | Sqlite _ | Postgresql _ => false
  end.

Definition archive_connection (a : archive) : handle :=
  match a with
  | Sqlite s => DownloadArchive.connection s
  | SqliteMemory s => DownloadArchive.connection (DownloadArchiveMemory.base s)
  | Postgresql s => DownloadArchivePostgresql.connection s
  | PostgresqlMemory s =>
      DownloadArchivePostgresql.connection (DownloadArchivePostgresqlMemory.base s)
  end.

Definition archive_keygen (a : archive) : gmap string string -> string :=
  match a with
  | Sqlite s => DownloadArchive.keygen s
  | SqliteMemory s => DownloadArchive.keygen (DownloadArchiveMemory.base s)
  | Postgresql s => DownloadArchivePostgresql.keygen s
  | PostgresqlMemory s =>
      DownloadArchivePostgresql.keygen (DownloadArchivePostgresqlMemory.base s)
  end.

Definition archive_cache_key (a : archive) : string :=
  match a with
  | Sqlite s => DownloadArchive._cache_key s
  | SqliteMemory s => DownloadArchive._cache_key (DownloadArchiveMemory.base s)
  | Postgresql s => DownloadArchivePostgresql._cache_key s
  | PostgresqlMemory s =>
      DownloadArchivePostgresql._cache_key (DownloadArchivePostgresqlMemory.base s)
  end.

Definition archive_stmt_select (a : archive) : string :=
  match a with
  | Sqlite s => DownloadArchive._stmt_select s
  | SqliteMemory s => DownloadArchive._stmt_select (DownloadArchiveMemory.base s)
  | Postgresql s => DownloadArchivePostgresql._stmt_select s
  | PostgresqlMemory s =>
      DownloadArchivePostgresql._stmt_select (DownloadArchivePostgresqlMemory.base s)
  end.

Definition archive_stmt_insert (a : archive) : string :=
  match a with
  | Sqlite s => DownloadArchive._stmt_insert s
  | SqliteMemory s => DownloadArchive._stmt_insert (DownloadArchiveMemory.base s)
  | Postgresql s => DownloadArchivePostgresql._stmt_insert s
  | PostgresqlMemory s =>
      DownloadArchivePostgresql._stmt_insert (DownloadArchivePostgresqlMemory.base s)
  end.

(** The pending set of a buffered ledger in a world. *)
Definition pending (a : archive) (w : world) : gset string :=
  match a with
  | SqliteMemory s => default ∅ (sets w !! DownloadArchiveMemory.keys s)
  | PostgresqlMemory s => default ∅ (sets w !! DownloadArchivePostgresqlMemory.keys s)
  | _ => ∅
  end.

(** The attributes of a ledger are those its [__init__] assigns for the
    location [loc] and the table argument [table]. *)
Definition constructed (a : archive) (loc : string) (table : option string) : Prop :=
  if is_embedded a then
    archive_connection a = SqliteCon loc
    /\ archive_stmt_select a = DownloadArchive.stmt_select (table_text table)
    /\ archive_stmt_insert a = DownloadArchive.stmt_insert (table_text table)
  else
    archive_connection a = PgCon loc
    /\ archive_stmt_select a = DownloadArchivePostgresql.stmt_select (table_text table)
    /\ archive_stmt_insert a = DownloadArchivePostgresql.stmt_insert (table_text table).

(** The store behind [con] is open, outside a transaction, and its table
    [table] holds [entries], all of them committed. *)
Definition table_holds (con : handle) (table : option string)
    (entries : list string) (w : world) : Prop :=
  exists st,
    lookup_con con w = Some st
    /\ in_transaction st = false
    /\ current st = committed st
    /\ committed st !! table_name table = Some entries.

(** An open session outside a transaction, with nothing uncommitted. *)
Definition settled (con : handle) (w : world) : Prop :=
  exists st,
    lookup_con con w = Some st
    /\ in_transaction st = false
    /\ current st = committed st.

(** The committed entries of a table, as a later session would read them. *)
Definition stored (con : handle) (table : option string) (w : world)
  : option (list string) :=
  match lookup_con con w with
  | Some st => committed st !! table_name table
  | None => None
  end.

(** The environment serves every call. *)
Definition quiet (E : env) : Prop := forall h, oracle E h = None.

(** Insert-if-absent on the entries of a table. *)
Definition insert_entry (k : string) (entries : list string) : list string :=
  if bool_decide (k ∈ entries) then entries else (entries ++ [k])%list.

Definition insert_entries (ks entries : list string) : list string :=
  foldl (fun acc k => insert_entry k acc) entries ks.

(** How many rows of a table hold the key [k]. *)
Definition count_rows (k : string) (entries : list string) : nat :=
  List.length (filter (fun x => x = k) entries).

(** ** Concrete worlds for the examples *)

(** Every call is served; paths expand to themselves; a key template is
    followed by the item's [id]. *)
Definition example_env : env :=
  {| oracle := fun _ => None;
     util_expand_path := fun p => p;
     formatter_parse := fun template kw => template ++ default "" (kw !! "id") |}.

Definition world0 : world :=
  {| files := ∅; dirs := ∅; servers := ∅;
     sqlite3_module := true; psycopg_module := true;
     dicts := ∅; sets := ∅; history := []; logged := [] |}.

Definition table_of (table : string) (entries : list string) : connection_state :=
  {| committed := {[table := entries]}; current := {[table := entries]};
     in_transaction := false |}.

(** [DownloadArchive("archive.sqlite3", keygen)] once constructed. *)
Definition example_sqlite : DownloadArchive.t :=
  {| DownloadArchive.keygen := formatter_parse example_env "key-";
     DownloadArchive.connection := SqliteCon "archive.sqlite3";
     DownloadArchive._cache_key := "_archive_key";
     DownloadArchive._stmt_select := DownloadArchive.stmt_select "archive";
     DownloadArchive._stmt_insert := DownloadArchive.stmt_insert "archive" |}.

(** [DownloadArchivePostgresql("postgres://db/gallery", keygen)] once
    constructed. *)
Definition example_pg : DownloadArchivePostgresql.t :=
  {| DownloadArchivePostgresql.keygen := formatter_parse example_env "key-";
     DownloadArchivePostgresql.connection := PgCon "postgres://db/gallery";
     DownloadArchivePostgresql._cache_key := "_archive_key";
     DownloadArchivePostgresql._stmt_select :=
       DownloadArchivePostgresql.stmt_select "archive";
     DownloadArchivePostgresql._stmt_insert :=
       DownloadArchivePostgresql.stmt_insert "archive" |}.

(** A buffered SQLite ledger whose pending set is the set object [0]. *)
Definition example_memory : DownloadArchiveMemory.t :=
  {| DownloadArchiveMemory.base := example_sqlite;
     DownloadArchiveMemory.keys := 0%nat |}.

(** The item [{"id": "7"}], as the dict object [0], next to an empty SQLite
    archive. *)
Definition fresh_item_world : world :=
  set_dicts {[0%nat := {["id" := "7"]}]}
    (set_sets {[0%nat := ∅]}
       (set_files {["archive.sqlite3" := table_of "archive" []]} world0)).

(** The item [{"id": "7", "_archive_key": "cached"}]: an earlier [check]
    left the key ["cached"] in it; the archive holds that key. *)
Definition stale_item_world : world :=
  set_dicts {[0%nat := {["id" := "7"; "_archive_key" := "cached"]}]}
    (set_sets {[0%nat := ∅]}
       (set_files {["archive.sqlite3" := table_of "archive" ["cached"]]} world0)).

(** A buffered ledger with the pending key ["a"] and an empty table. *)
Definition pending_world : world :=
  set_sets {[0%nat := {["a"]}]}
    (set_files {["archive.sqlite3" := table_of "archive" []]} world0).

(** The item of [stale_item_world] next to an empty archive. *)
Definition stale_item_empty_world : world :=
  set_files {["archive.sqlite3" := table_of "archive" []]} stale_item_world.

(** An environment in which the first attempt to open a SQLite file fails. *)
Definition first_open_fails : env :=
  {| oracle := fun h =>
       match h with
       | [sqlite3_connect_call _] =>
           Some (sqlite3_OperationalError "unable to open database file")
       | _ => None
       end;
     util_expand_path := fun p => p;
     formatter_parse := fun template kw => template ++ default "" (kw !! "id") |}.

(** The session behind [con] was rolled back to the data that were committed
    in [st]. *)
Definition rolled_back (con : handle) (st : connection_state) (w : world) : Prop :=
  lookup_con con w
  = Some {| committed := committed st; current := committed st;
            in_transaction := false |}.

(** An environment in which the statement of any [execute] fails. *)
Definition execute_fails : env :=
  {| oracle := fun h =>
       match last h with
       | Some (execute_call _ _ _) => Some (psycopg_Error "server closed the connection")
       | _ => None
       end;
     util_expand_path := fun p => p;
     formatter_parse := fun template kw => template ++ default "" (kw !! "id") |}.

(** The item [{"id": "7"}] next to a PostgreSQL archive holding ["key-1"]. *)
Definition pg_item_world : world :=
  set_dicts {[0%nat := {["id" := "7"]}]}
    (set_servers {["postgres://db/gallery" := table_of "archive" ["key-1"]]} world0).

(** The same world once [check] has stored the key in the item. *)
Definition pg_checked_item_world : world :=
  set_dicts {[0%nat := {["id" := "7"; "_archive_key" := "key-7"]}]} pg_item_world.

(** ** Fault policies for the reconciliation *)

(** The stage of [sync_from_sqlite] at which the environment fails. *)
Inductive stage : Type :=
  | Replay_executemany   (* the bulk insert into the networked store *)
  | Replay_commit        (* the commit of the bulk insert *)
  | Cleanup_close        (* closing the fallback store before deleting it *)
  | Cleanup_remove.      (* deleting the fallback file *)

Definition fails_at (s : stage) (c : syscall) : bool :=
  match c, s with
  | executemany_call _ _ _, Replay_executemany => true
  | commit_call _, Replay_commit => true
  | close_call _, Cleanup_close => true
  | remove_call _, Cleanup_remove => true
  | _, _ => false
  end.

Definition is_replay (s : stage) : bool :=
  match s with
  | Replay_executemany | Replay_commit => true
  | Cleanup_close | Cleanup_remove => false
  end.

(** The environment raises [e] at the calls selected by [p] and serves every
    other call. *)
Definition fails_only (E : env) (p : syscall -> bool) (e : exn) : Prop :=
  forall h c, oracle E (h ++ [c])%list = if p c then Some e else None.

(** What the ledger and the fallback file look like when reconciliation
    starts: the networked table holds [entries], the fallback file at the
    expanded path holds [rows] in the table of the same name. *)
Definition before_sync (E : env) (self : DownloadArchivePostgresql.t)
    (uri sqlite_path : string) (table : option string)
    (entries rows : list string) (w : world) : Prop :=
  constructed (Postgresql self) uri table
  /\ table_holds (PgCon uri) table entries w
  /\ exists fallback,
      files w !! util_expand_path E sqlite_path = Some fallback
      /\ committed fallback !! table_name table = Some rows.

(** An environment that fails at the given stage. *)
Definition failing_env (s : stage) (e : exn) : env :=
  {| oracle := fun h =>
       match last h with
       | Some c => if fails_at s c then Some e else None
       | None => None
       end;
     util_expand_path := fun p => p;
     formatter_parse := fun template kw => template ++ default "" (kw !! "id") |}.

(** The fallback file holds [a, b, c]; the networked store holds [b]. *)
Definition reconcile_world : world :=
  set_files {["archive-fallback.sqlite3" := table_of "archive" ["a"; "b"; "c"]]}
    (set_servers {["postgres://db/gallery" := table_of "archive" ["b"]]} world0).

(** The part of [sync_from_sqlite] that follows the reading of the rows
    (lines 241-270), named for the proofs. *)
Definition replay (self : DownloadArchivePostgresql.t) (con_sqlite : handle)
    (sqlite_path : string) (delete_sqlite : bool) (rows : list string) : M Z :=
  try_finally
    (match rows with
     | [] =>
         log INFO "No new entries to sync from SQLite";;
         mret 0
     | _ =>
         try_except
           (cursor_executemany (DownloadArchivePostgresql.connection self)
              (DownloadArchivePostgresql._stmt_insert self) rows;;
            commit (DownloadArchivePostgresql.connection self);;
            let synced := Z.of_nat (List.length rows) in
            log INFO "Synced %d entries from SQLite to PostgreSQL";;
            (if delete_sqlite then
               try_except
                 (close con_sqlite;;
                  remove sqlite_path;;
                  log INFO "Removed fallback sqlite archive %s")
                 (fun exc =>
                    log ERROR "Failed to remove sqlite fallback file: %s";;
                    log ERROR traceback_format_exc)
             else mret tt);;
            mret synced)
           (fun exc =>
              log ERROR "Failed syncing from SQLite into Postgres: %s";;
              rollback (DownloadArchivePostgresql.connection self);;
              log ERROR traceback_format_exc;;
              raise exc)
     end)
    (try_except (close con_sqlite) (fun _ => mret tt)).


(** ** Vocabulary of the further properties *)

(** Every table of every store has the same committed rows in [w'] as in
    [w]. *)
Definition same_committed (w w' : world) : Prop :=
  forall (con : handle) (table : option string),
    stored con table w' = stored con table w.

(** The call [cursor.execute("BEGIN")] of line 155. *)
Definition is_begin (c : syscall) : bool :=
  match c with
  | execute_call _ sql [] => String.eqb sql "BEGIN"
  | _ => false
  end.

(** An environment in which opening a transaction fails with
    [sqlite3.OperationalError] and every other call is served. *)
Definition begin_fails : env :=
  {| oracle := fun h =>
       match last h with
       | Some c =>
           if is_begin c
           then Some (sqlite3_OperationalError
                        "cannot start a transaction within a transaction")
           else None
       | None => None
       end;
     util_expand_path := fun p => p;
     formatter_parse := fun template kw => template ++ default "" (kw !! "id") |}.

(** A buffered networked ledger whose pending set is the set object [0]. *)
Definition example_pg_memory : DownloadArchivePostgresqlMemory.t :=
  {| DownloadArchivePostgresqlMemory.base := example_pg;
     DownloadArchivePostgresqlMemory.keys := 0%nat |}.

(** The pending key ["a"] next to a PostgreSQL archive holding ["key-1"]. *)
Definition pg_pending_world : world :=
  set_sets {[0%nat := {["a"]}]} pg_item_world.

(** The location [connect] opens for a local [path] (lines 52-54): the
    expanded path, formatted with the item when one is given and the path
    holds a brace. *)
Definition connect_path (E : env) (w : world) (path : string)
    (kwdict : option nat) : string :=
  match kwdict with
  | Some kw =>
      if contains "{"%char (util_expand_path E path)
      then formatter_parse E (util_expand_path E path) (default ∅ (dicts w !! kw))
      else util_expand_path E path
  | None => util_expand_path E path
  end.

(** The table argument [connect] hands to the class it calls at line 63
    (lines 60-61): formatted with the item when both are given and the table
    name is not empty. *)
Definition connect_table (E : env) (w : world) (table : option string)
    (kwdict : option nat) : option string :=
  match kwdict, table with
  | Some kw, Some t =>
      if truthy_str t then Some (formatter_parse E t (default ∅ (dicts w !! kw)))
      else table
  | _, _ => table
  end.

(** The statement of lines 107-108, as the engine reads it: a [CREATE TABLE]
    with the [WITHOUT ROWID] clause. *)
Definition is_create_without_rowid (c : syscall) : bool :=
  match c with
  | execute_call (SqliteCon _) sql _ =>
      match sqlite_parse sql with
      | Some (CreateTableIfNotExists _ true) => true
      | _ => false
      end
  | _ => false
  end.

(** The rows a table has once [CREATE TABLE IF NOT EXISTS] ran on [d]. *)
Definition create_if_missing (t : string) (d : database) : database :=
  match d !! t with
  | Some _ => d
  | None => <[t := []]> d
  end.

(** An engine without [WITHOUT ROWID] support: the statement that uses the
    clause fails with [e], every other call is served. *)
Definition without_rowid_fails (e : exn) : env :=
  {| oracle := fun h =>
       match last h with
       | Some c => if is_create_without_rowid c then Some e else None
       | None => None
       end;
     util_expand_path := fun p => p;
     formatter_parse := fun template kw => template ++ default "" (kw !! "id") |}.

(** A world in which the directory ["data"] exists and holds no file. *)
Definition data_dir_world : world := set_dirs {["data"]} world0.

(** ** What the engines refuse beyond the shape of a statement

    [sqlite_parse] and [pg_parse] read the shape of a statement and the
    identifier of its table; they accept every identifier.  The engines and
    their client libraries refuse more, and a refusal reaches the program as
    an exception of the call, that is, through [oracle].  The refusals that
    follow depend on the text of the call only, not on the store. *)

(** psycopg converts a query that comes with parameters: [%%] stands for one
    percent sign; [%s], [%b] and [%t] are positional placeholders; a percent
    sign before a line feed or at the very end is left alone; any other
    character after a percent sign is an error (so is a named placeholder
    when the parameters are a sequence).  The result is the number of
    positional placeholders, or [None] for an error. *)
Fixpoint psycopg_placeholders (query : string) : option nat :=
  match query with
  | EmptyString => Some 0%nat
  | String c rest =>
      if Ascii.eqb c "%" then
        match rest with
        | EmptyString => Some 0%nat
        | String d rest' =>
            if Ascii.eqb d "%" || Ascii.eqb d "010" then psycopg_placeholders rest'
            else if Ascii.eqb d "s" || Ascii.eqb d "b" || Ascii.eqb d "t"
            then S <$> psycopg_placeholders rest'
            else None
        end
      else psycopg_placeholders rest
  end.

(** A query with [n] parameters is refused unless it has [n] placeholders. *)
Definition psycopg_refuses (query : string) (n : nat) : bool :=
  match psycopg_placeholders query with
  | Some m => negb (m =? n)%nat
  | None => true
  end.

Definition statement_table (s : statement) : option string :=
  match s with
  | Select1 t | SelectEntries t | InsertIfAbsent t | CreateTableIfNotExists t _ =>
      Some t
  | Begin | Pragma _ => None
  end.

(** PostgreSQL refuses a zero-length delimited identifier. *)
Definition pg_refuses (sql : string) : bool :=
  match pg_parse sql with
  | Some s =>
      match statement_table s with
      | Some EmptyString => true
      | _ => false
      end
  | None => false
  end.

Definition ascii_lower (c : ascii) : ascii :=
  let n := nat_of_ascii c in
  if (65 <=? n)%nat && (n <=? 90)%nat then ascii_of_nat (n + 32) else c.

Fixpoint starts_with_nocase (p s : string) : bool :=
  match p, s with
  | EmptyString, _ => true
  | String a p', String b s' =>
      Ascii.eqb (ascii_lower a) (ascii_lower b) && starts_with_nocase p' s'
  | String _ _, EmptyString => false
  end.

(** The [sqlite3] module refuses a query that holds a NUL character; SQLite
    refuses to create a table whose name starts with [sqlite_], in any
    case of the letters. *)
Definition sqlite_refuses (sql : string) : bool :=
  contains "000"%char sql
  || match sqlite_parse sql with
     | Some (CreateTableIfNotExists t _) => starts_with_nocase "sqlite_" t
     | _ => false
     end.

(** The calls that the real engines never serve.  In the model a call
    without parameters has the empty parameter list. *)
Definition surely_refused (c : syscall) : bool :=
  match c with
  | execute_call (PgCon _) sql params =>
      match params with
      | [] => false
      | _ => psycopg_refuses sql (List.length params)
      end
      || pg_refuses sql
  | executemany_call (PgCon _) sql rows =>
      match rows with
      | [] => false
      | _ => psycopg_refuses sql 1 || pg_refuses sql
      end
  | execute_call (SqliteCon _) sql _ => sqlite_refuses sql
  | executemany_call (SqliteCon _) sql rows =>
      match rows with
      | [] => false
      | _ => sqlite_refuses sql
      end
  | _ => false
  end.

(** An environment is faithful to the engines when it serves none of these
    calls. *)
Definition faithful (E : env) : Prop :=
  forall h c, surely_refused c = true -> oracle E (h ++ [c])%list <> None.

(** The exception of a refused call. *)
Definition refusal (c : syscall) : exn :=
  match c with
  | execute_call (PgCon _) sql _ | executemany_call (PgCon _) sql _ =>
      if pg_refuses sql then psycopg_Error "zero-length delimited identifier"
      else psycopg_Error "the placeholders of the query do not fit its parameters"
  | execute_call (SqliteCon _) sql _ | executemany_call (SqliteCon _) sql _ =>
      if contains "000"%char sql
      then OtherException "the query contains a null character"
      else sqlite3_OperationalError "object name reserved for internal use"
  | _ => OtherException "refused"
  end.

(** The environment that refuses exactly these calls and serves every other
    one. *)
Definition strict_env : env :=
  {| oracle := fun h =>
       match last h with
       | Some c => if surely_refused c then Some (refusal c) else None
       | None => None
       end;
     util_expand_path := fun p => p;
     formatter_parse := fun template kw => template ++ default "" (kw !! "id") |}.

(** The table name made of a percent sign and a double quote, and the table
    name [sqlite] followed by a double quote. *)
Definition percent_quote_name : string := String "%" (String dquote EmptyString).
Definition sqlite_quote_name : string := "sqlite" ++ String dquote EmptyString.

(** The item [{"id": "7"}] next to a reachable PostgreSQL server without
    tables. *)
Definition reachable_world : world :=
  set_dicts {[0%nat := {["id" := "7"]}]}
    (set_servers {["postgres://db/gallery" := empty_database]} world0).

(** The item [{"id": "7"}] once the connection to the server is lost: no
    session is left behind the ledger [example_pg]. *)
Definition lost_connection_world : world :=
  set_dicts {[0%nat := {["id" := "7"]}]} world0.

(** An environment in which the server has gone away: every statement,
    commit and rollback on a connection fails. *)
Definition connection_drops : env :=
  {| oracle := fun h =>
       match last h with
       | Some (execute_call _ _ _) | Some (executemany_call _ _ _)
       | Some (commit_call _) | Some (rollback_call _) =>
           Some (psycopg_Error "server closed the connection unexpectedly")
       | _ => None
       end;
     util_expand_path := fun p => p;
     formatter_parse := fun template kw => template ++ default "" (kw !! "id") |}.

(** * Facts about strings and statement texts *)

#[local] Arguments String.append !s1 s2 : simpl nomatch.

Section StringFacts.

Lemma append_assoc' (a b c : string) : ((a ++ b) ++ c = a ++ (b ++ c))%string.
Proof. induction a as [|x a IH]; simpl; [reflexivity | now rewrite IH]. Qed.

Lemma replace_no_dquote (s : string) :
  contains dquote (replace dquote "_"%char s) = false.
Proof.
  induction s as [|c s IH]; simpl; [reflexivity|].
  destruct (Ascii.eqb c dquote) eqn:Hc; simpl.
  - exact IH.
  - rewrite Hc. exact IH.
Qed.

Lemma strip_prefix_app (p s : string) : strip_prefix p (p ++ s) = Some s.
Proof.
  induction p as [|c p IH]; simpl; [reflexivity|].
  now rewrite Ascii.eqb_refl.
Qed.

Lemma scan_delimited_closed (body rest : string) :
  contains dquote body = false ->
  starts_with_dquote rest = false ->
  scan_delimited (body ++ String dquote rest) = Some (body, rest).
Proof.
  intros Hb Hr. induction body as [|c body IH]; simpl in *.
  - destruct rest as [|c' rest]; [reflexivity|].
    simpl in Hr. now rewrite Hr.
  - apply orb_false_iff in Hb as [Hc Hb].
    rewrite Hc, (IH Hb). reflexivity.
Qed.

Lemma scan_ident_sanitize (name rest : string) :
  starts_with_dquote rest = false ->
  scan_ident (sanitize name ++ rest) = Some (replace dquote "_"%char name, rest).
Proof.
  intros Hr. unfold sanitize. simpl. rewrite append_assoc'. simpl.
  apply scan_delimited_closed; [apply replace_no_dquote | exact Hr].
Qed.

Lemma parse_table_app (pre post t rest id : string) :
  scan_ident (t ++ rest) = Some (id, rest) ->
  parse_table pre post (pre ++ t ++ rest)
  = if String.eqb rest post then Some id else None.
Proof.
  intros H. unfold parse_table. now rewrite strip_prefix_app, H.
Qed.

Lemma parse_table_mismatch (pre post sql : string) :
  strip_prefix pre sql = None -> parse_table pre post sql = None.
Proof. intros H. unfold parse_table. now rewrite H. Qed.

(** What the engine reads where the table was spliced in. *)
Lemma scan_ident_table (table : option string) (c : ascii) (rest : string) :
  Ascii.eqb c dquote = false -> ident_char c = false ->
  scan_ident (table_text table ++ String c rest)
  = Some (table_name table, String c rest).
Proof.
  intros Hq Hi. destruct table as [t|]; simpl.
  - apply (scan_ident_sanitize t (String c rest)). exact Hq.
  - unfold scan_ident. simpl. now rewrite Hi.
Qed.

Lemma scan_ident_table_end (table : option string) :
  scan_ident (table_text table ++ "") = Some (table_name table, "").
Proof.
  destruct table as [t|]; simpl.
  - now apply (scan_ident_sanitize t "").
  - reflexivity.
Qed.

Lemma sqlite_parse_select (table : option string) :
  sqlite_parse (DownloadArchive.stmt_select (table_text table))
  = Some (Select1 (table_name table)).
Proof.
  unfold sqlite_parse.
  change (DownloadArchive.stmt_select (table_text table))
    with ("SELECT 1 FROM " ++ table_text table ++ " WHERE entry=? LIMIT 1").
  rewrite (parse_table_app _ _ _ _ (table_name table))
    by (now apply scan_ident_table).
  reflexivity.
Qed.

Lemma sqlite_parse_insert (table : option string) :
  sqlite_parse (DownloadArchive.stmt_insert (table_text table))
  = Some (InsertIfAbsent (table_name table)).
Proof.
  unfold sqlite_parse.
  change (DownloadArchive.stmt_insert (table_text table))
    with ("INSERT OR IGNORE INTO " ++ table_text table ++ " (entry) VALUES (?)").
  rewrite (parse_table_mismatch "SELECT 1 FROM ") by reflexivity.
  rewrite (parse_table_app _ _ _ _ (table_name table))
    by (now apply scan_ident_table).
  reflexivity.
Qed.

Lemma sqlite_parse_create_without_rowid (table : option string) :
  sqlite_parse (DownloadArchive.stmt_create_without_rowid (table_text table))
  = Some (CreateTableIfNotExists (table_name table) true).
Proof.
  unfold sqlite_parse.
  change (DownloadArchive.stmt_create_without_rowid (table_text table))
    with ("CREATE TABLE IF NOT EXISTS " ++ table_text table
          ++ " (entry TEXT PRIMARY KEY) WITHOUT ROWID").
  rewrite (parse_table_mismatch "SELECT 1 FROM ") by reflexivity.
  rewrite (parse_table_mismatch "INSERT OR IGNORE INTO ") by reflexivity.
  rewrite (parse_table_app _ _ _ _ (table_name table))
    by (now apply scan_ident_table).
  reflexivity.
Qed.

Lemma sqlite_parse_create (table : option string) :
  sqlite_parse (DownloadArchive.stmt_create (table_text table))
  = Some (CreateTableIfNotExists (table_name table) false).
Proof.
  unfold sqlite_parse.
  change (DownloadArchive.stmt_create (table_text table))
    with ("CREATE TABLE IF NOT EXISTS " ++ table_text table
          ++ " (entry TEXT PRIMARY KEY)").
  rewrite (parse_table_mismatch "SELECT 1 FROM ") by reflexivity.
  rewrite (parse_table_mismatch "INSERT OR IGNORE INTO ") by reflexivity.
  rewrite !(parse_table_app _ _ _ _ (table_name table))
    by (now apply scan_ident_table).
  reflexivity.
Qed.

Lemma sqlite_parse_select_entries (t : string) :
  sqlite_parse (DownloadArchivePostgresql.stmt_select_entries (sanitize t))
  = Some (SelectEntries (replace dquote "_"%char t)).
Proof.
  unfold sqlite_parse.
  change (DownloadArchivePostgresql.stmt_select_entries (sanitize t))
    with ("SELECT entry FROM " ++ sanitize t).
  rewrite (parse_table_mismatch "SELECT 1 FROM ") by reflexivity.
  rewrite (parse_table_mismatch "INSERT OR IGNORE INTO ") by reflexivity.
  rewrite !(parse_table_mismatch "CREATE TABLE IF NOT EXISTS ") by reflexivity.
  replace ("SELECT entry FROM " ++ sanitize t)
    with ("SELECT entry FROM " ++ sanitize t ++ "")
    by (unfold sanitize; simpl; now rewrite append_assoc').
  rewrite (parse_table_app _ _ _ _ (replace dquote "_"%char t))
    by (now apply scan_ident_sanitize).
  reflexivity.
Qed.

Lemma pg_parse_select (table : option string) :
  pg_parse (DownloadArchivePostgresql.stmt_select (table_text table))
  = Some (Select1 (table_name table)).
Proof.
  unfold pg_parse.
  change (DownloadArchivePostgresql.stmt_select (table_text table))
    with ("SELECT true FROM " ++ table_text table ++ " WHERE entry=%s LIMIT 1").
  rewrite (parse_table_app _ _ _ _ (table_name table))
    by (now apply scan_ident_table).
  reflexivity.
Qed.

Lemma pg_parse_insert (table : option string) :
  pg_parse (DownloadArchivePostgresql.stmt_insert (table_text table))
  = Some (InsertIfAbsent (table_name table)).
Proof.
  unfold pg_parse.
  change (DownloadArchivePostgresql.stmt_insert (table_text table))
    with ("INSERT INTO " ++ table_text table
          ++ " (entry) VALUES (%s) ON CONFLICT DO NOTHING").
  rewrite (parse_table_mismatch "SELECT true FROM ") by reflexivity.
  rewrite (parse_table_app _ _ _ _ (table_name table))
    by (now apply scan_ident_table).
  reflexivity.
Qed.

Lemma pg_parse_create (table : option string) :
  pg_parse (DownloadArchivePostgresql.stmt_create (table_text table))
  = Some (CreateTableIfNotExists (table_name table) false).
Proof.
  unfold pg_parse.
  change (DownloadArchivePostgresql.stmt_create (table_text table))
    with ("CREATE TABLE IF NOT EXISTS " ++ table_text table
          ++ " (entry TEXT PRIMARY KEY)").
  rewrite (parse_table_mismatch "SELECT true FROM ") by reflexivity.
  rewrite (parse_table_mismatch "INSERT INTO ") by reflexivity.
  rewrite (parse_table_app _ _ _ _ (table_name table))
    by (now apply scan_ident_table).
  reflexivity.
Qed.

End StringFacts.

(** * Running the primitives *)

Ltac unfold_monad :=
  unfold mbind, M_bind, mret, M_ret, fmap, M_fmap, bind, ret, raise,
    try_except, try_except_when, try_finally, with_connection,
    get, put, ask, modify, log in *.

Section Primitives.

Context (E : env).

Lemma lookup_store_con (con : handle) (st : connection_state) (w : world) :
  lookup_con con (store_con con st w) = Some st.
Proof. destruct con; cbn; apply lookup_insert_eq. Qed.

Lemma lookup_con_set_history (con : handle) (h : list syscall) (w : world) :
  lookup_con con (set_history h w) = lookup_con con w.
Proof. now destruct con. Qed.

Lemma request_served (c : syscall) (w : world) :
  oracle E (history w ++ [c])%list = None ->
  request c E w = (Ok tt, set_history (history w ++ [c])%list w).
Proof. intros H. unfold request. now rewrite H. Qed.

Lemma request_refused (c : syscall) (w : world) (e : exn) :
  oracle E (history w ++ [c])%list = Some e ->
  request c E w = (Raise e, set_history (history w ++ [c])%list w).
Proof. intros H. unfold request. now rewrite H. Qed.

Lemma cursor_execute_served (con : handle) (sql : string) (params : list string)
    (w : world) (st : connection_state) (s : statement)
    (d : database) (rows : list string) :
  oracle E (history w ++ [execute_call con sql params])%list = None ->
  lookup_con con w = Some st ->
  parse con sql = Some s ->
  s <> Begin ->
  run_statement s params (current st) = inr (d, rows) ->
  cursor_execute con sql params E w
  = (Ok rows,
     store_con con (after_statement con st d)
       (set_history (history w ++ [execute_call con sql params])%list w)).
Proof.
  intros Ho Hl Hp Hb Hr. unfold cursor_execute. unfold_monad.
  rewrite (request_served _ _ Ho). rewrite lookup_con_set_history, Hl, Hp.
  destruct s; try congruence; now rewrite Hr.
Qed.

Lemma cursor_execute_refused (con : handle) (sql : string) (params : list string)
    (w : world) (e : exn) :
  oracle E (history w ++ [execute_call con sql params])%list = Some e ->
  cursor_execute con sql params E w
  = (Raise e, set_history (history w ++ [execute_call con sql params])%list w).
Proof.
  intros Ho. unfold cursor_execute. unfold_monad.
  now rewrite (request_refused _ _ _ Ho).
Qed.

Lemma cursor_executemany_served (con : handle) (sql : string) (rows : list string)
    (w : world) (st : connection_state) (s : statement) (d : database) :
  oracle E (history w ++ [executemany_call con sql rows])%list = None ->
  lookup_con con w = Some st ->
  parse con sql = Some s ->
  run_many s rows (current st) = inr d ->
  cursor_executemany con sql rows E w
  = (Ok tt,
     store_con con (after_statement con st d)
       (set_history (history w ++ [executemany_call con sql rows])%list w)).
Proof.
  intros Ho Hl Hp Hr. unfold cursor_executemany. unfold_monad.
  rewrite (request_served _ _ Ho). rewrite lookup_con_set_history, Hl, Hp.
  now rewrite Hr.
Qed.

Lemma commit_served (con : handle) (w : world) (st : connection_state) :
  oracle E (history w ++ [commit_call con])%list = None ->
  lookup_con con w = Some st ->
  commit con E w
  = (Ok tt,
     store_con con {| committed := current st; current := current st;
                      in_transaction := false |}
       (set_history (history w ++ [commit_call con])%list w)).
Proof.
  intros Ho Hl. unfold commit. unfold_monad.
  rewrite (request_served _ _ Ho). now rewrite lookup_con_set_history, Hl.
Qed.

Lemma rollback_served (con : handle) (w : world) (st : connection_state) :
  oracle E (history w ++ [rollback_call con])%list = None ->
  lookup_con con w = Some st ->
  rollback con E w
  = (Ok tt,
     store_con con {| committed := committed st; current := committed st;
                      in_transaction := false |}
       (set_history (history w ++ [rollback_call con])%list w)).
Proof.
  intros Ho Hl. unfold rollback. unfold_monad.
  rewrite (request_served _ _ Ho). now rewrite lookup_con_set_history, Hl.
Qed.

End Primitives.

(** * The key of an item *)

Ltac destruct_steps :=
  repeat match goal with
         | |- context [match oracle ?E ?h with _ => _ end] =>
             destruct (oracle E h)
         | |- context [match lookup_con ?c ?w with _ => _ end] =>
             destruct (lookup_con c w)
         | |- context [match parse ?c ?s with _ => _ end] =>
             destruct (parse c s) as [[]|]
         | |- context [match pg_parse ?s with _ => _ end] =>
             destruct (pg_parse s) as [[]|]
         | |- context [match sqlite_parse ?s with _ => _ end] =>
             destruct (sqlite_parse s) as [[]|]
         | |- context [match run_statement ?s ?p ?d with _ => _ end] =>
             destruct (run_statement s p d) as [|[]]
         | |- context [if in_transaction ?st then _ else _] =>
             destruct (in_transaction st)
         end.

Lemma dicts_store_con (con : handle) (st : connection_state) (w : world) :
  dicts (store_con con st w) = dicts w.
Proof. now destruct con. Qed.

Lemma history_store_con (con : handle) (st : connection_state) (w : world) :
  history (store_con con st w) = history w.
Proof. now destruct con. Qed.

Lemma sets_store_con (con : handle) (st : connection_state) (w : world) :
  sets (store_con con st w) = sets w.
Proof. now destruct con. Qed.

Lemma logged_store_con (con : handle) (st : connection_state) (w : world) :
  logged (store_con con st w) = logged w.
Proof. now destruct con. Qed.

Ltac wsimpl :=
  repeat (rewrite ?dicts_store_con, ?sets_store_con, ?history_store_con,
            ?logged_store_con;
          cbn [dicts sets history logged set_history set_logged set_dicts
                 set_sets set_files set_servers set_dirs
                 set_sqlite3_module set_psycopg_module]).

(** [cursor.execute] records exactly its own call and touches no Python
    object, whatever the engine answers. *)
Lemma cursor_execute_frame (con : handle) (sql : string) (params : list string)
    (E : env) (w : world) :
  exists r w',
    cursor_execute con sql params E w = (r, w')
    /\ history w' = (history w ++ [execute_call con sql params])%list
    /\ dicts w' = dicts w /\ sets w' = sets w /\ logged w' = logged w.
Proof.
  unfold cursor_execute, request. unfold_monad. cbn.
  destruct_steps; cbn;
    eexists _, _; (split; [reflexivity|]);
    rewrite ?history_store_con, ?dicts_store_con, ?sets_store_con,
      ?logged_store_con; cbn; auto.
Qed.

(** C3, as amended. [check] always derives the key with the KeyFormatter,
    whatever the reserved cache field of the item holds, stores that key in
    the item's metadata under the reserved field and queries the store with
    it; [add] is the operation that uses [cache[item] or KeyFormatter(item)]
    and leaves the metadata alone. *)
Theorem check_recomputes_key_add_reuses_it
    (self : DownloadArchive.t) (kwdict : nat) (E : env) (w : world) :
  let kw := default ∅ (dicts w !! kwdict) in
  (exists r w',
      DownloadArchive.check self kwdict E w = (r, w')
      /\ dicts w' !! kwdict
         = Some (<[DownloadArchive._cache_key self := DownloadArchive.keygen self kw]> kw)
      /\ history w'
         = (history w
            ++ [execute_call (DownloadArchive.connection self)
                  (DownloadArchive._stmt_select self)
                  [DownloadArchive.keygen self kw]])%list)
  /\ (exists r w',
         DownloadArchive.add self kwdict E w = (r, w')
         /\ dicts w' = dicts w
         /\ history w'
            = (history w
               ++ [execute_call (DownloadArchive.connection self)
                     (DownloadArchive._stmt_insert self)
                     [spec_key (DownloadArchive._cache_key self)
                        (DownloadArchive.keygen self) kw]])%list).
Proof.
  intros kw. split.
  - unfold DownloadArchive.check, dict_read, dict_setitem. unfold_monad. cbn.
    fold kw.
    match goal with
    | |- context [cursor_execute ?c ?s ?p E ?w0] =>
        destruct (cursor_execute_frame c s p E w0)
          as (r & w' & Hrun & Hh & Hd & _)
    end.
    rewrite Hrun. cbn in Hh, Hd.
    destruct r as [rows|e]; eexists _, _; (split; [reflexivity|]);
      rewrite Hd, Hh; (split; [apply lookup_insert_eq | reflexivity]).
  - unfold DownloadArchive.add, dict_read, spec_key. unfold_monad. cbn.
    fold kw.
    match goal with
    | |- context [cursor_execute ?c ?s ?p E ?w0] =>
        destruct (cursor_execute_frame c s p E w0)
          as (r & w' & Hrun & Hh & Hd & _)
    end.
    rewrite Hrun.
    destruct r as [rows|e]; eexists _, _; (split; [reflexivity|]); auto.
Qed.

(** * Tables *)

Section Tables.

Lemma run_insert (t k : string) (d : database) (entries : list string) :
  d !! t = Some entries ->
  run_statement (InsertIfAbsent t) [k] d
  = inr (<[t := insert_entry k entries]> d, []).
Proof. intros H. unfold run_statement, insert_entry. now rewrite H. Qed.

Lemma run_many_insert (t : string) (ks : list string) :
  forall (d : database) (entries : list string),
    d !! t = Some entries ->
    run_many (InsertIfAbsent t) ks d
    = inr (<[t := insert_entries ks entries]> d).
Proof.
  induction ks as [|k ks IH]; intros d entries Hd.
  - cbn. now rewrite insert_id.
  - cbn [run_many]. rewrite (run_insert _ _ _ _ Hd).
    rewrite (IH _ (insert_entry k entries)) by apply lookup_insert_eq.
    now rewrite insert_insert_eq.
Qed.

Lemma elem_of_insert_entry (x k : string) (entries : list string) :
  x ∈ insert_entry k entries <-> x ∈ entries \/ x = k.
Proof.
  unfold insert_entry. case_bool_decide as Hk.
  - split; [auto | intros [?| ->]; auto].
  - rewrite elem_of_app, list_elem_of_singleton. tauto.
Qed.

Lemma elem_of_insert_entries (x : string) (ks : list string) :
  forall entries,
    x ∈ insert_entries ks entries <-> x ∈ entries \/ x ∈ ks.
Proof.
  induction ks as [|k ks IH]; intros entries; cbn.
  - rewrite elem_of_nil. tauto.
  - unfold insert_entries in IH. rewrite IH, elem_of_insert_entry, elem_of_cons.
    tauto.
Qed.

Lemma NoDup_insert_entry (k : string) (entries : list string) :
  NoDup entries -> NoDup (insert_entry k entries).
Proof.
  intros H. unfold insert_entry. case_bool_decide as Hk; [exact H|].
  apply NoDup_app. repeat split; [exact H | | apply NoDup_singleton].
  intros x Hx Hx'. apply list_elem_of_singleton in Hx'. now subst.
Qed.

Lemma NoDup_insert_entries (ks : list string) :
  forall entries, NoDup entries -> NoDup (insert_entries ks entries).
Proof.
  induction ks as [|k ks IH]; intros entries H; cbn; [exact H|].
  apply IH. now apply NoDup_insert_entry.
Qed.

Lemma insert_entry_prefix (k : string) (entries : list string) :
  entries `prefix_of` insert_entry k entries.
Proof.
  unfold insert_entry. case_bool_decide; [reflexivity | now apply prefix_app_r].
Qed.

Lemma insert_entries_prefix (ks : list string) :
  forall entries, entries `prefix_of` insert_entries ks entries.
Proof.
  induction ks as [|k ks IH]; intros entries; cbn; [reflexivity|].
  etransitivity; [apply (insert_entry_prefix k) | apply IH].
Qed.

(** In a table without duplicates a key that occurs fills one row. *)
Lemma count_rows_NoDup (k : string) (entries : list string) :
  NoDup entries -> k ∈ entries -> count_rows k entries = 1%nat.
Proof.
  unfold count_rows. induction 1 as [|x l Hx Hl IH]; intros Hk.
  - now apply elem_of_nil in Hk.
  - rewrite filter_cons. apply elem_of_cons in Hk as [->|Hk].
    + rewrite decide_True by reflexivity. cbn. f_equal.
      apply length_zero_iff_nil, elem_of_nil_inv.
      intros y Hy. apply list_elem_of_filter in Hy as [-> Hy]. contradiction.
    + rewrite decide_False by (intros ->; contradiction). auto.
Qed.

End Tables.

(** * The buffered ledgers *)

(** C8, as amended. On a buffered ledger, for every item whose cached key is
    absent, empty or equal to the key the KeyFormatter derives from the item,
    [check] after [add] returns [True] before any [finalize], and no call
    reaches the physical store. *)
Theorem buffered_check_finds_pending_key
    (a : archive) (kwdict : nat) (E : env) (w : world) :
  is_buffered a = true ->
  spec_key (archive_cache_key a) (archive_keygen a) (default ∅ (dicts w !! kwdict))
  = archive_keygen a (default ∅ (dicts w !! kwdict)) ->
  exists w',
    (archive_add a kwdict;; archive_check a kwdict) E w = (Ok (PyBool true), w')
    /\ history w' = history w.
Proof.
  intros Hb Hkey. unfold spec_key in Hkey.
  destruct a as [s|s|s|s]; try discriminate Hb; cbn in Hkey;
    cbn [archive_add archive_check];
    [unfold DownloadArchiveMemory.add, DownloadArchiveMemory.check
    |unfold DownloadArchivePostgresqlMemory.add,
       DownloadArchivePostgresqlMemory.check];
    unfold dict_read, dict_setitem, set_add, set_read; unfold_monad; cbn;
    rewrite Hkey, lookup_insert_eq; cbn;
    rewrite bool_decide_eq_true_2 by set_solver;
    eexists; split; reflexivity.
Qed.

(** * Runs in an environment that serves every call *)

Section Quiet.

Context (E : env) (Hq : quiet E).

Lemma bind_run {A B} (m : M A) (k : A -> M B) (w : world) :
  (m ≫= k) E w
  = match m E w with
    | (Ok a, w') => k a E w'
    | (Raise e, w') => (Raise e, w')
    end.
Proof. reflexivity. Qed.

Lemma ret_run {A} (a : A) (w : world) : (mret a : M A) E w = (Ok a, w).
Proof. reflexivity. Qed.

Lemma sqlite_parse_begin : sqlite_parse "BEGIN" = Some Begin.
Proof. reflexivity. Qed.

Lemma begin_quiet (p : string) (w : world) (st : connection_state) :
  files w !! p = Some st ->
  in_transaction st = false ->
  cursor_execute (SqliteCon p) "BEGIN" [] E w
  = (Ok [],
     store_con (SqliteCon p)
       {| committed := committed st; current := current st;
          in_transaction := true |}
       (set_history (history w ++ [execute_call (SqliteCon p) "BEGIN" []])%list w)).
Proof.
  intros Hl Ht. unfold cursor_execute, request. unfold_monad.
  rewrite Hq. cbn. now rewrite Hl, Ht.
Qed.

(** One insert statement on an open store whose table exists. *)
Lemma insert_quiet (con : handle) (stmt t k : string) (w : world)
    (st : connection_state) (entries : list string) :
  parse con stmt = Some (InsertIfAbsent t) ->
  lookup_con con w = Some st ->
  current st !! t = Some entries ->
  cursor_execute con stmt [k] E w
  = (Ok [],
     store_con con
       (after_statement con st (<[t := insert_entry k entries]> (current st)))
       (set_history (history w ++ [execute_call con stmt [k]])%list w)).
Proof.
  intros Hp Hl Hc.
  now apply (cursor_execute_served E con stmt [k] w st (InsertIfAbsent t)),
    run_insert.
Qed.

(** The row-by-row loop of [finalize] inside a SQLite transaction. *)
Lemma for_each_insert (p stmt t : string) (body : string -> M unit) :
  (forall k w,
      body k E w = (cursor_execute (SqliteCon p) stmt [k];; mret tt) E w) ->
  sqlite_parse stmt = Some (InsertIfAbsent t) ->
  forall (ks : list string) (w : world) (st : connection_state)
         (entries : list string),
    files w !! p = Some st ->
    in_transaction st = true ->
    current st !! t = Some entries ->
    exists w' st',
      for_each ks body E w = (Ok tt, w')
      /\ files w' !! p = Some st'
      /\ current st' = <[t := insert_entries ks entries]> (current st)
      /\ committed st' = committed st
      /\ in_transaction st' = true
      /\ sets w' = sets w /\ dicts w' = dicts w.
Proof.
  intros Hbody Hp. induction ks as [|k ks IH]; intros w st entries Hl Ht Hc.
  - exists w, st. cbn. rewrite insert_id by exact Hc. repeat split; auto.
  - cbn [for_each]. unfold bind at 1. rewrite Hbody, bind_run.
    rewrite (insert_quiet (SqliteCon p) stmt t k w st entries Hp Hl Hc).
    cbn [after_statement]. rewrite Ht, ret_run.
    match goal with
    | |- context [for_each ks _ E ?w1] =>
        destruct (IH w1 {| committed := committed st;
                           current := <[t := insert_entry k entries]> (current st);
                           in_transaction := true |}
                    (insert_entry k entries))
          as (w' & st' & Hrun & Hl' & Hc' & Hm' & Ht' & Hs' & Hd')
    end.
    + cbn. apply lookup_insert_eq.
    + reflexivity.
    + cbn. apply lookup_insert_eq.
    + exists w', st'. rewrite Hrun.
      cbn in Hc', Hm'. rewrite insert_insert_eq in Hc'. repeat split; auto.
Qed.

Lemma constructed_parse_insert (a : archive) (loc : string)
    (table : option string) :
  constructed a loc table ->
  parse (archive_connection a) (archive_stmt_insert a)
  = Some (InsertIfAbsent (table_name table)).
Proof.
  unfold constructed. destruct (is_embedded a); intros (-> & _ & ->); cbn;
    [apply sqlite_parse_insert | apply pg_parse_insert].
Qed.

Lemma constructed_parse_select (a : archive) (loc : string)
    (table : option string) :
  constructed a loc table ->
  parse (archive_connection a) (archive_stmt_select a)
  = Some (Select1 (table_name table)).
Proof.
  unfold constructed. destruct (is_embedded a); intros (-> & -> & _); cbn;
    [apply sqlite_parse_select | apply pg_parse_select].
Qed.

Lemma table_holds_store (con : handle) (table : option string)
    (st : connection_state) (entries : list string) (w : world) :
  in_transaction st = false ->
  current st = committed st ->
  committed st !! table_name table = Some entries ->
  table_holds con table entries (store_con con st w).
Proof. intros. exists st. now rewrite lookup_store_con. Qed.

(** [finalize] in a quiet environment: every pending key is inserted if
    absent and committed; no Python object changes. *)
Lemma finalize_quiet (a : archive) (loc : string) (table : option string)
    (entries : list string) (w : world) :
  constructed a loc table ->
  table_holds (archive_connection a) table entries w ->
  exists w',
    archive_finalize a E w = (Ok tt, w')
    /\ table_holds (archive_connection a) table
         (insert_entries (elements (pending a w)) entries) w'
    /\ sets w' = sets w /\ dicts w' = dicts w.
Proof.
  intros Hc Hholds. pose proof (constructed_parse_insert a loc table Hc) as Hp.
  destruct a as [s|s|s|s]; cbn [archive_finalize pending].
  - exists w. rewrite elements_empty. auto.
  - destruct Hc as (Hcon & _ & _). cbn in Hcon, Hp. rewrite Hcon in Hp.
    cbn in Hholds. rewrite Hcon in Hholds.
    destruct Hholds as (st & Hl & Ht & Hcur & Hcm). cbn in Hl.
    unfold DownloadArchiveMemory.finalize, set_read. unfold_monad. cbn.
    set (ks := default ∅ (sets w !! DownloadArchiveMemory.keys s)).
    case_bool_decide as Hks.
    { exists w. rewrite Hks, elements_empty. cbn.
      repeat split; auto. exists st. rewrite Hcon. auto. }
    rewrite Hcon. rewrite (begin_quiet loc w st) by assumption.
    match goal with
    | |- context [(if ?b then ?loop else ?many) E ?w1] =>
        assert (exists w2 st2,
                   (if b then loop else many) E w1 = (Ok tt, w2)
                   /\ files w2 !! loc = Some st2
                   /\ current st2
                      = <[table_name table := insert_entries (elements ks) entries]>
                          (current st)
                   /\ sets w2 = sets w /\ dicts w2 = dicts w)
          as (w2 & st2 & Hrun & Hl2 & Hc2 & Hs2 & Hd2)
    end.
    { destruct (size ks <=? 99)%nat.
      - match goal with
        | |- context [for_each _ ?body E ?w1] =>
            assert (Hbody : forall k w,
                       body k E w
                       = (cursor_execute (SqliteCon loc)
                            (DownloadArchive._stmt_insert (DownloadArchiveMemory.base s))
                            [k];; mret tt) E w) by (intros; reflexivity);
            destruct (for_each_insert loc
                        (DownloadArchive._stmt_insert (DownloadArchiveMemory.base s))
                        (table_name table) body
                        Hbody Hp (elements ks) w1
                        {| committed := committed st; current := current st;
                           in_transaction := true |} entries)
              as (w2 & st2 & Hrun & Hl2 & Hc2 & _ & _ & Hs2 & Hd2)
        end.
        + cbn. apply lookup_insert_eq.
        + reflexivity.
        + cbn. rewrite Hcur. exact Hcm.
        + exists w2, st2. repeat split; auto.
      - erewrite cursor_executemany_served;
          [ | apply Hq | apply lookup_store_con | exact Hp
            | cbn; apply run_many_insert; rewrite Hcur; exact Hcm ].
        eexists _, _. split; [reflexivity|]. cbn.
        rewrite lookup_insert_eq. repeat split; auto. }
    rewrite Hrun.
    erewrite bind_run, commit_served; [ | apply Hq | exact Hl2 ].
    rewrite ret_run. eexists. split; [reflexivity|].
    split; [|now rewrite sets_store_con, dicts_store_con].
    apply table_holds_store; cbn; auto.
    rewrite Hc2. apply lookup_insert_eq.
  - exists w. rewrite elements_empty. auto.
  - destruct Hc as (Hcon & _ & _). cbn in Hcon, Hp. rewrite Hcon in Hp.
    cbn in Hholds. rewrite Hcon in Hholds.
    destruct Hholds as (st & Hl & Ht & Hcur & Hcm). cbn in Hl.
    unfold DownloadArchivePostgresqlMemory.finalize, set_read. unfold_monad. cbn.
    set (ks := default ∅ (sets w !! DownloadArchivePostgresqlMemory.keys s)).
    case_bool_decide as Hks.
    { exists w. rewrite Hks, elements_empty. cbn.
      repeat split; auto. exists st. rewrite Hcon. auto. }
    rewrite Hcon.
    erewrite cursor_executemany_served;
      [ | apply Hq | exact Hl | exact Hp
        | apply run_many_insert; rewrite Hcur; exact Hcm ].
    erewrite commit_served; [ | apply Hq | apply lookup_store_con ].
    eexists. split; [reflexivity|].
    split; [|now rewrite sets_store_con, dicts_store_con].
    apply table_holds_store; cbn; auto.
    apply lookup_insert_eq.
Qed.

(** [add] in a quiet environment: an unbuffered ledger inserts the key if
    absent and commits; a buffered one only extends its pending set. *)
Lemma add_quiet (a : archive) (loc : string) (table : option string)
    (entries : list string) (kwdict : nat) (w : world) :
  constructed a loc table ->
  table_holds (archive_connection a) table entries w ->
  exists w',
    archive_add a kwdict E w = (Ok tt, w')
    /\ dicts w' = dicts w
    /\ table_holds (archive_connection a) table
         (if is_buffered a then entries
          else insert_entry
                 (spec_key (archive_cache_key a) (archive_keygen a)
                    (default ∅ (dicts w !! kwdict))) entries) w'
    /\ pending a w'
       = (if is_buffered a
          then {[spec_key (archive_cache_key a) (archive_keygen a)
                   (default ∅ (dicts w !! kwdict))]} ∪ pending a w
          else pending a w).
Proof.
  intros Hc Hholds. pose proof (constructed_parse_insert a loc table Hc) as Hp.
  destruct Hholds as (st & Hl & Ht & Hcur & Hcm).
  destruct a as [s|s|s|s]; cbn [archive_add pending is_buffered];
    cbn in Hp, Hl |- *; unfold spec_key.
  - unfold DownloadArchive.add, dict_read. unfold_monad. cbn.
    erewrite insert_quiet; [ | exact Hp | exact Hl | rewrite Hcur; exact Hcm ].
    eexists. split; [reflexivity|].
    split; [now rewrite dicts_store_con|]. split; [|reflexivity].
    destruct Hc as (Hcon & _). cbn in Hcon. rewrite Hcon.
    apply table_holds_store; cbn; rewrite ?Ht; auto. apply lookup_insert_eq.
  - unfold DownloadArchiveMemory.add, dict_read, set_add. unfold_monad. cbn.
    eexists. split; [reflexivity|]. split; [reflexivity|].
    split; [exists st; auto|]. cbn. now rewrite lookup_insert_eq.
  - unfold DownloadArchivePostgresql.add, dict_read. unfold_monad. cbn.
    erewrite insert_quiet; [ | exact Hp | exact Hl | rewrite Hcur; exact Hcm ].
    erewrite commit_served; [ | apply Hq | apply lookup_store_con ].
    eexists. split; [reflexivity|].
    split; [now wsimpl|]. split; [|reflexivity].
    apply table_holds_store; cbn; auto.
    destruct Hc as (Hcon & _). cbn in Hcon. rewrite Hcon. cbn.
    apply lookup_insert_eq.
  - unfold DownloadArchivePostgresqlMemory.add, dict_read, set_add.
    unfold_monad. cbn.
    eexists. split; [reflexivity|]. split; [reflexivity|].
    split; [exists st; auto|]. cbn. now rewrite lookup_insert_eq.
Qed.

End Quiet.

(** * Idempotent insertion *)

(** C7. In an environment that serves every call, on any of the four
    ledgers whose table has no duplicate rows, adding the same item twice and
    finalizing succeeds, the table then holds the item's key in exactly one
    row, and no row that was there is lost; this includes the case of a key
    that was present before. *)
Theorem add_twice_then_finalize_stores_key_once
    (a : archive) (loc : string) (table : option string)
    (entries : list string) (kwdict : nat) (E : env) (w : world) :
  quiet E ->
  constructed a loc table ->
  table_holds (archive_connection a) table entries w ->
  NoDup entries ->
  exists w' entries',
    (archive_add a kwdict;; archive_add a kwdict;; archive_finalize a) E w
    = (Ok tt, w')
    /\ stored (archive_connection a) table w' = Some entries'
    /\ count_rows
         (spec_key (archive_cache_key a) (archive_keygen a)
            (default ∅ (dicts w !! kwdict))) entries' = 1%nat
    /\ entries `prefix_of` entries'.
Proof.
  intros Hq Hc Hholds Hnd.
  destruct (add_quiet E Hq a loc table entries kwdict w Hc Hholds)
    as (w1 & Hrun1 & Hd1 & Hh1 & Hp1).
  destruct (add_quiet E Hq a loc table _ kwdict w1 Hc Hh1)
    as (w2 & Hrun2 & Hd2 & Hh2 & Hp2).
  destruct (finalize_quiet E Hq a loc table _ w2 Hc Hh2)
    as (w3 & Hrun3 & Hh3 & _ & _).
  rewrite Hd1 in Hh2, Hp2, Hh3.
  set (key := spec_key (archive_cache_key a) (archive_keygen a)
                (default ∅ (dicts w !! kwdict))) in *.
  destruct Hh3 as (st & Hl & _ & _ & Hcm).
  eexists w3, _. split; [|split; [|split]].
  - rewrite bind_run, Hrun1. cbv beta iota.
    rewrite bind_run, Hrun2. exact Hrun3.
  - unfold stored. rewrite Hl. exact Hcm.
  - apply count_rows_NoDup.
    + apply NoDup_insert_entries.
      destruct (is_buffered a); auto using NoDup_insert_entry.
    + apply elem_of_insert_entries. rewrite Hp2, Hp1.
      destruct (is_buffered a).
      * right. apply elem_of_elements, elem_of_union_l, elem_of_singleton.
        reflexivity.
      * left. apply elem_of_insert_entry. now right.
  - etransitivity; [|apply insert_entries_prefix].
    destruct (is_buffered a); [reflexivity|].
    etransitivity; apply insert_entry_prefix.
Qed.

Lemma add_twice_then_finalize_stores_key_once_witness :
  quiet example_env
  /\ constructed (Sqlite example_sqlite) "archive.sqlite3" None
  /\ table_holds (SqliteCon "archive.sqlite3") None [] fresh_item_world
  /\ NoDup ([] : list string)
  /\ exists w' entries',
      (archive_add (Sqlite example_sqlite) 0;;
       archive_add (Sqlite example_sqlite) 0;;
       archive_finalize (Sqlite example_sqlite)) example_env fresh_item_world
      = (Ok tt, w')
      /\ stored (SqliteCon "archive.sqlite3") None w' = Some entries'
      /\ count_rows
           (spec_key "_archive_key" (formatter_parse example_env "key-")
              (default ∅ (dicts fresh_item_world !! 0%nat))) entries' = 1%nat
      /\ [] `prefix_of` entries'.
Proof.
  assert (H1 : quiet example_env) by (intros h; reflexivity).
  assert (H2 : constructed (Sqlite example_sqlite) "archive.sqlite3" None)
    by (repeat split).
  assert (H3 : table_holds (SqliteCon "archive.sqlite3") None [] fresh_item_world)
    by (exists (table_of "archive" []); repeat split).
  assert (H4 : NoDup ([] : list string)) by constructor.
  repeat (split; [assumption|]).
  exact (add_twice_then_finalize_stores_key_once (Sqlite example_sqlite)
           "archive.sqlite3" None [] 0%nat example_env fresh_item_world
           H1 H2 H3 H4).
Defined.

(** * The pending set and [finalize] *)

(** C4, as amended. In an environment that serves every call, [finalize] on
    a buffered ledger inserts every pending key that is absent into the
    physical store and commits, keeping the rows that were there; it leaves
    the pending set as it was. *)
Theorem finalize_flushes_and_keeps_pending
    (a : archive) (loc : string) (table : option string)
    (entries : list string) (E : env) (w : world) :
  is_buffered a = true ->
  quiet E ->
  constructed a loc table ->
  table_holds (archive_connection a) table entries w ->
  exists w' entries',
    archive_finalize a E w = (Ok tt, w')
    /\ stored (archive_connection a) table w' = Some entries'
    /\ (forall k, k ∈ entries' <-> k ∈ entries \/ k ∈ pending a w)
    /\ entries `prefix_of` entries'
    /\ pending a w' = pending a w.
Proof.
  intros Hb Hq Hc Hholds.
  destruct (finalize_quiet E Hq a loc table entries w Hc Hholds)
    as (w' & Hrun & (st & Hl & _ & _ & Hcm) & Hs & _).
  exists w', (insert_entries (elements (pending a w)) entries).
  split; [exact Hrun|]. split; [unfold stored; now rewrite Hl|].
  split; [|split].
  - intros k. rewrite elem_of_insert_entries, elem_of_elements. reflexivity.
  - apply insert_entries_prefix.
  - destruct a; cbn; now rewrite ?Hs.
Qed.

Lemma finalize_flushes_and_keeps_pending_witness :
  is_buffered (SqliteMemory example_memory) = true
  /\ quiet example_env
  /\ constructed (SqliteMemory example_memory) "archive.sqlite3" None
  /\ table_holds (SqliteCon "archive.sqlite3") None [] pending_world
  /\ exists w' entries',
      archive_finalize (SqliteMemory example_memory) example_env pending_world
      = (Ok tt, w')
      /\ stored (SqliteCon "archive.sqlite3") None w' = Some entries'
      /\ (forall k, k ∈ entries'
                    <-> k ∈ [] \/ k ∈ pending (SqliteMemory example_memory) pending_world)
      /\ [] `prefix_of` entries'
      /\ pending (SqliteMemory example_memory) w'
         = pending (SqliteMemory example_memory) pending_world.
Proof.
  assert (H1 : is_buffered (SqliteMemory example_memory) = true) by reflexivity.
  assert (H2 : quiet example_env) by (intros h; reflexivity).
  assert (H3 : constructed (SqliteMemory example_memory) "archive.sqlite3" None)
    by (repeat split).
  assert (H4 : table_holds (SqliteCon "archive.sqlite3") None [] pending_world)
    by (exists (table_of "archive" []); repeat split).
  repeat (split; [assumption|]).
  exact (finalize_flushes_and_keeps_pending (SqliteMemory example_memory)
           "archive.sqlite3" None [] example_env pending_world H1 H2 H3 H4).
Defined.

(** C4, the claim as stated fails: after [finalize] on a buffered ledger with
    the pending key ["a"], the key is in the store and the pending set still
    holds it. *)
Lemma finalize_does_not_empty_pending :
  fst (DownloadArchiveMemory.finalize example_memory example_env pending_world)
  = Ok tt
  /\ stored (SqliteCon "archive.sqlite3") None
       (snd (DownloadArchiveMemory.finalize example_memory example_env pending_world))
     = Some ["a"]
  /\ pending (SqliteMemory example_memory)
       (snd (DownloadArchiveMemory.finalize example_memory example_env pending_world))
     <> ∅.
Proof.
  split; [vm_compute; reflexivity|]. split; [vm_compute; reflexivity|].
  intros H.
  assert (Ha : "a" ∈ pending (SqliteMemory example_memory)
                 (snd (DownloadArchiveMemory.finalize example_memory example_env
                         pending_world)))
    by (vm_compute; reflexivity).
  rewrite H in Ha. now apply not_elem_of_empty in Ha.
Qed.

(** * Stale cached keys *)

(** C3, the claim as stated fails: for an item that carries the cached key
    ["cached"], [check] does not use [cache[item] or KeyFormatter(item)]; it
    queries the store with the freshly formatted key ["key-7"], does not find
    the item although ["cached"] is stored, and overwrites the cached key. *)
Lemma check_ignores_cached_key :
  spec_key "_archive_key" (DownloadArchive.keygen example_sqlite)
    (default ∅ (dicts stale_item_world !! 0%nat)) = "cached"
  /\ stored (SqliteCon "archive.sqlite3") None stale_item_world = Some ["cached"]
  /\ fst (DownloadArchive.check example_sqlite 0 example_env stale_item_world)
     = Ok PyNone
  /\ history (snd (DownloadArchive.check example_sqlite 0 example_env
                     stale_item_world))
     = [execute_call (SqliteCon "archive.sqlite3")
          "SELECT 1 FROM archive WHERE entry=? LIMIT 1" ["key-7"]]
  /\ dicts (snd (DownloadArchive.check example_sqlite 0 example_env
                   stale_item_world)) !! 0%nat
     = Some {["id" := "7"; "_archive_key" := "key-7"]}.
Proof. repeat split; vm_compute; reflexivity. Qed.

(** C8, the claim as stated fails: an item that carries a cached key other
    than the key the KeyFormatter derives is added under the cached key, and
    [check] then looks for the formatted key, misses the pending set and asks
    the physical store, which does not hold it. *)
Lemma buffered_check_misses_stale_key :
  fst ((DownloadArchiveMemory.add example_memory 0;;
        DownloadArchiveMemory.check example_memory 0)
         example_env stale_item_empty_world)
  = Ok PyNone
  /\ history
       (snd ((DownloadArchiveMemory.add example_memory 0;;
              DownloadArchiveMemory.check example_memory 0)
               example_env stale_item_empty_world))
     = [execute_call (SqliteCon "archive.sqlite3")
          "SELECT 1 FROM archive WHERE entry=? LIMIT 1" ["key-7"]]
  /\ truthy PyNone = false.
Proof. repeat split; vm_compute; reflexivity. Qed.

Lemma buffered_check_finds_pending_key_witness :
  is_buffered (SqliteMemory example_memory) = true
  /\ spec_key (archive_cache_key (SqliteMemory example_memory))
       (archive_keygen (SqliteMemory example_memory))
       (default ∅ (dicts fresh_item_world !! 0%nat))
     = archive_keygen (SqliteMemory example_memory)
         (default ∅ (dicts fresh_item_world !! 0%nat))
  /\ exists w',
      (archive_add (SqliteMemory example_memory) 0;;
       archive_check (SqliteMemory example_memory) 0) example_env fresh_item_world
      = (Ok (PyBool true), w')
      /\ history w' = history fresh_item_world.
Proof.
  assert (H1 : is_buffered (SqliteMemory example_memory) = true) by reflexivity.
  assert (H2 : spec_key (archive_cache_key (SqliteMemory example_memory))
                 (archive_keygen (SqliteMemory example_memory))
                 (default ∅ (dicts fresh_item_world !! 0%nat))
               = archive_keygen (SqliteMemory example_memory)
                   (default ∅ (dicts fresh_item_world !! 0%nat)))
    by (vm_compute; reflexivity).
  repeat (split; [assumption|]).
  exact (buffered_check_finds_pending_key (SqliteMemory example_memory) 0%nat
           example_env fresh_item_world H1 H2).
Defined.

(** * Opening the embedded store *)

Lemma rfind_absent (c : ascii) (s : string) :
  contains c s = false -> rfind c s = -1.
Proof.
  induction s as [|a s IH]; cbn; [reflexivity|].
  intros H. apply orb_false_iff in H as [Ha Hs].
  rewrite (IH Hs), Ha. reflexivity.
Qed.

(** A path without a separator has the empty directory name. *)
Lemma dirname_bare (p : string) : contains sep p = false -> dirname p = "".
Proof.
  intros H. unfold dirname. rewrite (rfind_absent _ _ H). cbn.
  now destruct p.
Qed.

(** C10. When [sqlite3.connect] raises [OperationalError] for a path without
    a directory component (the fallback path ["archive-fallback.sqlite3"] is
    one), [DownloadArchive.__init__] calls [os.makedirs] on the empty string
    and raises: the only call after the failed open is that [makedirs], the
    open is not tried again, and when [makedirs] itself is served the
    exception is its [FileNotFoundError]. *)
Theorem bare_filename_open_failure_is_fatal
    (path : string) (keygen : gmap string string -> string)
    (table : option string) (pragma : option (list string))
    (cache_key : option string) (E : env) (w w0 w1 : world) (msg : string) :
  contains sep path = false ->
  ensure_sqlite3 E w = (Ok tt, w0) ->
  sqlite3_connect path E w0 = (Raise (sqlite3_OperationalError msg), w1) ->
  dirname path = ""
  /\ dirname "archive-fallback.sqlite3" = ""
  /\ exists e w',
      DownloadArchive.__init__ path keygen table pragma cache_key E w
      = (Raise e, w')
      /\ history w' = (history w1 ++ [makedirs_call ""])%list
      /\ files w' = files w1
      /\ (oracle E (history w') = None -> e = FileNotFoundError "").
Proof.
  intros Hbare Hmod Hopen. pose proof (dirname_bare path Hbare) as Hdir.
  split; [exact Hdir|]. split; [reflexivity|].
  unfold DownloadArchive.__init__. rewrite bind_run, Hmod. cbv beta iota.
  rewrite bind_run. unfold try_except_when at 1. rewrite Hopen.
  cbn [is_sqlite3_OperationalError]. rewrite Hdir, bind_run.
  unfold makedirs at 1. rewrite bind_run. unfold request.
  destruct (oracle E (history w1 ++ [makedirs_call ""])%list) as [e|] eqn:Ho.
  - eexists _, _. split; [reflexivity|]. cbn. repeat split.
    intros H. congruence.
  - cbn. eexists _, _. split; [reflexivity|]. cbn. repeat split.
Qed.

Lemma bare_filename_open_failure_is_fatal_witness :
  contains sep "archive-fallback.sqlite3" = false
  /\ ensure_sqlite3 first_open_fails world0 = (Ok tt, world0)
  /\ sqlite3_connect "archive-fallback.sqlite3" first_open_fails world0
     = (Raise (sqlite3_OperationalError "unable to open database file"),
        set_history [sqlite3_connect_call "archive-fallback.sqlite3"] world0)
  /\ dirname "archive-fallback.sqlite3" = ""
  /\ dirname "archive-fallback.sqlite3" = ""
  /\ exists e w',
      DownloadArchive.__init__ "archive-fallback.sqlite3"
        (formatter_parse first_open_fails "key-") None None None
        first_open_fails world0
      = (Raise e, w')
      /\ history w'
         = (history (set_history [sqlite3_connect_call "archive-fallback.sqlite3"]
                       world0)
            ++ [makedirs_call ""])%list
      /\ files w'
         = files (set_history [sqlite3_connect_call "archive-fallback.sqlite3"]
                    world0)
      /\ (oracle first_open_fails (history w') = None
          -> e = FileNotFoundError "").
Proof.
  assert (H1 : contains sep "archive-fallback.sqlite3" = false) by reflexivity.
  assert (H2 : ensure_sqlite3 first_open_fails world0 = (Ok tt, world0))
    by reflexivity.
  assert (H3 : sqlite3_connect "archive-fallback.sqlite3" first_open_fails world0
               = (Raise (sqlite3_OperationalError "unable to open database file"),
                  set_history [sqlite3_connect_call "archive-fallback.sqlite3"]
                    world0))
    by reflexivity.
  repeat (split; [assumption|]).
  exact (bare_filename_open_failure_is_fatal "archive-fallback.sqlite3"
           (formatter_parse first_open_fails "key-") None None None
           first_open_fails world0 world0 _ _ H1 H2 H3).
Defined.

(** * Failures of the networked store *)

Section Failures.

Context (E : env).

(** A call that raises leaves the world as it was, its own record apart. *)
Lemma cursor_execute_raises (con : handle) (sql : string) (params : list string)
    (w w1 : world) (e : exn) :
  cursor_execute con sql params E w = (Raise e, w1) ->
  w1 = set_history (history w ++ [execute_call con sql params])%list w.
Proof.
  unfold cursor_execute, request. unfold_monad. cbn.
  destruct_steps; intros H; congruence.
Qed.

Lemma commit_raises (con : handle) (w w1 : world) (e : exn) :
  commit con E w = (Raise e, w1) ->
  w1 = set_history (history w ++ [commit_call con])%list w.
Proof.
  unfold commit, request. unfold_monad. cbn.
  destruct_steps; intros H; congruence.
Qed.

(** A served statement on a psycopg connection changes the session only. *)
Lemma cursor_execute_returns_pg (uri sql : string) (params rows : list string)
    (w w1 : world) (st : connection_state) :
  cursor_execute (PgCon uri) sql params E w = (Ok rows, w1) ->
  servers w !! uri = Some st ->
  exists st1,
    servers w1 !! uri = Some st1
    /\ committed st1 = committed st
    /\ history w1 = (history w ++ [execute_call (PgCon uri) sql params])%list
    /\ logged w1 = logged w.
Proof.
  unfold cursor_execute, request. unfold_monad. cbn. intros H Hl. revert H.
  destruct (oracle E _); cbn; [discriminate|]. rewrite Hl.
  destruct_steps; intros H; inversion H; subst; clear H;
    (eexists; cbn; rewrite lookup_insert_eq; repeat split).
Qed.

(** The handler of [add] and [check]: log, roll back. *)
Lemma log_then_rollback (uri msg : string) (w : world) (st : connection_state) :
  (forall h, oracle E (h ++ [rollback_call (PgCon uri)])%list = None) ->
  servers w !! uri = Some st ->
  exists w',
    (log ERROR msg;; rollback (PgCon uri)) E w = (Ok tt, w')
    /\ rolled_back (PgCon uri) st w'
    /\ history w' = (history w ++ [rollback_call (PgCon uri)])%list
    /\ logged w' = (logged w ++ [(ERROR, msg)])%list
    /\ dicts w' = dicts w.
Proof.
  intros Hr Hl. rewrite bind_run. unfold log at 1, modify. cbv beta iota.
  erewrite rollback_served; [ | apply Hr | exact Hl ].
  eexists. split; [reflexivity|]. unfold rolled_back. cbn.
  rewrite lookup_insert_eq. repeat split.
Qed.

End Failures.

Section Absorbed.

Context (E : env) (uri : string).

Lemma insert_commit_raises (sql : string) (params : list string)
    (w w1 : world) (st : connection_state) (e : exn) :
  (cursor_execute (PgCon uri) sql params;; commit (PgCon uri)) E w
  = (Raise e, w1) ->
  servers w !! uri = Some st ->
  exists st1, servers w1 !! uri = Some st1 /\ committed st1 = committed st.
Proof.
  rewrite bind_run. intros H Hl.
  destruct (cursor_execute (PgCon uri) sql params E w) as [[rows|e'] w2] eqn:Hx.
  - destruct (cursor_execute_returns_pg E _ _ _ _ _ _ _ Hx Hl)
      as (st2 & Hl2 & Hc2 & _).
    apply commit_raises in H. subst w1. exists st2. now cbn.
  - inversion H; subst. apply cursor_execute_raises in Hx. subst w1.
    exists st. now cbn.
Qed.

Lemma rolled_back_eq (st st1 : connection_state) (w : world) :
  committed st1 = committed st ->
  rolled_back (PgCon uri) st1 w -> rolled_back (PgCon uri) st w.
Proof. unfold rolled_back. now intros ->. Qed.

End Absorbed.

(** C5, as amended. On the networked backend, provided the session is open
    and the [rollback] call of the handler is served: [add] and [check] never
    raise; when the
    insert or its commit raises, whatever the exception, [add] logs an error,
    rolls the session back to the committed data and returns normally; when
    the select raises, [check] logs an error, rolls back and returns [False]. *)
Theorem postgresql_failures_are_absorbed
    (self : DownloadArchivePostgresql.t) (uri : string) (kwdict : nat)
    (E : env) (w : world) (st : connection_state) :
  DownloadArchivePostgresql.connection self = PgCon uri ->
  servers w !! uri = Some st ->
  (forall h, oracle E (h ++ [rollback_call (PgCon uri)])%list = None) ->
  let kw := default ∅ (dicts w !! kwdict) in
  let cache_key := DownloadArchivePostgresql._cache_key self in
  let key := DownloadArchivePostgresql.keygen self kw in
  (exists w', DownloadArchivePostgresql.add self kwdict E w = (Ok tt, w'))
  /\ (forall e w1,
         (cursor_execute (PgCon uri) (DownloadArchivePostgresql._stmt_insert self)
            [spec_key cache_key (DownloadArchivePostgresql.keygen self) kw];;
          commit (PgCon uri)) E w = (Raise e, w1) ->
         exists w',
           DownloadArchivePostgresql.add self kwdict E w = (Ok tt, w')
           /\ rolled_back (PgCon uri) st w'
           /\ history w' = (history w1 ++ [rollback_call (PgCon uri)])%list
           /\ logged w' = (logged w ++ [(ERROR, "%s: %s when writing entry: %s")])%list)
  /\ (exists v w', DownloadArchivePostgresql.check self kwdict E w = (Ok v, w'))
  /\ (forall e w1,
         cursor_execute (PgCon uri) (DownloadArchivePostgresql._stmt_select self)
           [key] E (set_dicts (<[kwdict := <[cache_key := key]> kw]> (dicts w)) w)
         = (Raise e, w1) ->
         exists w',
           DownloadArchivePostgresql.check self kwdict E w = (Ok (PyBool false), w')
           /\ rolled_back (PgCon uri) st w'
           /\ history w' = (history w1 ++ [rollback_call (PgCon uri)])%list
           /\ logged w' = (logged w ++ [(ERROR, "%s: %s when checking entry: %s")])%list
           /\ dicts w' !! kwdict = Some (<[cache_key := key]> kw)).
Proof.
  intros Hcon Hl Hr kw cache_key key.
  assert (Hadd : forall e w1,
             (cursor_execute (PgCon uri) (DownloadArchivePostgresql._stmt_insert self)
                [spec_key cache_key (DownloadArchivePostgresql.keygen self) kw];;
              commit (PgCon uri)) E w = (Raise e, w1) ->
             exists w',
               DownloadArchivePostgresql.add self kwdict E w = (Ok tt, w')
               /\ rolled_back (PgCon uri) st w'
               /\ history w' = (history w1 ++ [rollback_call (PgCon uri)])%list
               /\ logged w'
                  = (logged w ++ [(ERROR, "%s: %s when writing entry: %s")])%list).
  { intros e w1 Hbody.
    destruct (insert_commit_raises E uri _ _ _ _ _ _ Hbody Hl) as (st1 & Hl1 & Hc1).
    destruct (log_then_rollback E uri "%s: %s when writing entry: %s" w1 st1 Hr Hl1)
      as (w' & Hrun & Hrb & Hh & Hlog & _).
    exists w'. split; [|split; [|split]].
    - unfold DownloadArchivePostgresql.add. rewrite Hcon.
      change ((try_except
                 (cursor_execute (PgCon uri)
                    (DownloadArchivePostgresql._stmt_insert self)
                    [spec_key cache_key (DownloadArchivePostgresql.keygen self) kw];;
                  commit (PgCon uri))
                 (fun _ => log ERROR "%s: %s when writing entry: %s";;
                           rollback (PgCon uri))) E w = (Ok tt, w')).
      unfold try_except, try_except_when. now rewrite Hbody.
    - exact (rolled_back_eq uri st st1 w' Hc1 Hrb).
    - exact Hh.
    - rewrite Hlog. f_equal.
      rewrite bind_run in Hbody.
      destruct (cursor_execute _ _ _ E w) as [[rows|e'] w2] eqn:Hx.
      + destruct (cursor_execute_returns_pg E _ _ _ _ _ _ _ Hx Hl)
          as (st2 & _ & _ & _ & Hlg).
        apply commit_raises in Hbody. subst w1. now cbn.
      + inversion Hbody; subst. apply cursor_execute_raises in Hx. now subst w1. }
  assert (Hchk : forall e w1,
             cursor_execute (PgCon uri) (DownloadArchivePostgresql._stmt_select self)
               [key] E (set_dicts (<[kwdict := <[cache_key := key]> kw]> (dicts w)) w)
             = (Raise e, w1) ->
             exists w',
               DownloadArchivePostgresql.check self kwdict E w
               = (Ok (PyBool false), w')
               /\ rolled_back (PgCon uri) st w'
               /\ history w' = (history w1 ++ [rollback_call (PgCon uri)])%list
               /\ logged w'
                  = (logged w ++ [(ERROR, "%s: %s when checking entry: %s")])%list
               /\ dicts w' !! kwdict = Some (<[cache_key := key]> kw)).
  { intros e w1 Hbody. pose proof (cursor_execute_raises E _ _ _ _ _ _ Hbody) as Hw1.
    destruct (log_then_rollback E uri "%s: %s when checking entry: %s" w1 st Hr)
      as (w' & Hrun & Hrb & Hh & Hlog & Hd); [now subst w1|].
    exists w'. split; [|split; [|split; [|split]]]; auto.
    - unfold DownloadArchivePostgresql.check. rewrite Hcon.
      change ((try_except
                 (rows ← cursor_execute (PgCon uri)
                           (DownloadArchivePostgresql._stmt_select self) [key];
                  mret (fetchone rows))
                 (fun _ => log ERROR "%s: %s when checking entry: %s";;
                           rollback (PgCon uri);; mret (PyBool false))) E
                (set_dicts (<[kwdict := <[cache_key := key]> kw]> (dicts w)) w)
              = (Ok (PyBool false), w')).
      unfold try_except, try_except_when. rewrite bind_run, Hbody.
      cbv beta iota.
      change (log ERROR "%s: %s when checking entry: %s";;
              rollback (PgCon uri);; mret (PyBool false))
        with ((log ERROR "%s: %s when checking entry: %s";; rollback (PgCon uri))
              ≫= fun _ => mret (PyBool false)).
      rewrite bind_run, Hrun. reflexivity.
    - rewrite Hlog. now subst w1.
    - rewrite Hd. subst w1. cbn. apply lookup_insert_eq. }
  split; [|split; [exact Hadd|split; [|exact Hchk]]].
  - destruct ((cursor_execute (PgCon uri) (DownloadArchivePostgresql._stmt_insert self)
                 [spec_key cache_key (DownloadArchivePostgresql.keygen self) kw];;
               commit (PgCon uri)) E w) as [[[]|e] w1] eqn:Hbody.
    + exists w1. unfold DownloadArchivePostgresql.add. rewrite Hcon.
      change ((try_except
                 (cursor_execute (PgCon uri)
                    (DownloadArchivePostgresql._stmt_insert self)
                    [spec_key cache_key (DownloadArchivePostgresql.keygen self) kw];;
                  commit (PgCon uri))
                 (fun _ => log ERROR "%s: %s when writing entry: %s";;
                           rollback (PgCon uri))) E w = (Ok tt, w1)).
      unfold try_except, try_except_when. now rewrite Hbody.
    + destruct (Hadd e w1 eq_refl) as (w' & H & _). eauto.
  - destruct (cursor_execute (PgCon uri) (DownloadArchivePostgresql._stmt_select self)
                [key] E (set_dicts (<[kwdict := <[cache_key := key]> kw]> (dicts w)) w))
      as [[rows|e] w1] eqn:Hbody.
    + exists (fetchone rows), w1.
      unfold DownloadArchivePostgresql.check. rewrite Hcon.
      change ((try_except
                 (rows ← cursor_execute (PgCon uri)
                           (DownloadArchivePostgresql._stmt_select self) [key];
                  mret (fetchone rows))
                 (fun _ => log ERROR "%s: %s when checking entry: %s";;
                           rollback (PgCon uri);; mret (PyBool false))) E
                (set_dicts (<[kwdict := <[cache_key := key]> kw]> (dicts w)) w)
              = (Ok (fetchone rows), w1)).
      unfold try_except, try_except_when. now rewrite bind_run, Hbody.
    + destruct (Hchk e w1 eq_refl) as (w' & H & _). eauto.
Qed.

Lemma postgresql_failures_are_absorbed_witness :
  DownloadArchivePostgresql.connection example_pg = PgCon "postgres://db/gallery"
  /\ servers pg_item_world !! "postgres://db/gallery"
     = Some (table_of "archive" ["key-1"])
  /\ (forall h,
         oracle execute_fails (h ++ [rollback_call (PgCon "postgres://db/gallery")])%list
         = None)
  /\ (exists w',
         DownloadArchivePostgresql.add example_pg 0 execute_fails pg_item_world
         = (Ok tt, w')
         /\ rolled_back (PgCon "postgres://db/gallery")
              (table_of "archive" ["key-1"]) w'
         /\ history w'
            = [execute_call (PgCon "postgres://db/gallery")
                 "INSERT INTO archive (entry) VALUES (%s) ON CONFLICT DO NOTHING"
                 ["key-7"];
               rollback_call (PgCon "postgres://db/gallery")]
         /\ logged w' = [(ERROR, "%s: %s when writing entry: %s")])
  /\ (exists w',
         DownloadArchivePostgresql.check example_pg 0 execute_fails pg_item_world
         = (Ok (PyBool false), w')
         /\ rolled_back (PgCon "postgres://db/gallery")
              (table_of "archive" ["key-1"]) w'
         /\ history w'
            = [execute_call (PgCon "postgres://db/gallery")
                 "SELECT true FROM archive WHERE entry=%s LIMIT 1" ["key-7"];
               rollback_call (PgCon "postgres://db/gallery")]
         /\ logged w' = [(ERROR, "%s: %s when checking entry: %s")]
         /\ dicts w' !! 0%nat = Some {["id" := "7"; "_archive_key" := "key-7"]}).
Proof.
  assert (H1 : DownloadArchivePostgresql.connection example_pg
               = PgCon "postgres://db/gallery") by reflexivity.
  assert (H2 : servers pg_item_world !! "postgres://db/gallery"
               = Some (table_of "archive" ["key-1"])) by (vm_compute; reflexivity).
  assert (H3 : forall h,
             oracle execute_fails
               (h ++ [rollback_call (PgCon "postgres://db/gallery")])%list = None)
    by (intros h; cbn; now rewrite last_snoc).
  repeat (split; [assumption|]).
  pose proof (postgresql_failures_are_absorbed example_pg "postgres://db/gallery"
                0%nat execute_fails pg_item_world _ H1 H2 H3)
    as (_ & Hadd & _ & Hchk).
  split.
  - destruct (Hadd (psycopg_Error "server closed the connection")
                (set_history
                   [execute_call (PgCon "postgres://db/gallery")
                      "INSERT INTO archive (entry) VALUES (%s) ON CONFLICT DO NOTHING"
                      ["key-7"]] pg_item_world)
                ltac:(vm_compute; reflexivity))
      as (w' & Hrun & Hrb & Hh & Hlog).
    exists w'. split; [exact Hrun|]. split; [exact Hrb|].
    split; [rewrite Hh | rewrite Hlog]; reflexivity.
  - destruct (Hchk (psycopg_Error "server closed the connection")
                (set_history
                   [execute_call (PgCon "postgres://db/gallery")
                      "SELECT true FROM archive WHERE entry=%s LIMIT 1"
                      ["key-7"]]
                   pg_checked_item_world)
                ltac:(vm_compute; reflexivity))
      as (w' & Hrun & Hrb & Hh & Hlog & Hd).
    exists w'. split; [exact Hrun|]. split; [exact Hrb|].
    split; [rewrite Hh; reflexivity|]. split; [rewrite Hlog; reflexivity|].
    rewrite Hd. vm_compute. reflexivity.
Defined.

(** C5, the claim as stated fails: the handlers of [add] and [check] call
    [rollback] without a guard (lines 209 and 219).  Once the connection is
    lost the statement raises, the handler logs the error, and the
    [rollback] raises in turn: [add] and [check] raise instead of returning
    their safe default.  The same happens with a session that is still open
    when the server refuses every call. *)
Lemma add_and_check_raise_when_rollback_fails :
  fst (DownloadArchivePostgresql.add example_pg 0 example_env lost_connection_world)
  = Raise (psycopg_Error "the connection is lost")
  /\ fst (DownloadArchivePostgresql.check example_pg 0 example_env
            lost_connection_world)
     = Raise (psycopg_Error "the connection is lost")
  /\ history (snd (DownloadArchivePostgresql.add example_pg 0 example_env
                     lost_connection_world))
     = [execute_call (PgCon "postgres://db/gallery")
          "INSERT INTO archive (entry) VALUES (%s) ON CONFLICT DO NOTHING" ["key-7"];
        rollback_call (PgCon "postgres://db/gallery")]
  /\ logged (snd (DownloadArchivePostgresql.add example_pg 0 example_env
                    lost_connection_world))
     = [(ERROR, "%s: %s when writing entry: %s")]
  /\ fst (DownloadArchivePostgresql.add example_pg 0 connection_drops pg_item_world)
     = Raise (psycopg_Error "server closed the connection unexpectedly")
  /\ fst (DownloadArchivePostgresql.check example_pg 0 connection_drops pg_item_world)
     = Raise (psycopg_Error "server closed the connection unexpectedly").
Proof. repeat split; vm_compute; reflexivity. Qed.

(** * Reconciliation *)

Section Sync.

Context (E : env).

Lemma sqlite3_connect_served (path : string) (w : world) (st : connection_state) :
  oracle E (history w ++ [sqlite3_connect_call path])%list = None ->
  files w !! path = Some st ->
  sqlite3_connect path E w
  = (Ok (SqliteCon path),
     set_files (<[path := new_session st]> (files w))
       (set_history (history w ++ [sqlite3_connect_call path])%list w)).
Proof.
  intros Ho Hl. unfold sqlite3_connect. unfold_monad.
  rewrite (request_served _ _ _ Ho). cbn. now rewrite Hl.
Qed.

Lemma ensure_sqlite3_served (w : world) :
  oracle E (history w ++ [import_call "sqlite3"])%list = None ->
  exists w0,
    ensure_sqlite3 E w = (Ok tt, w0)
    /\ files w0 = files w /\ servers w0 = servers w
    /\ logged w0 = logged w /\ dicts w0 = dicts w /\ sets w0 = sets w.
Proof.
  intros Ho. unfold ensure_sqlite3, import. unfold_monad.
  destruct (sqlite3_module w).
  - exists w. repeat split.
  - rewrite (request_served _ _ _ Ho). eexists. split; [reflexivity|].
    repeat split.
Qed.

Lemma remove_served (path : string) (w : world) (st : connection_state) :
  oracle E (history w ++ [remove_call path])%list = None ->
  files w !! path = Some st ->
  remove path E w
  = (Ok tt,
     set_files (delete path (files w))
       (set_history (history w ++ [remove_call path])%list w)).
Proof.
  intros Ho Hl. unfold remove. unfold_monad.
  rewrite (request_served _ _ _ Ho). cbn. now rewrite Hl.
Qed.

Lemma table_name_sync (table : option string) :
  replace dquote "_"%char (match table with None => "archive" | Some t => t end)
  = table_name table.
Proof. now destruct table. Qed.

(** Up to the point where the rows of the fallback table are read. *)
Lemma sync_reads_rows (self : DownloadArchivePostgresql.t)
    (sqlite_path : string) (table : option string) (delete_sqlite : bool)
    (fallback : connection_state) (rows : list string) (w : world) :
  (forall h c,
      match c with
      | import_call _ | sqlite3_connect_call _ | execute_call _ _ _ =>
          oracle E (h ++ [c])%list = None
      | _ => True
      end) ->
  files w !! util_expand_path E sqlite_path = Some fallback ->
  committed fallback !! table_name table = Some rows ->
  exists w2,
    DownloadArchivePostgresql.sync_from_sqlite self sqlite_path table
      delete_sqlite E w
    = replay self (SqliteCon (util_expand_path E sqlite_path))
        (util_expand_path E sqlite_path) delete_sqlite rows E w2
    /\ servers w2 = servers w
    /\ logged w2 = logged w
    /\ files w2 !! util_expand_path E sqlite_path = Some (new_session fallback).
Proof.
  intros Hserve Hf Hrows.
  set (path := util_expand_path E sqlite_path) in *.
  destruct (ensure_sqlite3_served w) as (w0 & Hrun0 & Hf0 & Hs0 & Hl0 & _).
  { apply (Hserve _ (import_call "sqlite3")). }
  pose proof (Hserve (history w0) (sqlite3_connect_call path)) as Hc.
  rewrite <- Hf0 in Hf.
  pose proof (sqlite3_connect_served path w0 fallback Hc Hf) as Hrun1.
  set (w1 := set_files (<[path := new_session fallback]> (files w0))
               (set_history (history w0 ++ [sqlite3_connect_call path])%list w0))
    in *.
  set (sql := DownloadArchivePostgresql.stmt_select_entries
                (sanitize (match table with None => "archive" | Some t => t end))).
  assert (Hrun2 : cursor_execute (SqliteCon path) sql [] E w1
                  = (Ok rows,
                     store_con (SqliteCon path)
                       (after_statement (SqliteCon path) (new_session fallback)
                          (committed fallback))
                       (set_history
                          (history w1 ++ [execute_call (SqliteCon path) sql []])%list
                          w1))).
  { apply (cursor_execute_served E _ _ _ _ _
             (SelectEntries (table_name table))).
    - apply (Hserve _ (execute_call (SqliteCon path) sql [])).
    - cbn. apply lookup_insert_eq.
    - unfold sql. cbn [parse]. rewrite sqlite_parse_select_entries.
      now rewrite table_name_sync.
    - discriminate.
    - cbn. now rewrite Hrows. }
  eexists. split; [|split; [|split]].
  - unfold DownloadArchivePostgresql.sync_from_sqlite.
    rewrite bind_run, Hrun0. cbv beta iota.
    rewrite bind_run. unfold ask at 1. cbv beta iota zeta.
    fold path. rewrite bind_run, Hrun1. cbv beta iota.
    unfold replay, try_finally. fold sql. rewrite bind_run, Hrun2.
    reflexivity.
  - cbn. exact Hs0.
  - cbn. exact Hl0.
  - cbn. apply lookup_insert_eq.
Qed.

End Sync.

Section Replay.

Context (E : env) (p : syscall -> bool) (e : exn).
Context (Hpol : fails_only E p e).

Lemma oracle_served (h : list syscall) (c : syscall) :
  p c = false -> oracle E (h ++ [c])%list = None.
Proof. intros H. now rewrite Hpol, H. Qed.

Lemma oracle_refused (h : list syscall) (c : syscall) :
  p c = true -> oracle E (h ++ [c])%list = Some e.
Proof. intros H. now rewrite Hpol, H. Qed.

Lemma cursor_executemany_refused (con : handle) (sql : string)
    (rows : list string) (w : world) :
  p (executemany_call con sql rows) = true ->
  cursor_executemany con sql rows E w
  = (Raise e, set_history (history w ++ [executemany_call con sql rows])%list w).
Proof.
  intros H. unfold cursor_executemany. unfold_monad.
  now rewrite (request_refused E _ _ e (oracle_refused _ _ H)).
Qed.

Lemma commit_refused (con : handle) (w : world) :
  p (commit_call con) = true ->
  commit con E w
  = (Raise e, set_history (history w ++ [commit_call con])%list w).
Proof.
  intros H. unfold commit. unfold_monad.
  now rewrite (request_refused E _ _ e (oracle_refused _ _ H)).
Qed.

(** The [finally] clause: closing never raises out of it. *)
Lemma close_pass (con : handle) (w : world) :
  exists w',
    try_except (close con) (fun _ => mret tt) E w = (Ok tt, w')
    /\ servers w' = servers w /\ files w' = files w /\ logged w' = logged w
    /\ history w' = (history w ++ [close_call con])%list.
Proof.
  unfold try_except, try_except_when, close, request.
  destruct (oracle E _); eexists; (split; [reflexivity|]); repeat split.
Qed.

(** The cleanup block: it never raises; a refused [close] or [remove] is
    logged as an error, and otherwise the file is gone. *)
Lemma cleanup_run (path : string) (w : world) (st : connection_state) :
  files w !! path = Some st ->
  exists w',
    try_except
      (close (SqliteCon path);;
       remove path;;
       log INFO "Removed fallback sqlite archive %s")
      (fun exc =>
         log ERROR "Failed to remove sqlite fallback file: %s";;
         log ERROR traceback_format_exc) E w
    = (Ok tt, w')
    /\ servers w' = servers w
    /\ if p (close_call (SqliteCon path)) || p (remove_call path)
       then (ERROR, "Failed to remove sqlite fallback file: %s") ∈ logged w'
            /\ files w' = files w
       else files w' !! path = None.
Proof.
  intros Hf. unfold try_except, try_except_when.
  rewrite bind_run. unfold close at 1.
  destruct (p (close_call (SqliteCon path))) eqn:Hc.
  - rewrite (request_refused E _ _ e (oracle_refused _ _ Hc)).
    eexists. split; [reflexivity|]. cbn. repeat split.
    rewrite !elem_of_app, !list_elem_of_singleton. auto.
  - rewrite (request_served E _ _ (oracle_served _ _ Hc)). cbv beta iota.
    rewrite bind_run.
    destruct (p (remove_call path)) eqn:Hr.
    + unfold remove at 1. rewrite bind_run.
      rewrite (request_refused E _ _ e (oracle_refused _ _ Hr)).
      eexists. split; [reflexivity|]. cbn. repeat split.
      rewrite !elem_of_app, !list_elem_of_singleton. auto.
    + erewrite remove_served; [ | apply oracle_served, Hr | exact Hf ].
      eexists. split; [reflexivity|]. cbn. split; [reflexivity|].
      apply lookup_delete_eq.
Qed.

Ltac log_step :=
  rewrite bind_run; unfold log at 1, modify; cbv beta iota.

(** The replay of a non-empty list of rows, by what the environment
    refuses. *)
Lemma replay_run (self : DownloadArchivePostgresql.t) (uri path : string)
    (table : option string) (delete_sqlite : bool)
    (entries rows : list string) (st fs : connection_state) (w : world) :
  p (rollback_call (PgCon uri)) = false ->
  DownloadArchivePostgresql.connection self = PgCon uri ->
  pg_parse (DownloadArchivePostgresql._stmt_insert self)
  = Some (InsertIfAbsent (table_name table)) ->
  servers w !! uri = Some st ->
  in_transaction st = false ->
  current st = committed st ->
  committed st !! table_name table = Some entries ->
  files w !! path = Some fs ->
  rows <> [] ->
  exists r w',
    replay self (SqliteCon path) path delete_sqlite rows E w = (r, w')
    /\ if p (executemany_call (PgCon uri)
              (DownloadArchivePostgresql._stmt_insert self) rows)
          || p (commit_call (PgCon uri))
       then r = Raise e
            /\ rolled_back (PgCon uri) st w'
            /\ (ERROR, "Failed syncing from SQLite into Postgres: %s") ∈ logged w'
            /\ rollback_call (PgCon uri) ∈ history w'
       else r = Ok (Z.of_nat (List.length rows))
            /\ table_holds (PgCon uri) table (insert_entries rows entries) w'
            /\ (delete_sqlite = true ->
                if p (close_call (SqliteCon path)) || p (remove_call path)
                then (ERROR, "Failed to remove sqlite fallback file: %s")
                       ∈ logged w'
                     /\ is_Some (files w' !! path)
                else files w' !! path = None).
Proof.
  intros Hroll Hcon Hp Hl Ht Hcur Hcm Hf Hrows.
  unfold replay, try_finally. rewrite Hcon.
  destruct rows as [|k rows']; [contradiction|].
  set (rows := k :: rows') in *.
  set (stmt := DownloadArchivePostgresql._stmt_insert self) in *.
  unfold try_except at 1, try_except_when at 1. rewrite bind_run.
  destruct (p (executemany_call (PgCon uri) stmt rows)) eqn:Hmany.
  - (* the bulk insert is refused *)
    rewrite (cursor_executemany_refused _ _ _ _ Hmany). cbv beta iota.
    log_step. rewrite bind_run.
    erewrite rollback_served; [ | apply oracle_served, Hroll | exact Hl ].
    cbv beta iota. log_step. unfold raise at 1.
    match goal with
    | |- context [try_except (close ?c) _ E ?w1] =>
        destruct (close_pass c w1) as (w' & Hrun & Hs & _ & Hlg & Hh)
    end.
    rewrite Hrun. eexists _, _. split; [reflexivity|]. cbn [orb].
    split; [reflexivity|]. unfold rolled_back. cbn [lookup_con].
    rewrite Hs, Hlg, Hh. cbn. rewrite lookup_insert_eq.
    split; [reflexivity|].
    rewrite !elem_of_app, !list_elem_of_singleton. auto.
  - (* the bulk insert is served *)
    erewrite cursor_executemany_served;
      [ | apply oracle_served, Hmany | exact Hl | exact Hp
        | apply run_many_insert; rewrite Hcur; exact Hcm ].
    cbv beta iota. rewrite bind_run.
    destruct (p (commit_call (PgCon uri))) eqn:Hcommit.
    + (* the commit is refused *)
      rewrite (commit_refused _ _ Hcommit). cbv beta iota.
      log_step. rewrite bind_run.
      erewrite rollback_served;
        [ | apply oracle_served, Hroll | cbn; apply lookup_insert_eq ].
      cbv beta iota. log_step. unfold raise at 1.
      match goal with
      | |- context [try_except (close ?c) _ E ?w1] =>
          destruct (close_pass c w1) as (w' & Hrun & Hs & _ & Hlg & Hh)
      end.
      rewrite Hrun. eexists _, _. split; [reflexivity|]. cbn [orb].
      split; [reflexivity|]. unfold rolled_back. cbn [lookup_con].
      rewrite Hs, Hlg, Hh. cbn. rewrite lookup_insert_eq.
      split; [reflexivity|].
      rewrite !elem_of_app, !list_elem_of_singleton. auto.
    + (* the replay is committed *)
      erewrite commit_served;
        [ | apply oracle_served, Hcommit | apply lookup_store_con ].
      cbv beta iota zeta. log_step. rewrite bind_run.
      match goal with
      | |- context [(if delete_sqlite then ?c else _) E ?w1] =>
          assert (exists w2,
                     (if delete_sqlite then c else mret tt) E w1 = (Ok tt, w2)
                     /\ servers w2 = servers w1
                     /\ (delete_sqlite = true ->
                         if p (close_call (SqliteCon path)) || p (remove_call path)
                         then (ERROR, "Failed to remove sqlite fallback file: %s")
                                ∈ logged w2
                              /\ files w2 = files w1
                         else files w2 !! path = None))
            as (w2 & Hrun2 & Hs2 & Hclean)
      end.
      { destruct delete_sqlite.
        - match goal with
          | |- context [try_except _ _ E ?w1] =>
              destruct (cleanup_run path w1 fs) as (w2 & Hrun2 & Hs2 & Hc2);
                [exact Hf|]
          end.
          exists w2. auto.
        - eexists. split; [reflexivity|]. split; [reflexivity|]. discriminate. }
      rewrite Hrun2. cbv beta iota. rewrite ret_run.
      match goal with
      | |- context [try_except (close ?c) _ E ?w1] =>
          destruct (close_pass c w1) as (w' & Hrun & Hs & Hfl & Hlg & Hh)
      end.
      rewrite Hrun. eexists _, _. split; [reflexivity|]. cbn [orb].
      split; [reflexivity|]. split.
      * exists {| committed := <[table_name table := insert_entries rows entries]>
                                 (current st);
                  current := <[table_name table := insert_entries rows entries]>
                               (current st);
                  in_transaction := false |}.
        cbn [lookup_con]. rewrite Hs, Hs2. cbn.
        rewrite lookup_insert_eq. repeat split. apply lookup_insert_eq.
      * intros Hd. specialize (Hclean Hd). rewrite Hfl, Hlg.
        destruct (p (close_call (SqliteCon path)) || p (remove_call path));
          [|exact Hclean].
        destruct Hclean as (Hin & Hfiles). split; [exact Hin|].
        rewrite Hfiles. cbn. now rewrite Hf.
Qed.

End Replay.

Lemma before_sync_parse (E : env) (self : DownloadArchivePostgresql.t)
    (uri sqlite_path : string) (table : option string)
    (entries rows : list string) (w : world) :
  before_sync E self uri sqlite_path table entries rows w ->
  DownloadArchivePostgresql.connection self = PgCon uri
  /\ pg_parse (DownloadArchivePostgresql._stmt_insert self)
     = Some (InsertIfAbsent (table_name table)).
Proof.
  intros ((Hcon & _ & Hins) & _). cbn in Hcon, Hins. split; [exact Hcon|].
  rewrite Hins. apply pg_parse_insert.
Qed.

(** C6. Let the environment fail at one stage of the reconciliation and serve
    every other call, the fallback table holding at least one row.  When the
    bulk insert or its commit fails, [sync_from_sqlite] logs an error, rolls
    the networked store back to the entries it had, and raises the exception
    to its caller.  When closing or deleting the fallback file fails,
    [sync_from_sqlite] returns the count all the same, the rows are
    committed, and with [delete_sqlite] the failure is logged as an error. *)
Theorem sync_failure_is_raised_cleanup_failure_is_not
    (self : DownloadArchivePostgresql.t) (uri sqlite_path : string)
    (table : option string) (delete_sqlite : bool)
    (entries rows : list string) (stg : stage) (e : exn) (E : env) (w : world) :
  fails_only E (fails_at stg) e ->
  before_sync E self uri sqlite_path table entries rows w ->
  rows <> [] ->
  exists r w',
    DownloadArchivePostgresql.sync_from_sqlite self sqlite_path table
      delete_sqlite E w = (r, w')
    /\ if is_replay stg
       then r = Raise e
            /\ table_holds (PgCon uri) table entries w'
            /\ rollback_call (PgCon uri) ∈ history w'
            /\ (ERROR, "Failed syncing from SQLite into Postgres: %s") ∈ logged w'
       else r = Ok (Z.of_nat (List.length rows))
            /\ table_holds (PgCon uri) table (insert_entries rows entries) w'
            /\ (delete_sqlite = true ->
                (ERROR, "Failed to remove sqlite fallback file: %s") ∈ logged w').
Proof.
  intros Hpol Hbefore Hrows.
  destruct (before_sync_parse _ _ _ _ _ _ _ _ Hbefore) as (Hcon & Hp).
  destruct Hbefore as (_ & (st & Hl & Ht & Hcur & Hcm) & (fb & Hf & Hfr)).
  cbn in Hl.
  destruct (sync_reads_rows E self sqlite_path table delete_sqlite fb rows w)
    as (w2 & Hrun & Hs2 & Hlg2 & Hf2); [|exact Hf|exact Hfr|].
  { intros h c. destruct c; try exact I; now rewrite Hpol. }
  rewrite <- Hs2 in Hl.
  destruct (replay_run E (fails_at stg) e Hpol self uri
              (util_expand_path E sqlite_path) table delete_sqlite entries rows
              st (new_session fb) w2 eq_refl Hcon Hp Hl Ht Hcur Hcm Hf2 Hrows)
    as (r & w' & Hrun' & Hres).
  exists r, w'. split; [now rewrite Hrun|].
  destruct stg; cbn [fails_at is_replay orb] in *.
  - destruct Hres as (-> & Hrb & Hlog & Hh). repeat split; auto.
    eexists. split; [exact Hrb|]. repeat split. exact Hcm.
  - rewrite ?orb_true_r in Hres.
    destruct Hres as (-> & Hrb & Hlog & Hh). repeat split; auto.
    eexists. split; [exact Hrb|]. repeat split. exact Hcm.
  - destruct Hres as (-> & Hth & Hdel). repeat split; auto.
    intros Hd. now apply Hdel.
  - destruct Hres as (-> & Hth & Hdel). repeat split; auto.
    intros Hd. specialize (Hdel Hd). rewrite ?orb_true_r in Hdel. now apply Hdel.
Qed.

(** C2, as amended. In an environment that serves every call,
    [sync_from_sqlite] returns the number of keys it read from the fallback
    table, whether or not the networked table held them already; afterwards
    the networked table holds its former rows, untouched and in place,
    followed by the fallback keys that were missing, each once. *)
Theorem sync_returns_number_of_fallback_keys
    (self : DownloadArchivePostgresql.t) (uri sqlite_path : string)
    (table : option string) (delete_sqlite : bool)
    (entries rows : list string) (E : env) (w : world) :
  quiet E ->
  before_sync E self uri sqlite_path table entries rows w ->
  exists w' entries',
    DownloadArchivePostgresql.sync_from_sqlite self sqlite_path table
      delete_sqlite E w = (Ok (Z.of_nat (List.length rows)), w')
    /\ stored (PgCon uri) table w' = Some entries'
    /\ (forall k, k ∈ entries' <-> k ∈ entries \/ k ∈ rows)
    /\ entries `prefix_of` entries'
    /\ (NoDup entries -> NoDup entries').
Proof.
  intros Hq Hbefore.
  destruct (before_sync_parse _ _ _ _ _ _ _ _ Hbefore) as (Hcon & Hp).
  destruct Hbefore as (_ & (st & Hl & Ht & Hcur & Hcm) & (fb & Hf & Hfr)).
  cbn in Hl.
  destruct (sync_reads_rows E self sqlite_path table delete_sqlite fb rows w)
    as (w2 & Hrun & Hs2 & Hlg2 & Hf2); [|exact Hf|exact Hfr|].
  { intros h c. destruct c; try exact I; apply Hq. }
  rewrite <- Hs2 in Hl.
  assert (Hstored : exists w',
             replay self (SqliteCon (util_expand_path E sqlite_path))
               (util_expand_path E sqlite_path) delete_sqlite rows E w2
             = (Ok (Z.of_nat (List.length rows)), w')
             /\ table_holds (PgCon uri) table (insert_entries rows entries) w').
  { destruct rows as [|k rows'].
    - unfold replay, try_finally. rewrite bind_run. unfold log at 1, modify.
      cbv beta iota. rewrite ret_run.
      match goal with
      | |- context [try_except (close ?c) _ E ?w1] =>
          destruct (close_pass E c w1) as (w' & Hrun' & Hs & _)
      end.
      rewrite Hrun'. exists w'. split; [reflexivity|].
      exists st. cbn [lookup_con]. rewrite Hs. cbn. auto.
    - destruct (replay_run E (fun _ => false) (OtherException "")
                  (fun h c => Hq (h ++ [c])%list) self uri
                  (util_expand_path E sqlite_path) table delete_sqlite entries
                  (k :: rows') st (new_session fb) w2 eq_refl Hcon Hp Hl Ht Hcur
                  Hcm Hf2 ltac:(discriminate))
        as (r & w' & Hrun' & -> & Hth & _).
      exists w'. auto. }
  destruct Hstored as (w' & Hrun' & (st' & Hl' & _ & _ & Hcm')).
  exists w', (insert_entries rows entries).
  split; [now rewrite Hrun|]. split; [unfold stored; now rewrite Hl'|].
  split; [intros k; apply elem_of_insert_entries|].
  split; [apply insert_entries_prefix | apply NoDup_insert_entries].
Qed.

(** * The entry point *)

Lemma startswith_app (p rest : string) : startswith (p ++ rest) p = true.
Proof.
  unfold startswith. induction p as [|c p IH]; cbn.
  - now destruct rest.
  - destruct (ascii_dec c c); [exact IH | contradiction].
Qed.

Lemma construct_postgresql_kind (memory : bool) (path : string)
    (keygen : gmap string string -> string) (table : option string)
    (pragma : option (list string)) (cache_key : option string)
    (E : env) (w w' : world) (a : archive) :
  construct (if memory then Cls_DownloadArchivePostgresqlMemory
             else Cls_DownloadArchivePostgresql)
    path keygen table pragma cache_key E w = (Ok a, w') ->
  is_embedded a = false.
Proof.
  destruct memory; cbn [construct]; unfold fmap, M_fmap, bind, ret;
    match goal with
    | |- context [match ?m E w with _ => _ end] => destruct (m E w) as [[s|e] w1]
    end; intros H; inversion H; reflexivity.
Qed.

(** After the handler of [connect]: the table name is formatted and the class
    that [cls] holds is constructed. *)
Ltac finish_fallback :=
  unfold log, modify, dict_read; unfold_monad; cbn;
  repeat match goal with
         | |- context [match ?t with Some _ => _ | None => _ end] =>
             is_var t; destruct t
         | |- context [if truthy_str ?t then _ else _] =>
             destruct (truthy_str t)
         end;
  cbn;
  match goal with
  | |- context [construct ?c ?p ?k ?t ?pr ?ck ?E ?w0] =>
      let Hc := fresh "Hc" in
      destruct (construct c p k t pr ck E w0) as [[?|?] ?] eqn:Hc;
      cbn; auto; eapply construct_postgresql_kind, Hc
  end.

(** On a location with a networked scheme [connect] returns no embedded
    ledger, whatever happens. *)
Lemma connect_networked_never_embedded
    (path prefix format : string) (table mode : option string)
    (pragma : option (list string)) (kwdict : option nat)
    (cache_key : option string) (E : env) (w : world) :
  startswith path "postgres://" || startswith path "postgresql://" = true ->
  match connect path prefix format table mode pragma kwdict cache_key E w with
  | (Ok a, _) => is_embedded a = false
  | (Raise _, _) => True
  end.
Proof.
  intros Hs.
  unfold connect. rewrite bind_run. unfold ask at 1. cbv beta iota zeta.
  rewrite Hs. generalize (bool_decide (mode = Some "memory")).
  intros memory. rewrite bind_run. unfold try_except at 1, try_except_when at 1.
  rewrite bind_run.
  destruct (construct _ _ _ _ _ _ E w) as [[pg|e] w1] eqn:Hpg.
  - rewrite bind_run.
    match goal with
    | |- context [match ?m E w1 with _ => _ end] =>
        destruct (m E w1) as [[[]|e] w2]
    end.
    + rewrite ret_run. cbn. eapply construct_postgresql_kind, Hpg.
    + cbn. finish_fallback.
  - cbn. finish_fallback.
Qed.

(** C1, the code at the failing input. For a location with a PostgreSQL
    scheme [connect] never returns an embedded ledger: when construction of
    the networked ledger raises, the handler sets the path to the fallback
    file but [cls] is still the PostgreSQL class, so the PostgreSQL
    constructor is called on ["archive-fallback.sqlite3"].  With no server
    reachable, [connect] logs the fallback warning and then raises, and no
    SQLite store is opened, although constructing [DownloadArchive] on the
    fallback path in that world gives an embedded ledger. *)
Theorem connect_fallback_constructs_postgresql_class :
  (forall (rest prefix format : string) (table mode : option string)
          (pragma : option (list string)) (kwdict : option nat)
          (cache_key : option string) (E : env) (w : world),
      match connect ("postgres://" ++ rest) prefix format table mode pragma
              kwdict cache_key E w with
      | (Ok a, _) => is_embedded a = false
      | (Raise _, _) => True
      end
      /\ match connect ("postgresql://" ++ rest) prefix format table mode pragma
                kwdict cache_key E w with
         | (Ok a, _) => is_embedded a = false
         | (Raise _, _) => True
         end)
  /\ fst (connect "postgres://db/gallery" "" "key-" None None None None None
            example_env world0)
     = Raise (psycopg_Error "connection failed")
  /\ history (snd (connect "postgres://db/gallery" "" "key-" None None None None
                     None example_env world0))
     = [psycopg_connect_call "postgres://db/gallery";
        psycopg_connect_call "archive-fallback.sqlite3"]
  /\ files (snd (connect "postgres://db/gallery" "" "key-" None None None None
                   None example_env world0)) = ∅
  /\ (WARNING, "PostgreSQL unavailable (%s). Falling back to SQLite.")
       ∈ logged (snd (connect "postgres://db/gallery" "" "key-" None None None
                        None None example_env world0))
  /\ match fst (construct Cls_DownloadArchive "archive-fallback.sqlite3"
                  (formatter_parse example_env "key-") None None None
                  example_env world0) with
     | Ok a => is_embedded a = true
     | Raise _ => False
     end.
Proof.
  split; [|repeat split; vm_compute; try reflexivity].
  - intros rest prefix format table mode pragma kwdict cache_key E w. split.
    + apply connect_networked_never_embedded. now rewrite startswith_app.
    + apply connect_networked_never_embedded.
      rewrite (startswith_app "postgresql://"). apply orb_true_r.
  - apply elem_of_cons. now left.
Qed.

(** * Table names *)

(** C9, as amended. For every table name, [sanitize] yields the name with
    each double quote replaced by an underscore, between two double quotes; no
    quote character is left inside.  An SQL scanner therefore reads the
    sanitized name as one delimited identifier and stops exactly at its end,
    and each statement the ledgers build with it has the shape of the
    intended statement with that one identifier as its table, whatever the
    name contains: no text of the name is read as SQL.  Whether the engine
    then executes the statement is not part of this. *)
Theorem sanitize_leaves_no_quote_to_escape (name : string) :
  sanitize name
  = String dquote (replace dquote "_"%char name ++ String dquote "")
  /\ contains dquote (replace dquote "_"%char name) = false
  /\ (forall rest,
         scan_ident (sanitize name ++ String " "%char rest)
         = Some (replace dquote "_"%char name, String " "%char rest))
  /\ sqlite_parse (DownloadArchive.stmt_select (sanitize name))
     = Some (Select1 (replace dquote "_"%char name))
  /\ sqlite_parse (DownloadArchive.stmt_insert (sanitize name))
     = Some (InsertIfAbsent (replace dquote "_"%char name))
  /\ sqlite_parse (DownloadArchive.stmt_create_without_rowid (sanitize name))
     = Some (CreateTableIfNotExists (replace dquote "_"%char name) true)
  /\ sqlite_parse (DownloadArchive.stmt_create (sanitize name))
     = Some (CreateTableIfNotExists (replace dquote "_"%char name) false)
  /\ sqlite_parse (DownloadArchivePostgresql.stmt_select_entries (sanitize name))
     = Some (SelectEntries (replace dquote "_"%char name))
  /\ pg_parse (DownloadArchivePostgresql.stmt_select (sanitize name))
     = Some (Select1 (replace dquote "_"%char name))
  /\ pg_parse (DownloadArchivePostgresql.stmt_insert (sanitize name))
     = Some (InsertIfAbsent (replace dquote "_"%char name))
  /\ pg_parse (DownloadArchivePostgresql.stmt_create (sanitize name))
     = Some (CreateTableIfNotExists (replace dquote "_"%char name) false).
Proof.
  split; [reflexivity|]. split; [apply replace_no_dquote|].
  split; [intros rest; now apply scan_ident_sanitize|].
  split; [apply (sqlite_parse_select (Some name))|].
  split; [apply (sqlite_parse_insert (Some name))|].
  split; [apply (sqlite_parse_create_without_rowid (Some name))|].
  split; [apply (sqlite_parse_create (Some name))|].
  split; [apply sqlite_parse_select_entries|].
  split; [apply (pg_parse_select (Some name))|].
  split; [apply (pg_parse_insert (Some name))|].
  apply (pg_parse_create (Some name)).
Qed.

(** A table name that tries to close the identifier and append a statement
    is read as one harmless identifier. *)
Example sanitize_injection_attempt :
  sqlite_parse
    (DownloadArchive.stmt_insert
       (sanitize ("x" ++ String dquote " (entry) VALUES (?); DROP TABLE archive; --")))
  = Some (InsertIfAbsent "x_ (entry) VALUES (?); DROP TABLE archive; --").
Proof. reflexivity. Qed.

Lemma strict_env_faithful : faithful strict_env.
Proof. intros h c H. cbn. rewrite last_snoc, H. discriminate. Qed.

Lemma faithful_refuses (E : env) (con : handle) (sql : string)
    (params : list string) (w : world) :
  faithful E ->
  surely_refused (execute_call con sql params) = true ->
  exists e, fst (cursor_execute con sql params E w) = Raise e.
Proof.
  intros HE Hc.
  destruct (oracle E (history w ++ [execute_call con sql params])%list)
    as [e|] eqn:Ho.
  - exists e. now rewrite (cursor_execute_refused E _ _ _ _ _ Ho).
  - now apply HE in Ho.
Qed.

(** C9, the claim as stated fails: a sanitized name holds no quote to
    escape, but the statement built with it need not execute.  The name made
    of a percent sign and a double quote is sanitized to a percent sign and an
    underscore between quotes; psycopg takes the percent sign of every
    statement that comes with a parameter for a placeholder and refuses the
    query, so on a table of that name each [add] logs an error and each
    [check] answers [False].  The name [sqlite] followed by a double quote is
    sanitized to a name SQLite reserves, so both [CREATE TABLE] statements
    are refused and [DownloadArchive.__init__] raises.  The empty name, which
    holds no quote, is sanitized to a zero-length identifier that PostgreSQL
    refuses. *)
Lemma sanitized_name_is_refused_by_the_engine :
  contains dquote percent_quote_name = true
  /\ contains dquote sqlite_quote_name = true
  /\ sanitize percent_quote_name = String dquote ("%_" ++ String dquote "")
  /\ sanitize sqlite_quote_name = String dquote ("sqlite_" ++ String dquote "")
  /\ (forall (E : env) (uri key : string) (w : world),
         faithful E ->
         (exists e,
             fst (cursor_execute (PgCon uri)
                    (DownloadArchivePostgresql.stmt_insert
                       (sanitize percent_quote_name)) [key] E w) = Raise e)
         /\ (exists e,
                fst (cursor_execute (PgCon uri)
                       (DownloadArchivePostgresql.stmt_select
                          (sanitize percent_quote_name)) [key] E w) = Raise e))
  /\ (forall (E : env) (path : string) (w : world),
         faithful E ->
         (exists e,
             fst (cursor_execute (SqliteCon path)
                    (DownloadArchive.stmt_create_without_rowid
                       (sanitize sqlite_quote_name)) [] E w) = Raise e)
         /\ (exists e,
                fst (cursor_execute (SqliteCon path)
                       (DownloadArchive.stmt_create (sanitize sqlite_quote_name))
                       [] E w) = Raise e))
  /\ faithful strict_env
  /\ fst ((a ← construct Cls_DownloadArchivePostgresql "postgres://db/gallery"
                 (formatter_parse strict_env "key-") (Some percent_quote_name)
                 None None;
           archive_add a 0;; archive_check a 0) strict_env reachable_world)
     = Ok (PyBool false)
  /\ logged (snd ((a ← construct Cls_DownloadArchivePostgresql
                         "postgres://db/gallery"
                         (formatter_parse strict_env "key-")
                         (Some percent_quote_name) None None;
                   archive_add a 0;; archive_check a 0) strict_env
                    reachable_world))
     = [(ERROR, "%s: %s when writing entry: %s");
        (ERROR, "%s: %s when checking entry: %s")]
  /\ fst (DownloadArchive.__init__ "archive.sqlite3"
            (formatter_parse strict_env "key-") (Some sqlite_quote_name) None None
            strict_env world0)
     = Raise (sqlite3_OperationalError "object name reserved for internal use")
  /\ fst (DownloadArchivePostgresql.__init__ "postgres://db/gallery"
            (formatter_parse strict_env "key-") (Some "") None None
            strict_env reachable_world)
     = Raise (psycopg_Error "zero-length delimited identifier").
Proof.
  split; [reflexivity|]. split; [reflexivity|]. split; [reflexivity|].
  split; [reflexivity|].
  split; [intros E uri key w HE; split; apply faithful_refuses; auto|].
  split; [intros E path w HE; split; apply faithful_refuses; auto|].
  split; [apply strict_env_faithful|].
  repeat split; vm_compute; reflexivity.
Qed.

(** * Reconciliation on concrete stores *)

(** C2, the claim as stated fails: with the fallback keys [a, b, c] and the
    networked store holding [b], the replay inserts [a] and [c] and leaves [b]
    alone, but the function returns 3, the number of rows read, not 2. *)
Lemma sync_counts_every_fallback_key :
  fst (DownloadArchivePostgresql.sync_from_sqlite example_pg
         "archive-fallback.sqlite3" None false example_env reconcile_world)
  = Ok 3
  /\ stored (PgCon "postgres://db/gallery") None
       (snd (DownloadArchivePostgresql.sync_from_sqlite example_pg
               "archive-fallback.sqlite3" None false example_env reconcile_world))
     = Some ["b"; "a"; "c"]
  /\ fst (DownloadArchivePostgresql.sync_from_sqlite example_pg
            "archive-fallback.sqlite3" None false example_env reconcile_world)
     <> Ok 2.
Proof.
  split; [vm_compute; reflexivity|]. split; [vm_compute; reflexivity|].
  vm_compute. discriminate.
Qed.

Lemma example_before_sync (E : env) :
  util_expand_path E "archive-fallback.sqlite3" = "archive-fallback.sqlite3" ->
  before_sync E example_pg "postgres://db/gallery" "archive-fallback.sqlite3"
    None ["b"] ["a"; "b"; "c"] reconcile_world.
Proof.
  intros HE. split; [repeat split|]. split.
  - exists (table_of "archive" ["b"]). repeat split.
  - exists (table_of "archive" ["a"; "b"; "c"]). rewrite HE. repeat split.
Defined.

Lemma sync_returns_number_of_fallback_keys_witness :
  quiet example_env
  /\ before_sync example_env example_pg "postgres://db/gallery"
       "archive-fallback.sqlite3" None ["b"] ["a"; "b"; "c"] reconcile_world
  /\ exists w' entries',
      DownloadArchivePostgresql.sync_from_sqlite example_pg
        "archive-fallback.sqlite3" None false example_env reconcile_world
      = (Ok (Z.of_nat (List.length ["a"; "b"; "c"])), w')
      /\ stored (PgCon "postgres://db/gallery") None w' = Some entries'
      /\ (forall k, k ∈ entries' <-> k ∈ ["b"] \/ k ∈ ["a"; "b"; "c"])
      /\ ["b"] `prefix_of` entries'
      /\ (NoDup ["b"] -> NoDup entries').
Proof.
  assert (H1 : quiet example_env) by (intros h; reflexivity).
  assert (H2 : before_sync example_env example_pg "postgres://db/gallery"
                 "archive-fallback.sqlite3" None ["b"] ["a"; "b"; "c"]
                 reconcile_world)
    by (apply example_before_sync; reflexivity).
  repeat (split; [assumption|]).
  exact (sync_returns_number_of_fallback_keys example_pg "postgres://db/gallery"
           "archive-fallback.sqlite3" None false ["b"] ["a"; "b"; "c"]
           example_env reconcile_world H1 H2).
Defined.

Lemma failing_env_fails_only (s : stage) (e : exn) :
  fails_only (failing_env s e) (fails_at s) e.
Proof. intros h c. cbn. now rewrite last_snoc. Defined.

Lemma sync_failure_is_raised_cleanup_failure_is_not_witness :
  fails_only (failing_env Replay_commit (psycopg_Error "server closed the connection"))
    (fails_at Replay_commit) (psycopg_Error "server closed the connection")
  /\ before_sync (failing_env Replay_commit (psycopg_Error "server closed the connection"))
       example_pg "postgres://db/gallery" "archive-fallback.sqlite3" None
       ["b"] ["a"; "b"; "c"] reconcile_world
  /\ ["a"; "b"; "c"] <> []
  /\ (exists r w',
         DownloadArchivePostgresql.sync_from_sqlite example_pg
           "archive-fallback.sqlite3" None true
           (failing_env Replay_commit (psycopg_Error "server closed the connection"))
           reconcile_world = (r, w')
         /\ r = Raise (psycopg_Error "server closed the connection")
         /\ table_holds (PgCon "postgres://db/gallery") None ["b"] w'
         /\ rollback_call (PgCon "postgres://db/gallery") ∈ history w'
         /\ (ERROR, "Failed syncing from SQLite into Postgres: %s") ∈ logged w')
  /\ (exists r w',
         DownloadArchivePostgresql.sync_from_sqlite example_pg
           "archive-fallback.sqlite3" None true
           (failing_env Cleanup_remove (FileNotFoundError "archive-fallback.sqlite3"))
           reconcile_world = (r, w')
         /\ r = Ok (Z.of_nat (List.length ["a"; "b"; "c"]))
         /\ table_holds (PgCon "postgres://db/gallery") None
              (insert_entries ["a"; "b"; "c"] ["b"]) w'
         /\ (true = true ->
             (ERROR, "Failed to remove sqlite fallback file: %s") ∈ logged w')).
Proof.
  split; [apply failing_env_fails_only|].
  split; [apply example_before_sync; reflexivity|].
  split; [discriminate|]. split.
  - exact (sync_failure_is_raised_cleanup_failure_is_not example_pg
             "postgres://db/gallery" "archive-fallback.sqlite3" None true
             ["b"] ["a"; "b"; "c"] Replay_commit
             (psycopg_Error "server closed the connection")
             (failing_env Replay_commit (psycopg_Error "server closed the connection"))
             reconcile_world
             (failing_env_fails_only _ _)
             (example_before_sync
                (failing_env Replay_commit
                   (psycopg_Error "server closed the connection")) eq_refl)
             ltac:(discriminate)).
  - exact (sync_failure_is_raised_cleanup_failure_is_not example_pg
             "postgres://db/gallery" "archive-fallback.sqlite3" None true
             ["b"] ["a"; "b"; "c"] Cleanup_remove
             (FileNotFoundError "archive-fallback.sqlite3")
             (failing_env Cleanup_remove (FileNotFoundError "archive-fallback.sqlite3"))
             reconcile_world
             (failing_env_fails_only _ _)
             (example_before_sync
                (failing_env Cleanup_remove
                   (FileNotFoundError "archive-fallback.sqlite3")) eq_refl)
             ltac:(discriminate)).
Defined.

(** * What the constructors establish *)

Section Constructors.

Context (E : env).

Lemma sqlite3_connect_returns (path : string) (w w' : world) (con : handle) :
  sqlite3_connect path E w = (Ok con, w') ->
  con = SqliteCon path /\ settled (SqliteCon path) w'.
Proof.
  unfold sqlite3_connect, request. unfold_monad. cbn.
  destruct (oracle E _); [discriminate|]. cbn.
  destruct (files w !! path) as [st|].
  - intros H. inversion H; subst. split; [reflexivity|].
    exists (new_session st). cbn. rewrite lookup_insert_eq. auto.
  - repeat case_match; intros Hret; inversion Hret; subst.
    all: split; [reflexivity|]; exists empty_database; cbn;
      rewrite lookup_insert_eq; auto.
Qed.

Lemma psycopg_connect_returns (uri : string) (w w' : world) (con : handle) :
  psycopg_connect uri E w = (Ok con, w') ->
  con = PgCon uri /\ settled (PgCon uri) w'.
Proof.
  unfold psycopg_connect, request. unfold_monad. cbn.
  destruct (oracle E _); [discriminate|]. cbn.
  destruct (servers w !! uri) as [st|]; [|discriminate].
  intros H. inversion H; subst. split; [reflexivity|].
  exists (new_session st). cbn. rewrite lookup_insert_eq. auto.
Qed.

(** A statement that returns, on a settled SQLite session. *)
Lemma cursor_execute_returns_sqlite (path sql : string) (params rows : list string)
    (s : statement) (w w' : world) :
  cursor_execute (SqliteCon path) sql params E w = (Ok rows, w') ->
  sqlite_parse sql = Some s ->
  s <> Begin ->
  settled (SqliteCon path) w ->
  exists st d,
    files w !! path = Some st
    /\ run_statement s params (current st) = inr (d, rows)
    /\ files w' !! path
       = Some {| committed := d; current := d; in_transaction := false |}.
Proof.
  intros H Hp Hb (st & Hl & Ht & Hc). cbn in Hl. revert H.
  unfold cursor_execute, request. unfold_monad. cbn.
  destruct (oracle E _); [discriminate|]. cbn. rewrite Hl, Hp.
  destruct s; try congruence;
    match goal with
    | |- context [run_statement ?s ?p ?d] =>
        destruct (run_statement s p d) as [err|[d' rows']] eqn:Hr
    end; intros H; inversion H; subst;
    exists st, d'; rewrite Ht; cbn; rewrite lookup_insert_eq; auto.
Qed.

Lemma sqlite_parse_pragma (stmt : string) :
  sqlite_parse ("PRAGMA " ++ stmt) = Some (Pragma stmt).
Proof. reflexivity. Qed.

(** The pragmas leave the session settled. *)
Lemma pragmas_settled (path : string) (stmts : list string) :
  forall w w',
    for_each stmts
      (fun stmt => cursor_execute (SqliteCon path) ("PRAGMA " ++ stmt) [];; mret tt)
      E w = (Ok tt, w') ->
    settled (SqliteCon path) w -> settled (SqliteCon path) w'.
Proof.
  induction stmts as [|stmt stmts IH]; intros w w' H Hs.
  - cbn in H. inversion H. now subst.
  - cbn [for_each] in H. unfold bind at 1 in H. rewrite bind_run in H.
    destruct (cursor_execute _ _ _ E w) as [[rows|e] w1] eqn:Hx;
      [|discriminate].
    rewrite ret_run in H.
    destruct (cursor_execute_returns_sqlite _ _ _ _ _ _ _ Hx
                (sqlite_parse_pragma stmt) ltac:(discriminate) Hs)
      as (st & d & _ & _ & Hl1).
    apply (IH w1 w' H). eexists. split; [exact Hl1|]. auto.
Qed.

Lemma create_table_holds (path : string) (table : option string)
    (flag : bool) (sql : string) (rows : list string) (w w' : world) :
  cursor_execute (SqliteCon path) sql [] E w = (Ok rows, w') ->
  sqlite_parse sql = Some (CreateTableIfNotExists (table_name table) flag) ->
  settled (SqliteCon path) w ->
  exists entries, table_holds (SqliteCon path) table entries w'.
Proof.
  intros Hx Hp Hs.
  destruct (cursor_execute_returns_sqlite _ _ _ _ _ _ _ Hx Hp
              ltac:(discriminate) Hs) as (st & d & _ & Hr & Hl1).
  cbn in Hr.
  destruct (current st !! table_name table) as [entries|] eqn:Ht;
    inversion Hr; subst.
  - exists entries, {| committed := current st; current := current st;
                       in_transaction := false |}. auto.
  - exists [], {| committed := <[table_name table := []]> (current st);
                  current := <[table_name table := []]> (current st);
                  in_transaction := false |}.
    cbn. repeat split; auto. apply lookup_insert_eq.
Qed.

(** [DownloadArchive.__init__], when it returns, has assigned the
    attributes that [constructed] lists and left the table in place. *)
Lemma sqlite_init_returns (path : string) (keygen : gmap string string -> string)
    (table : option string) (pragma : option (list string))
    (cache_key : option string) (w w' : world) (self : DownloadArchive.t) :
  DownloadArchive.__init__ path keygen table pragma cache_key E w = (Ok self, w') ->
  constructed (Sqlite self) path table
  /\ DownloadArchive.keygen self = keygen
  /\ DownloadArchive._cache_key self = py_or cache_key "_archive_key"
  /\ exists entries, table_holds (SqliteCon path) table entries w'.
Proof.
  unfold DownloadArchive.__init__. rewrite bind_run.
  destruct (ensure_sqlite3 E w) as [[[]|e] w0]; [|discriminate].
  rewrite bind_run.
  match goal with
  | |- context [try_except_when ?f ?b ?h E w0] =>
      destruct (try_except_when f b h E w0) as [[con|e] w1] eqn:Hopen;
        [|discriminate]
  end.
  assert (Hcon : con = SqliteCon path /\ settled (SqliteCon path) w1).
  { unfold try_except_when in Hopen.
    destruct (sqlite3_connect path E w0) as [[con0|e0] w0'] eqn:Hc0.
    - inversion Hopen; subst. eapply sqlite3_connect_returns, Hc0.
    - destruct (is_sqlite3_OperationalError e0); [|discriminate].
      rewrite bind_run in Hopen.
      destruct (makedirs (dirname path) E w0') as [[[]|e1] w0''];
        [|discriminate].
      eapply sqlite3_connect_returns, Hopen. }
  destruct Hcon as (-> & Hs1). cbv zeta. rewrite bind_run.
  match goal with
  | |- context [match pragma with Some _ => _ | None => _ end] =>
      destruct (match pragma with
                | Some stmts =>
                    for_each stmts
                      (fun stmt =>
                         cursor_execute (SqliteCon path) ("PRAGMA " ++ stmt) [];;
                         mret tt)
                | None => mret tt
                end E w1) as [[[]|e] w2] eqn:Hpragma; [|discriminate]
  end.
  assert (Hs2 : settled (SqliteCon path) w2).
  { destruct pragma as [stmts|].
    - eapply pragmas_settled; eauto.
    - rewrite ret_run in Hpragma. inversion Hpragma. now subst. }
  rewrite bind_run.
  match goal with
  | |- context [try_except_when ?f ?b ?h E w2] =>
      destruct (try_except_when f b h E w2) as [[[]|e] w3] eqn:Hcreate;
        [|discriminate]
  end.
  rewrite ret_run. intros H. inversion H; subst. clear H.
  split; [repeat split|]. split; [reflexivity|]. split; [reflexivity|].
  unfold try_except_when in Hcreate. rewrite bind_run in Hcreate.
  fold (table_text table) in Hcreate.
  destruct (cursor_execute (SqliteCon path)
              (DownloadArchive.stmt_create_without_rowid (table_text table))
              [] E w2) as [[rows|e0] w2'] eqn:Hc1.
  - rewrite ret_run in Hcreate. inversion Hcreate; subst.
    eapply create_table_holds;
      [exact Hc1 | apply sqlite_parse_create_without_rowid | exact Hs2].
  - destruct (is_sqlite3_OperationalError e0); [|discriminate].
    rewrite bind_run in Hcreate.
    apply cursor_execute_raises in Hc1. subst w2'.
    destruct (cursor_execute (SqliteCon path)
                (DownloadArchive.stmt_create (table_text table)) [] E _)
      as [[rows|e1] w2''] eqn:Hc2; [|discriminate].
    rewrite ret_run in Hcreate. inversion Hcreate; subst.
    eapply create_table_holds;
      [exact Hc2 | apply sqlite_parse_create | ].
    destruct Hs2 as (st & Hl & Ht & Hc). exists st. auto.
Qed.

End Constructors.

Section ConstructorsNetworked.

Context (E : env).

Lemma cursor_execute_returns_pg_parsed (uri sql : string)
    (params rows : list string) (s : statement) (w w' : world)
    (st : connection_state) :
  cursor_execute (PgCon uri) sql params E w = (Ok rows, w') ->
  pg_parse sql = Some s ->
  s <> Begin ->
  servers w !! uri = Some st ->
  exists d,
    run_statement s params (current st) = inr (d, rows)
    /\ servers w' !! uri
       = Some {| committed := committed st; current := d;
                 in_transaction := true |}.
Proof.
  intros H Hp Hb Hl. revert H.
  unfold cursor_execute, request. unfold_monad. cbn.
  destruct (oracle E _); [discriminate|]. cbn. rewrite Hl, Hp.
  destruct s; try congruence;
    match goal with
    | |- context [run_statement ?s ?p ?d] =>
        destruct (run_statement s p d) as [err|[d' rows']] eqn:Hr
    end; intros H; inversion H; subst;
    exists d'; cbn; rewrite lookup_insert_eq; auto.
Qed.

Lemma commit_returns (con : handle) (w w' : world) (st : connection_state) :
  commit con E w = (Ok tt, w') ->
  lookup_con con w = Some st ->
  lookup_con con w'
  = Some {| committed := current st; current := current st;
            in_transaction := false |}.
Proof.
  intros H Hl. revert H. unfold commit, request. unfold_monad. cbn.
  destruct (oracle E _); [discriminate|]. cbn.
  rewrite lookup_con_set_history, Hl.
  intros H. inversion H; subst. apply lookup_store_con.
Qed.

(** [DownloadArchivePostgresql.__init__], when it returns. *)
Lemma pg_init_returns (uri : string) (keygen : gmap string string -> string)
    (table : option string) (pragma : option (list string))
    (cache_key : option string) (w w' : world)
    (self : DownloadArchivePostgresql.t) :
  DownloadArchivePostgresql.__init__ uri keygen table pragma cache_key E w
  = (Ok self, w') ->
  constructed (Postgresql self) uri table
  /\ DownloadArchivePostgresql.keygen self = keygen
  /\ DownloadArchivePostgresql._cache_key self = py_or cache_key "_archive_key"
  /\ exists entries, table_holds (PgCon uri) table entries w'.
Proof.
  unfold DownloadArchivePostgresql.__init__. rewrite bind_run.
  destruct (ensure_psycopg E w) as [[[]|e] w0]; [|discriminate].
  rewrite bind_run.
  destruct (psycopg_connect uri E w0) as [[con|e] w1] eqn:Hopen; [|discriminate].
  destruct (psycopg_connect_returns E _ _ _ _ Hopen) as (-> & (st & Hl & Ht & Hc)).
  cbn in Hl. cbv zeta. fold (table_text table). rewrite bind_run.
  unfold try_except at 1, try_except_when at 1. rewrite bind_run.
  destruct (cursor_execute (PgCon uri)
              (DownloadArchivePostgresql.stmt_create (table_text table)) [] E w1)
    as [[rows|e] w2] eqn:Hx.
  - destruct (cursor_execute_returns_pg_parsed _ _ _ _ _ _ _ _ Hx
                (pg_parse_create table) ltac:(discriminate) Hl)
      as (d & Hr & Hl2).
    destruct (commit (PgCon uri) E w2) as [[[]|e] w3] eqn:Hcommit.
    + rewrite ret_run. intros H. inversion H; subst. clear H.
      split; [repeat split|]. split; [reflexivity|]. split; [reflexivity|].
      pose proof (commit_returns _ _ _ _ Hcommit Hl2) as Hl3. cbn in Hl3.
      cbn in Hr.
      destruct (current st !! table_name table) as [entries|] eqn:Htab;
        inversion Hr; subst.
      * exists entries. eexists. split; [exact Hl3|]. cbn. auto.
      * exists []. eexists. split; [exact Hl3|]. cbn. repeat split.
        apply lookup_insert_eq.
    + rewrite bind_run. unfold log at 1, modify. cbv beta iota.
      rewrite bind_run.
      match goal with
      | |- context [rollback ?c E ?w0] => destruct (rollback c E w0) as [[[]|?] ?]
      end; discriminate.
  - rewrite bind_run. unfold log at 1, modify. cbv beta iota.
    rewrite bind_run.
    match goal with
    | |- context [rollback ?c E ?w0] => destruct (rollback c E w0) as [[[]|?] ?]
    end; discriminate.
Qed.

Lemma table_holds_set_sets (con : handle) (table : option string)
    (entries : list string) (s : gmap nat (gset string)) (w : world) :
  table_holds con table entries w ->
  table_holds con table entries (set_sets s w).
Proof. intros (st & Hl & H). exists st. split; [|exact H]. now destruct con. Qed.

(** Whatever class is constructed, a ledger that [cls(...)] returns has
    the attributes of [constructed], the key function and cache field it
    was given, its table in place and nothing pending. *)
Lemma construct_returns (c : cls) (loc : string)
    (keygen : gmap string string -> string) (table : option string)
    (pragma : option (list string)) (cache_key : option string)
    (w w' : world) (a : archive) :
  construct c loc keygen table pragma cache_key E w = (Ok a, w') ->
  constructed a loc table
  /\ archive_keygen a = keygen
  /\ archive_cache_key a = py_or cache_key "_archive_key"
  /\ (exists entries, table_holds (archive_connection a) table entries w')
  /\ pending a w' = ∅.
Proof.
  destruct c; cbn [construct]; unfold fmap, M_fmap; unfold bind at 1, ret at 1.
  - destruct (DownloadArchive.__init__ _ _ _ _ _ E w) as [[s|e] w1] eqn:Hi;
      [|discriminate].
    intros H. inversion H; subst. clear H.
    destruct (sqlite_init_returns E _ _ _ _ _ _ _ _ Hi)
      as ((Hcon & Hs & Hin) & Hk & Hck & Hth).
    cbn in Hcon. cbn [archive_connection]. rewrite Hcon.
    split; [repeat split; auto|]. split; [exact Hk|]. split; [exact Hck|].
    split; [exact Hth | reflexivity].
  - unfold DownloadArchiveMemory.__init__. rewrite bind_run.
    destruct (DownloadArchive.__init__ _ _ _ _ _ E w) as [[s|e] w1] eqn:Hi;
      [|discriminate].
    unfold set_new. unfold_monad. cbn. intros H. inversion H; subst. clear H.
    destruct (sqlite_init_returns E _ _ _ _ _ _ _ _ Hi)
      as ((Hcon & Hs & Hin) & Hk & Hck & (entries & Hth)).
    cbn in Hcon. cbn [archive_connection DownloadArchiveMemory.base]. rewrite Hcon.
    split; [repeat split; auto|]. split; [exact Hk|]. split; [exact Hck|].
    split.
    + exists entries. now apply table_holds_set_sets.
    + cbn. now rewrite lookup_insert_eq.
  - destruct (DownloadArchivePostgresql.__init__ _ _ _ _ _ E w)
      as [[s|e] w1] eqn:Hi; [|discriminate].
    intros H. inversion H; subst. clear H.
    destruct (pg_init_returns _ _ _ _ _ _ _ _ Hi)
      as ((Hcon & Hs & Hin) & Hk & Hck & Hth).
    cbn in Hcon. cbn [archive_connection]. rewrite Hcon.
    split; [repeat split; auto|]. split; [exact Hk|]. split; [exact Hck|].
    split; [exact Hth | reflexivity].
  - unfold DownloadArchivePostgresqlMemory.__init__. rewrite bind_run.
    destruct (DownloadArchivePostgresql.__init__ _ _ _ _ _ E w)
      as [[s|e] w1] eqn:Hi; [|discriminate].
    unfold set_new. unfold_monad. cbn. intros H. inversion H; subst. clear H.
    destruct (pg_init_returns _ _ _ _ _ _ _ _ Hi)
      as ((Hcon & Hs & Hin) & Hk & Hck & (entries & Hth)).
    cbn in Hcon. cbn [archive_connection DownloadArchivePostgresqlMemory.base].
    rewrite Hcon.
    split; [repeat split; auto|]. split; [exact Hk|]. split; [exact Hck|].
    split.
    + exists entries. now apply table_holds_set_sets.
    + cbn. now rewrite lookup_insert_eq.
Qed.

End ConstructorsNetworked.

(** The concrete ledgers of the examples are what the constructors return. *)
Example example_sqlite_constructed :
  fst (DownloadArchive.__init__ "archive.sqlite3"
         (formatter_parse example_env "key-") None None None example_env world0)
  = Ok example_sqlite.
Proof. reflexivity. Qed.

Example example_pg_constructed :
  fst (DownloadArchivePostgresql.__init__ "postgres://db/gallery"
         (formatter_parse example_env "key-") None None None example_env
         reconcile_world)
  = Ok example_pg.
Proof. reflexivity. Qed.

(** * Further properties of [sanitize] *)

Lemma replace_absent (old new : ascii) (s : string) :
  contains old s = false -> replace old new s = s.
Proof.
  induction s as [|c s IH]; cbn; [reflexivity|].
  intros H. apply orb_false_iff in H as [Hc Hs]. now rewrite Hc, (IH Hs).
Qed.

Lemma replace_replace (s : string) :
  replace dquote "_"%char (replace dquote "_"%char s) = replace dquote "_"%char s.
Proof. apply replace_absent, replace_no_dquote. Qed.

Lemma replace_app (old new : ascii) (a b : string) :
  replace old new (a ++ b) = replace old new a ++ replace old new b.
Proof. induction a as [|c a IH]; cbn; [reflexivity | now rewrite IH]. Qed.

(** X2. [sanitize] is not injective: a name and the name with its double
    quotes replaced by underscores are spliced into the statements as the
    same text, so two such table names share one table; sanitizing twice is
    not the identity either, the outer quotes being replaced in turn. *)
Theorem sanitize_identifies_quote_and_underscore (name : string) :
  sanitize (replace dquote "_"%char name) = sanitize name
  /\ table_name (Some (replace dquote "_"%char name)) = table_name (Some name)
  /\ sanitize (sanitize name)
     = String dquote
         (String "_"%char (replace dquote "_"%char name ++ "_")
            ++ String dquote "").
Proof.
  unfold sanitize, table_name. rewrite replace_replace.
  split; [reflexivity|]. split; [reflexivity|].
  cbn. rewrite replace_app, replace_replace. reflexivity.
Qed.

(** * What [check] reads and what it leaves alone *)

Lemma run_select (t k : string) (d : database) (entries : list string) :
  d !! t = Some entries ->
  run_statement (Select1 t) [k] d
  = inr (d, if bool_decide (k ∈ entries) then ["1"] else []).
Proof. intros H. unfold run_statement. now rewrite H. Qed.

Lemma select_quiet (E : env) (con : handle) (stmt t k : string) (w : world)
    (st : connection_state) (entries : list string) :
  quiet E ->
  parse con stmt = Some (Select1 t) ->
  lookup_con con w = Some st ->
  current st !! t = Some entries ->
  cursor_execute con stmt [k] E w
  = (Ok (if bool_decide (k ∈ entries) then ["1"] else []),
     store_con con (after_statement con st (current st))
       (set_history (history w ++ [execute_call con stmt [k]])%list w)).
Proof.
  intros Hq Hp Hl Hc.
  apply (cursor_execute_served E con stmt [k] w st (Select1 t));
    [apply Hq | exact Hl | exact Hp | discriminate | now apply run_select].
Qed.

Lemma truthy_fetchone (k : string) (entries : list string) :
  truthy (fetchone (if bool_decide (k ∈ entries) then ["1"] else [])) = true
  <-> k ∈ entries.
Proof. case_bool_decide; cbn; intuition discriminate. Qed.

Lemma stored_after_select (con : handle) (table : option string)
    (st : connection_state) (entries : list string) (w : world) :
  in_transaction st = false ->
  current st = committed st ->
  committed st !! table_name table = Some entries ->
  stored con table (store_con con (after_statement con st (current st)) w)
  = Some entries.
Proof.
  intros Ht Hc Hcm. unfold stored. rewrite lookup_store_con.
  destruct con; cbn; rewrite ?Ht, ?Hc; exact Hcm.
Qed.

(** [check] in a quiet environment. *)
Lemma check_quiet
    (a : archive) (loc : string) (table : option string)
    (entries : list string) (kwdict : nat) (E : env) (w : world) :
  quiet E ->
  constructed a loc table ->
  table_holds (archive_connection a) table entries w ->
  exists v w',
    archive_check a kwdict E w = (Ok v, w')
    /\ (truthy v = true
        <-> archive_keygen a (default ∅ (dicts w !! kwdict)) ∈ pending a w
            \/ archive_keygen a (default ∅ (dicts w !! kwdict)) ∈ entries)
    /\ stored (archive_connection a) table w' = Some entries
    /\ pending a w' = pending a w.
Proof.
  intros Hq Hc Hholds. pose proof (constructed_parse_select a loc table Hc) as Hp.
  destruct Hholds as (st & Hl & Ht & Hcur & Hcm).
  assert (Hcurt : current st !! table_name table = Some entries)
    by (rewrite Hcur; exact Hcm).
  destruct a as [s|s|s|s]; cbn [archive_check pending archive_keygen archive_connection]
    in *.
  - unfold DownloadArchive.check, dict_read, dict_setitem. unfold_monad. cbn.
    erewrite select_quiet; [ | exact Hq | exact Hp | | exact Hcurt ];
      [|destruct (DownloadArchive.connection s); exact Hl].
    eexists _, _. split; [reflexivity|]. split; [|split].
    + rewrite truthy_fetchone. rewrite elem_of_empty. tauto.
    + now apply stored_after_select.
    + reflexivity.
  - unfold DownloadArchiveMemory.check, dict_read, dict_setitem, set_read.
    unfold_monad. cbn. case_bool_decide as Hk.
    + eexists _, _. split; [reflexivity|]. cbn. split; [tauto|].
      split; [|reflexivity]. unfold stored.
      replace (lookup_con _ _) with (Some st)
        by (destruct (DownloadArchive.connection _); now rewrite <- Hl).
      exact Hcm.
    + erewrite select_quiet; [ | exact Hq | exact Hp | | exact Hcurt ];
        [|destruct (DownloadArchive.connection _); exact Hl].
      eexists _, _. split; [reflexivity|]. split; [|split].
      * rewrite truthy_fetchone. tauto.
      * now apply stored_after_select.
      * now rewrite sets_store_con.
  - unfold DownloadArchivePostgresql.check, dict_read, dict_setitem.
    unfold_monad. cbn.
    erewrite select_quiet; [ | exact Hq | exact Hp | | exact Hcurt ];
      [|destruct (DownloadArchivePostgresql.connection s); exact Hl].
    eexists _, _. split; [reflexivity|]. split; [|split].
    + rewrite truthy_fetchone. rewrite elem_of_empty. tauto.
    + now apply stored_after_select.
    + reflexivity.
  - unfold DownloadArchivePostgresqlMemory.check, dict_read, dict_setitem, set_read.
    unfold_monad. cbn. case_bool_decide as Hk.
    + eexists _, _. split; [reflexivity|]. cbn. split; [tauto|].
      split; [|reflexivity]. unfold stored.
      replace (lookup_con _ _) with (Some st)
        by (destruct (DownloadArchivePostgresql.connection _); now rewrite <- Hl).
      exact Hcm.
    + erewrite select_quiet; [ | exact Hq | exact Hp | | exact Hcurt ];
        [|destruct (DownloadArchivePostgresql.connection _); exact Hl].
      eexists _, _. split; [reflexivity|]. split; [|split].
      * rewrite truthy_fetchone. tauto.
      * now apply stored_after_select.
      * now rewrite sets_store_con.
Qed.

(** X3. In an environment that serves every call, on any of the four
    ledgers, [check] returns a true value exactly when the key the
    KeyFormatter derives from the item is pending in the buffer or is a row
    of the table; it leaves the committed rows and the pending set as they
    were. *)
Theorem check_finds_exactly_the_seen_keys
    (a : archive) (loc : string) (table : option string)
    (entries : list string) (kwdict : nat) (E : env) (w : world) :
  quiet E ->
  constructed a loc table ->
  table_holds (archive_connection a) table entries w ->
  exists v w',
    archive_check a kwdict E w = (Ok v, w')
    /\ (truthy v = true
        <-> archive_keygen a (default ∅ (dicts w !! kwdict)) ∈ pending a w
            \/ archive_keygen a (default ∅ (dicts w !! kwdict)) ∈ entries)
    /\ stored (archive_connection a) table w' = Some entries
    /\ pending a w' = pending a w.
Proof. apply check_quiet. Qed.

Lemma check_finds_exactly_the_seen_keys_witness :
  quiet example_env
  /\ constructed (SqliteMemory example_memory) "archive.sqlite3" None
  /\ table_holds (SqliteCon "archive.sqlite3") None ["cached"] stale_item_world
  /\ exists v w',
      archive_check (SqliteMemory example_memory) 0 example_env stale_item_world
      = (Ok v, w')
      /\ (truthy v = true
          <-> archive_keygen (SqliteMemory example_memory)
                (default ∅ (dicts stale_item_world !! 0%nat))
              ∈ pending (SqliteMemory example_memory) stale_item_world
              \/ archive_keygen (SqliteMemory example_memory)
                   (default ∅ (dicts stale_item_world !! 0%nat)) ∈ ["cached"])
      /\ stored (SqliteCon "archive.sqlite3") None w' = Some ["cached"]
      /\ pending (SqliteMemory example_memory) w'
         = pending (SqliteMemory example_memory) stale_item_world.
Proof.
  assert (H1 : quiet example_env) by (intros h; reflexivity).
  assert (H2 : constructed (SqliteMemory example_memory) "archive.sqlite3" None)
    by (repeat split).
  assert (H3 : table_holds (SqliteCon "archive.sqlite3") None ["cached"]
                 stale_item_world)
    by (exists (table_of "archive" ["cached"]); repeat split).
  repeat (split; [assumption|]).
  exact (check_finds_exactly_the_seen_keys (SqliteMemory example_memory)
           "archive.sqlite3" None ["cached"] 0%nat example_env stale_item_world
           H1 H2 H3).
Defined.

(** * [check] is a read-only operation *)

Lemma stored_store_con (con con' : handle) (table : option string)
    (st st' : connection_state) (w : world) :
  lookup_con con w = Some st ->
  committed st' = committed st ->
  stored con' table (store_con con st' w) = stored con' table w.
Proof.
  intros Hl Hc. unfold stored.
  destruct con as [p|u], con' as [p'|u']; cbn in *; try reflexivity.
  - destruct (decide (p = p')) as [->|Hne].
    + now rewrite lookup_insert_eq, Hl, Hc.
    + now rewrite lookup_insert_ne.
  - destruct (decide (u = u')) as [->|Hne].
    + now rewrite lookup_insert_eq, Hl, Hc.
    + now rewrite lookup_insert_ne.
Qed.

Lemma same_committed_refl (w : world) : same_committed w w.
Proof. intros con table. reflexivity. Qed.

Lemma same_committed_trans (w1 w2 w3 : world) :
  same_committed w1 w2 -> same_committed w2 w3 -> same_committed w1 w3.
Proof. intros H12 H23 con table. now rewrite H23, H12. Qed.

Lemma same_committed_store (con : handle) (st st' : connection_state)
    (w0 w : world) :
  same_committed w0 w ->
  lookup_con con w = Some st ->
  committed st' = committed st ->
  same_committed w0 (store_con con st' w).
Proof.
  intros H Hl Hc con' table. rewrite <- H. now apply stored_store_con with st.
Qed.

Lemma same_committed_set_dicts (d : gmap nat (gmap string string)) (w : world) :
  same_committed w (set_dicts d w).
Proof. intros [p|u] table; reflexivity. Qed.

Lemma same_committed_set_logged (l : list (level * string)) (w : world) :
  same_committed w (set_logged l w).
Proof. intros [p|u] table; reflexivity. Qed.

Lemma same_committed_set_history (h : list syscall) (w : world) :
  same_committed w (set_history h w).
Proof. intros [p|u] table; reflexivity. Qed.

Lemma same_committed_set_sets (s : gmap nat (gset string)) (w : world) :
  same_committed w (set_sets s w).
Proof. intros [p|u] table; reflexivity. Qed.

Lemma lookup_con_set_dicts (con : handle) (d : gmap nat (gmap string string))
    (w : world) :
  lookup_con con (set_dicts d w) = lookup_con con w.
Proof. now destruct con. Qed.

Lemma lookup_con_set_logged (con : handle) (l : list (level * string)) (w : world) :
  lookup_con con (set_logged l w) = lookup_con con w.
Proof. now destruct con. Qed.

Lemma lookup_con_set_sets (con : handle) (s : gmap nat (gset string)) (w : world) :
  lookup_con con (set_sets s w) = lookup_con con w.
Proof. now destruct con. Qed.

(** A [SELECT 1] on a settled session changes no committed row, whatever the
    engine answers. *)
Lemma select_same_committed (E : env) (con : handle) (stmt t : string)
    (params : list string) (w : world) (st : connection_state) :
  parse con stmt = Some (Select1 t) ->
  lookup_con con w = Some st ->
  current st = committed st ->
  exists r w',
    cursor_execute con stmt params E w = (r, w')
    /\ same_committed w w'
    /\ sets w' = sets w
    /\ exists st', lookup_con con w' = Some st' /\ committed st' = committed st.
Proof.
  intros Hp Hl Hcur. unfold cursor_execute, request. unfold_monad. cbn.
  destruct (oracle E _); cbn.
  - eexists _, _. split; [reflexivity|]. split; [apply same_committed_set_history|].
    split; [reflexivity|]. exists st. now rewrite lookup_con_set_history.
  - rewrite lookup_con_set_history, Hl, Hp. unfold run_statement.
    destruct (current st !! t) as [entries|].
    + destruct params as [|k [|k' params]]; cbn;
        eexists _, _; (split; [reflexivity|]);
        try (split; [apply same_committed_set_history|]; split; [reflexivity|];
             exists st; now rewrite lookup_con_set_history).
      split; [|split; [now rewrite sets_store_con|]].
      * apply same_committed_store with st;
          [apply same_committed_set_history | now rewrite lookup_con_set_history|].
        destruct con; cbn; [destruct (in_transaction st)|]; auto.
      * eexists. rewrite lookup_store_con. split; [reflexivity|].
        destruct con; cbn; [destruct (in_transaction st)|]; auto.
    + cbn. eexists _, _. split; [reflexivity|].
      split; [apply same_committed_set_history|].
      split; [reflexivity|]. exists st. now rewrite lookup_con_set_history.
Qed.

(** [rollback] changes no committed row, whether it is served or not. *)
Lemma rollback_same_committed (E : env) (con : handle) (w : world) :
  exists r w',
    rollback con E w = (r, w') /\ same_committed w w' /\ sets w' = sets w.
Proof.
  unfold rollback, request. unfold_monad. cbn.
  destruct (oracle E _); cbn.
  - eexists _, _. split; [reflexivity|]. split; [apply same_committed_set_history|].
    reflexivity.
  - rewrite lookup_con_set_history.
    destruct (lookup_con con w) as [st|] eqn:Hl; cbn;
      eexists _, _; (split; [reflexivity|]).
    + split; [|now rewrite sets_store_con].
      apply same_committed_store with st;
        [apply same_committed_set_history | now rewrite lookup_con_set_history
        | reflexivity].
    + split; [apply same_committed_set_history|reflexivity].
Qed.


(** The guarded query of the networked ledgers (lines 213-220, 289-296). *)
Lemma guarded_select_same_committed (E : env) (con : handle) (stmt t k : string)
    (w : world) (st : connection_state) :
  parse con stmt = Some (Select1 t) ->
  lookup_con con w = Some st ->
  current st = committed st ->
  exists r w',
    try_except
      (rows ← cursor_execute con stmt [k]; mret (fetchone rows))
      (fun _ => log ERROR "%s: %s when checking entry: %s";;
                rollback con;; mret (PyBool false)) E w = (r, w')
    /\ same_committed w w' /\ sets w' = sets w.
Proof.
  intros Hp Hl Hcur.
  destruct (select_same_committed E con stmt t [k] w st Hp Hl Hcur)
    as (r & w1 & Hrun & Hsame & Hsets & _).
  unfold try_except, try_except_when. rewrite bind_run, Hrun.
  destruct r as [rows|e]; cbv beta iota.
  - rewrite ret_run. eexists _, _. split; [reflexivity|]. auto.
  - rewrite bind_run. unfold log at 1, modify. cbv beta iota.
    match goal with
    | |- context [rollback con ≫= _] => rewrite bind_run
    end.
    match goal with
    | |- context [rollback con E ?w2] =>
        destruct (rollback_same_committed E con w2) as (r2 & w3 & Hrb & Hs3 & Hsets3)
    end.
    rewrite Hrb. destruct r2; eexists _, _; (split; [reflexivity|]);
      (split; [|now rewrite Hsets3]);
      (eapply same_committed_trans; [exact Hsame|]);
      (eapply same_committed_trans; [apply same_committed_set_logged|exact Hs3]).
Qed.

(** X4. Whatever the environment does (any call may fail with any
    exception), [check] on any of the four ledgers changes no committed row
    of any table of any store and leaves the pending set as it was. *)
Theorem check_never_writes
    (a : archive) (loc : string) (table : option string)
    (entries : list string) (kwdict : nat) (E : env) (w : world) :
  constructed a loc table ->
  table_holds (archive_connection a) table entries w ->
  same_committed w (snd (archive_check a kwdict E w))
  /\ stored (archive_connection a) table (snd (archive_check a kwdict E w))
     = Some entries
  /\ pending a (snd (archive_check a kwdict E w)) = pending a w.
Proof.
  intros Hc Hholds. pose proof (constructed_parse_select a loc table Hc) as Hp.
  destruct Hholds as (st & Hl & Ht & Hcur & Hcm).
  assert (Hstored : stored (archive_connection a) table w = Some entries)
    by (unfold stored; now rewrite Hl).
  enough (same_committed w (snd (archive_check a kwdict E w))
          /\ sets (snd (archive_check a kwdict E w)) = sets w) as [Hsame Hsets].
  { split; [exact Hsame|]. split; [now rewrite Hsame|].
    destruct a; cbn [pending]; now rewrite ?Hsets. }
  destruct a as [s|s|s|s]; cbn [archive_check archive_connection archive_stmt_select]
    in *.
  - unfold DownloadArchive.check, dict_read, dict_setitem. unfold_monad. cbn.
    match goal with
    | |- context [cursor_execute ?c ?q ?p E ?w0] =>
        destruct (select_same_committed E c q _ p w0 st Hp) as (r & w1 & Hrun & Hsame & Hsets & _);
          [now rewrite lookup_con_set_dicts | exact Hcur |]
    end.
    rewrite Hrun. destruct r; cbn; split; auto;
      (eapply same_committed_trans; [apply same_committed_set_dicts|exact Hsame]).
  - unfold DownloadArchiveMemory.check, dict_read, dict_setitem, set_read.
    unfold_monad. cbn.
    case_bool_decide; [cbn; split; [apply same_committed_set_dicts|reflexivity]|].
    match goal with
    | |- context [cursor_execute ?c ?q ?p E ?w0] =>
        destruct (select_same_committed E c q _ p w0 st Hp) as (r & w1 & Hrun & Hsame & Hsets & _);
          [now rewrite lookup_con_set_dicts | exact Hcur |]
    end.
    rewrite Hrun. destruct r; cbn; split; auto;
      (eapply same_committed_trans; [apply same_committed_set_dicts|exact Hsame]).
  - assert (Heq : DownloadArchivePostgresql.check s kwdict E w
                  = try_except
                      (rows ← cursor_execute (DownloadArchivePostgresql.connection s)
                                (DownloadArchivePostgresql._stmt_select s)
                                [DownloadArchivePostgresql.keygen s
                                   (default ∅ (dicts w !! kwdict))];
                       mret (fetchone rows))
                      (fun _ => log ERROR "%s: %s when checking entry: %s";;
                                rollback (DownloadArchivePostgresql.connection s);;
                                mret (PyBool false)) E
                      (set_dicts
                         (<[kwdict := <[DownloadArchivePostgresql._cache_key s
                                        := DownloadArchivePostgresql.keygen s
                                             (default ∅ (dicts w !! kwdict))]>
                                        (default ∅ (dicts w !! kwdict))]> (dicts w)) w))
      by reflexivity.
    rewrite Heq. clear Heq.
    match goal with
    | |- context [try_except _ _ E ?w0] =>
        destruct (guarded_select_same_committed E _ _ _
                    (DownloadArchivePostgresql.keygen s (default ∅ (dicts w !! kwdict)))
                    w0 st Hp)
          as (r & w1 & Hrun & Hsame & Hsets);
          [now rewrite lookup_con_set_dicts | exact Hcur |]
    end.
    rewrite Hrun. cbn. split; [|exact Hsets].
    eapply same_committed_trans; [apply same_committed_set_dicts|exact Hsame].
  - set (b := DownloadArchivePostgresqlMemory.base s) in *.
    set (key := DownloadArchivePostgresql.keygen b (default ∅ (dicts w !! kwdict))).
    set (w0 := set_dicts
                 (<[kwdict := <[DownloadArchivePostgresql._cache_key b := key]>
                                (default ∅ (dicts w !! kwdict))]> (dicts w)) w).
    assert (Heq : DownloadArchivePostgresqlMemory.check s kwdict E w
                  = if bool_decide
                         (key ∈ default ∅ (sets w !! DownloadArchivePostgresqlMemory.keys s))
                    then (Ok (PyBool true), w0)
                    else try_except
                           (rows ← cursor_execute (DownloadArchivePostgresql.connection b)
                                     (DownloadArchivePostgresql._stmt_select b) [key];
                            mret (fetchone rows))
                           (fun _ => log ERROR "%s: %s when checking entry: %s";;
                                     rollback (DownloadArchivePostgresql.connection b);;
                                     mret (PyBool false)) E w0).
    { unfold DownloadArchivePostgresqlMemory.check, dict_read, dict_setitem, set_read.
      fold b. unfold mbind, M_bind, bind, get, modify, mret, M_ret, ret. cbn.
      fold key. now case_bool_decide. }
    rewrite Heq. clear Heq.
    case_bool_decide; [cbn; split; [apply same_committed_set_dicts|reflexivity]|].
    match goal with
    | |- context [try_except _ _ E _] =>
        destruct (guarded_select_same_committed E _ _ _ key w0 st Hp)
          as (r & w1 & Hrun & Hsame & Hsets);
          [unfold w0; now rewrite lookup_con_set_dicts | exact Hcur |]
    end.
    rewrite Hrun. cbn. split; [|exact Hsets].
    eapply same_committed_trans; [apply same_committed_set_dicts|exact Hsame].
Qed.

Lemma check_never_writes_witness :
  constructed (Postgresql example_pg) "postgres://db/gallery" None
  /\ table_holds (PgCon "postgres://db/gallery") None ["key-1"] pg_item_world
  /\ same_committed pg_item_world
       (snd (archive_check (Postgresql example_pg) 0 execute_fails pg_item_world))
  /\ stored (PgCon "postgres://db/gallery") None
       (snd (archive_check (Postgresql example_pg) 0 execute_fails pg_item_world))
     = Some ["key-1"]
  /\ pending (Postgresql example_pg)
       (snd (archive_check (Postgresql example_pg) 0 execute_fails pg_item_world))
     = pending (Postgresql example_pg) pg_item_world.
Proof.
  assert (H1 : constructed (Postgresql example_pg) "postgres://db/gallery" None)
    by (repeat split).
  assert (H2 : table_holds (PgCon "postgres://db/gallery") None ["key-1"]
                 pg_item_world)
    by (exists (table_of "archive" ["key-1"]); repeat split).
  repeat (split; [assumption|]).
  exact (check_never_writes (Postgresql example_pg) "postgres://db/gallery" None
           ["key-1"] 0%nat execute_fails pg_item_world H1 H2).
Defined.

(** * A ledger behaves as a set of keys *)

(** A sequence of [add]s in an environment that serves every call. *)
Lemma add_all_quiet (E : env) (a : archive) (loc : string) (table : option string) :
  quiet E ->
  constructed a loc table ->
  forall (kws : list nat) (entries : list string) (w : world),
    table_holds (archive_connection a) table entries w ->
    exists w' entries',
      for_each kws (archive_add a) E w = (Ok tt, w')
      /\ dicts w' = dicts w
      /\ table_holds (archive_connection a) table entries' w'
      /\ forall k,
          k ∈ entries' \/ k ∈ pending a w'
          <-> k ∈ entries \/ k ∈ pending a w
              \/ exists kw, kw ∈ kws
                   /\ k = spec_key (archive_cache_key a) (archive_keygen a)
                            (default ∅ (dicts w !! kw)).
Proof.
  intros Hq Hc. induction kws as [|kw kws IH]; intros entries w Hholds.
  - exists w, entries. cbn. repeat split; auto.
    + intros [?|?]; auto.
    + intros [?|[?|(kw & Hkw & _)]]; auto. now apply elem_of_nil in Hkw.
  - destruct (add_quiet E Hq a loc table entries kw w Hc Hholds)
      as (w1 & Hrun1 & Hd1 & Hh1 & Hp1).
    destruct (IH _ w1 Hh1) as (w2 & entries2 & Hrun2 & Hd2 & Hh2 & Hmem2).
    exists w2, entries2. cbn [for_each]. unfold bind at 1. rewrite Hrun1, Hrun2.
    split; [reflexivity|]. split; [congruence|]. split; [exact Hh2|].
    intros k. rewrite Hmem2, Hp1, Hd1. clear Hmem2.
    setoid_rewrite elem_of_cons.
    destruct (is_buffered a).
    + rewrite elem_of_union, elem_of_singleton. split.
      * intros [?|[[->|?]|(kw' & Hkw' & ->)]]; eauto 6.
      * intros [?|[?|(kw' & [->|Hkw'] & ->)]]; eauto 6.
    + rewrite elem_of_insert_entry. split.
      * intros [[?| ->]|[?|(kw' & Hkw' & ->)]]; eauto 6.
      * intros [?|[?|(kw' & [->|Hkw'] & ->)]]; eauto 6.
Qed.

(** X5. In an environment that serves every call, on any of the four
    ledgers, adding a sequence of items and then finalizing succeeds; a key
    is then a row of the table exactly when it was one before, was pending
    before, or is the key of one of the added items. *)
Theorem add_all_then_finalize_stores_exactly_the_keys
    (a : archive) (loc : string) (table : option string)
    (entries : list string) (kws : list nat) (E : env) (w : world) :
  quiet E ->
  constructed a loc table ->
  table_holds (archive_connection a) table entries w ->
  exists w' entries',
    (for_each kws (archive_add a);; archive_finalize a) E w = (Ok tt, w')
    /\ stored (archive_connection a) table w' = Some entries'
    /\ forall k,
        k ∈ entries'
        <-> k ∈ entries \/ k ∈ pending a w
            \/ exists kw, kw ∈ kws
                 /\ k = spec_key (archive_cache_key a) (archive_keygen a)
                          (default ∅ (dicts w !! kw)).
Proof.
  intros Hq Hc Hholds.
  destruct (add_all_quiet E a loc table Hq Hc kws entries w Hholds)
    as (w1 & entries1 & Hrun1 & Hd1 & Hh1 & Hmem1).
  destruct (finalize_quiet E Hq a loc table entries1 w1 Hc Hh1)
    as (w2 & Hrun2 & (st & Hl & _ & _ & Hcm) & _ & _).
  exists w2, (insert_entries (elements (pending a w1)) entries1).
  split; [rewrite bind_run, Hrun1; exact Hrun2|].
  split; [unfold stored; now rewrite Hl|].
  intros k. rewrite elem_of_insert_entries, elem_of_elements. apply Hmem1.
Qed.

Lemma add_all_then_finalize_stores_exactly_the_keys_witness :
  quiet example_env
  /\ constructed (SqliteMemory example_memory) "archive.sqlite3" None
  /\ table_holds (SqliteCon "archive.sqlite3") None [] fresh_item_world
  /\ exists w' entries',
      (for_each [0%nat; 0%nat] (archive_add (SqliteMemory example_memory));;
       archive_finalize (SqliteMemory example_memory)) example_env fresh_item_world
      = (Ok tt, w')
      /\ stored (SqliteCon "archive.sqlite3") None w' = Some entries'
      /\ forall k,
          k ∈ entries'
          <-> k ∈ ([] : list string)
              \/ k ∈ pending (SqliteMemory example_memory) fresh_item_world
              \/ exists kw, kw ∈ [0%nat; 0%nat]
                   /\ k = spec_key "_archive_key" (formatter_parse example_env "key-")
                            (default ∅ (dicts fresh_item_world !! kw)).
Proof.
  assert (H1 : quiet example_env) by (intros h; reflexivity).
  assert (H2 : constructed (SqliteMemory example_memory) "archive.sqlite3" None)
    by (repeat split).
  assert (H3 : table_holds (SqliteCon "archive.sqlite3") None [] fresh_item_world)
    by (exists (table_of "archive" []); repeat split).
  repeat (split; [assumption|]).
  exact (add_all_then_finalize_stores_exactly_the_keys (SqliteMemory example_memory)
           "archive.sqlite3" None [] [0%nat; 0%nat] example_env fresh_item_world
           H1 H2 H3).
Defined.

(** X6. In an environment that serves every call, on any of the four
    ledgers, after a sequence of items was added, [check] on an item answers
    with a true value exactly when the key the KeyFormatter derives from it
    was stored or pending before or is the key under which one of the added
    items was recorded; the answer is the same whether or not [finalize] ran
    in between. *)
Theorem check_after_adding_answers_by_key
    (a : archive) (loc : string) (table : option string)
    (entries : list string) (kws : list nat) (kwdict : nat)
    (E : env) (w : world) :
  quiet E ->
  constructed a loc table ->
  table_holds (archive_connection a) table entries w ->
  let seen :=
    archive_keygen a (default ∅ (dicts w !! kwdict)) ∈ entries
    \/ archive_keygen a (default ∅ (dicts w !! kwdict)) ∈ pending a w
    \/ exists kw, kw ∈ kws
         /\ archive_keygen a (default ∅ (dicts w !! kwdict))
            = spec_key (archive_cache_key a) (archive_keygen a)
                (default ∅ (dicts w !! kw)) in
  exists v1 w1 v2 w2,
    (for_each kws (archive_add a);; archive_check a kwdict) E w = (Ok v1, w1)
    /\ (for_each kws (archive_add a);; archive_finalize a;;
        archive_check a kwdict) E w = (Ok v2, w2)
    /\ (truthy v1 = true <-> seen)
    /\ (truthy v2 = true <-> seen).
Proof.
  intros Hq Hc Hholds seen.
  destruct (add_all_quiet E a loc table Hq Hc kws entries w Hholds)
    as (wa & entries1 & Hrun1 & Hd1 & Hh1 & Hmem1).
  destruct (check_quiet a loc table entries1 kwdict E wa Hq Hc Hh1)
    as (v1 & w1 & Hchk1 & Htr1 & _).
  destruct (finalize_quiet E Hq a loc table entries1 wa Hc Hh1)
    as (wf & Hrun2 & Hh2 & Hs2 & Hd2).
  destruct (check_quiet a loc table _ kwdict E wf Hq Hc Hh2)
    as (v2 & w2 & Hchk2 & Htr2 & _).
  exists v1, w1, v2, w2.
  split; [rewrite bind_run, Hrun1; exact Hchk1|].
  split; [rewrite bind_run, Hrun1; cbv beta iota; rewrite bind_run, Hrun2;
          exact Hchk2|].
  assert (Hpf : pending a wf = pending a wa)
    by (destruct a; cbn; now rewrite ?Hs2).
  rewrite Hd2, Hpf, elem_of_insert_entries, elem_of_elements in Htr2.
  rewrite Hd1 in Htr1, Htr2. unfold seen.
  rewrite <- Hmem1. split; [rewrite Htr1; tauto | rewrite Htr2; tauto].
Qed.

Lemma check_after_adding_answers_by_key_witness :
  quiet example_env
  /\ constructed (SqliteMemory example_memory) "archive.sqlite3" None
  /\ table_holds (SqliteCon "archive.sqlite3") None [] fresh_item_world
  /\ exists v1 w1 v2 w2,
      (for_each [0%nat] (archive_add (SqliteMemory example_memory));;
       archive_check (SqliteMemory example_memory) 0) example_env fresh_item_world
      = (Ok v1, w1)
      /\ (for_each [0%nat] (archive_add (SqliteMemory example_memory));;
          archive_finalize (SqliteMemory example_memory);;
          archive_check (SqliteMemory example_memory) 0) example_env fresh_item_world
         = (Ok v2, w2)
      /\ truthy v1 = true
      /\ truthy v2 = true.
Proof.
  assert (H1 : quiet example_env) by (intros h; reflexivity).
  assert (H2 : constructed (SqliteMemory example_memory) "archive.sqlite3" None)
    by (repeat split).
  assert (H3 : table_holds (SqliteCon "archive.sqlite3") None [] fresh_item_world)
    by (exists (table_of "archive" []); repeat split).
  repeat (split; [assumption|]).
  destruct (check_after_adding_answers_by_key (SqliteMemory example_memory)
              "archive.sqlite3" None [] [0%nat] 0%nat example_env fresh_item_world
              H1 H2 H3)
    as (v1 & w1 & v2 & w2 & Hr1 & Hr2 & Ht1 & Ht2).
  exists v1, w1, v2, w2. split; [exact Hr1|]. split; [exact Hr2|].
  assert (Hseen : archive_keygen (SqliteMemory example_memory)
                    (default ∅ (dicts fresh_item_world !! 0%nat))
                  ∈ ([] : list string)
                  \/ archive_keygen (SqliteMemory example_memory)
                       (default ∅ (dicts fresh_item_world !! 0%nat))
                     ∈ pending (SqliteMemory example_memory) fresh_item_world
                  \/ exists kw, kw ∈ [0%nat]
                       /\ archive_keygen (SqliteMemory example_memory)
                            (default ∅ (dicts fresh_item_world !! 0%nat))
                          = spec_key (archive_cache_key (SqliteMemory example_memory))
                              (archive_keygen (SqliteMemory example_memory))
                              (default ∅ (dicts fresh_item_world !! kw))).
  { right. right. exists 0%nat. split; [apply list_elem_of_singleton; reflexivity|].
    vm_compute. reflexivity. }
  split; [apply Ht1, Hseen | apply Ht2, Hseen].
Defined.

(** * [finalize] of the buffered embedded ledger, in any environment *)

Section FinalizeSteps.

Context (E : env).

Lemma cursor_executemany_frame (con : handle) (sql : string) (rows : list string)
    (w : world) :
  exists r w',
    cursor_executemany con sql rows E w = (r, w')
    /\ history w' = (history w ++ [executemany_call con sql rows])%list
    /\ sets w' = sets w.
Proof.
  unfold cursor_executemany, request. unfold_monad. cbn.
  destruct (oracle E _); cbn; [eexists _, _; split; [reflexivity|]; auto|].
  destruct (lookup_con con _); cbn; [|eexists _, _; split; [reflexivity|]; auto].
  destruct (parse con sql); cbn; [|eexists _, _; split; [reflexivity|]; auto].
  destruct (run_many _ _ _); cbn; eexists _, _; (split; [reflexivity|]);
    rewrite ?history_store_con, ?sets_store_con; auto.
Qed.

Lemma commit_frame (con : handle) (w : world) :
  exists r w',
    commit con E w = (r, w')
    /\ history w' = (history w ++ [commit_call con])%list
    /\ sets w' = sets w.
Proof.
  unfold commit, request. unfold_monad. cbn.
  destruct (oracle E _); cbn; [eexists _, _; split; [reflexivity|]; auto|].
  destruct (lookup_con con _); cbn; eexists _, _; (split; [reflexivity|]);
    rewrite ?history_store_con, ?sets_store_con; auto.
Qed.

(** The loop of line 161, when it runs to its end. *)
Lemma for_each_execute_history (con : handle) (stmt : string) :
  forall (ks : list string) (w w' : world),
    for_each ks (fun key => cursor_execute con stmt [key];; mret tt) E w
    = (Ok tt, w') ->
    history w'
    = (history w ++ map (fun key => execute_call con stmt [key]) ks)%list.
Proof.
  induction ks as [|k ks IH]; intros w w' H.
  - cbn in H. inversion H; subst. now rewrite app_nil_r.
  - cbn [for_each] in H. unfold bind at 1 in H. rewrite bind_run in H.
    destruct (cursor_execute_frame con stmt [k] E w) as (r & w1 & Hrun & Hh & _).
    rewrite Hrun in H. destruct r as [rows|e]; [|discriminate].
    rewrite ret_run in H. apply IH in H. rewrite H, Hh. cbn.
    now rewrite <- app_assoc.
Qed.

(** [with self.connection:] around a body, spelled out. *)
Lemma finalize_unfold (s : DownloadArchiveMemory.t) (w : world) :
  DownloadArchiveMemory.finalize s E w
  = let ks := default ∅ (sets w !! DownloadArchiveMemory.keys s) in
    let con := DownloadArchive.connection (DownloadArchiveMemory.base s) in
    let stmt := DownloadArchive._stmt_insert (DownloadArchiveMemory.base s) in
    if bool_decide (ks = ∅) then (Ok tt, w)
    else
      match try_except_when is_sqlite3_OperationalError
              (cursor_execute con "BEGIN" [];; mret tt) (fun _ => mret tt) E w with
      | (Ok _, w1) =>
          match (if (size ks <? 100)%nat
                 then for_each (elements ks)
                        (fun key => cursor_execute con stmt [key];; mret tt)
                 else cursor_executemany con stmt (elements ks)) E w1 with
          | (Ok _, w2) =>
              match commit con E w2 with
              | (Ok _, w3) => (Ok tt, w3)
              | (Raise e, w3) => (Raise e, w3)
              end
          | (Raise e, w2) =>
              match rollback con E w2 with
              | (Ok _, w3) => (Raise e, w3)
              | (Raise e', w3) => (Raise e', w3)
              end
          end
      | (Raise e, w1) =>
          match rollback con E w1 with
          | (Ok _, w3) => (Raise e, w3)
          | (Raise e', w3) => (Raise e', w3)
          end
      end.
Proof.
  unfold DownloadArchiveMemory.finalize, set_read, with_connection.
  unfold mbind, M_bind, bind, get, mret, M_ret, ret, raise. cbn.
  case_bool_decide; [reflexivity|].
  destruct (try_except_when _ _ _ E w) as [[[]|e] w1]; [|reflexivity].
  match goal with
  | |- context [(if ?b then ?x else ?y) E w1] =>
      destruct ((if b then x else y) E w1) as [[[]|e] w2]
  end; [|reflexivity].
  destruct (commit _ E w2) as [[[]|e] w3]; reflexivity.
Qed.

(** The attempt to open a transaction records its call and nothing else. *)
Lemma begin_frame (con : handle) (w : world) :
  exists r w1,
    try_except_when is_sqlite3_OperationalError
      (cursor_execute con "BEGIN" [];; mret tt) (fun _ => mret tt) E w = (r, w1)
    /\ history w1 = (history w ++ [execute_call con "BEGIN" []])%list
    /\ sets w1 = sets w.
Proof.
  unfold try_except_when. rewrite bind_run.
  destruct (cursor_execute_frame con "BEGIN" [] E w)
    as (r & w1 & Hrun & Hh & _ & Hs & _).
  rewrite Hrun. destruct r as [rows|e].
  - rewrite ret_run. eauto.
  - destruct (is_sqlite3_OperationalError e); [rewrite ret_run|]; eauto.
Qed.

(** The loop of line 161 on a table that exists: every served insert adds
    its key if absent; inside a transaction, no committed row changes. *)
Lemma for_each_insert_any (p stmt t : string) :
  sqlite_parse stmt = Some (InsertIfAbsent t) ->
  forall (ks : list string) (w : world) (st : connection_state)
         (entries : list string),
    files w !! p = Some st ->
    current st !! t = Some entries ->
    exists r w' st',
      for_each ks (fun key => cursor_execute (SqliteCon p) stmt [key];; mret tt) E w
      = (r, w')
      /\ files w' !! p = Some st'
      /\ in_transaction st' = in_transaction st
      /\ sets w' = sets w
      /\ (in_transaction st = true ->
          same_committed w w' /\ committed st' = committed st)
      /\ (r = Ok tt -> current st' = <[t := insert_entries ks entries]> (current st))
      /\ ((forall h k,
              oracle E (h ++ [execute_call (SqliteCon p) stmt [k]])%list = None) ->
          r = Ok tt).
Proof.
  intros Hp. induction ks as [|k ks IH]; intros w st entries Hl Hc.
  - exists (Ok tt), w, st. cbn. rewrite insert_id by exact Hc.
    repeat split; auto using same_committed_refl.
  - cbn [for_each]. unfold bind at 1. rewrite bind_run.
    destruct (oracle E (history w ++ [execute_call (SqliteCon p) stmt [k]])%list)
      as [e|] eqn:Ho.
    + rewrite (cursor_execute_refused E _ _ _ _ _ Ho).
      eexists (Raise e), _, st. split; [reflexivity|].
      split; [exact Hl|]. split; [reflexivity|]. split; [reflexivity|].
      split; [intros _; split; [apply same_committed_set_history|reflexivity]|].
      split; [discriminate|]. intros Hs. rewrite Hs in Ho. discriminate.
    + rewrite (cursor_execute_served E (SqliteCon p) stmt [k] w st
                 (InsertIfAbsent t) _ [] Ho Hl Hp ltac:(discriminate)
                 (run_insert _ _ _ _ Hc)).
      rewrite ret_run.
      match goal with
      | |- context [for_each ks _ E ?w1] =>
          destruct (IH w1
                      (after_statement (SqliteCon p) st
                         (<[t := insert_entry k entries]> (current st)))
                      (insert_entry k entries))
            as (r & w' & st' & Hrun & Hl' & Ht' & Hs' & Htx' & Hok' & Hsv')
      end.
      * cbn. apply lookup_insert_eq.
      * cbn. apply lookup_insert_eq.
      * exists r, w', st'. split; [exact Hrun|]. split; [exact Hl'|].
        split; [rewrite Ht'; reflexivity|]. split; [rewrite Hs'; reflexivity|].
        split; [|split; [|exact Hsv']].
        -- intros Htx. destruct (Htx' Htx) as [Hsame Hcm].
           split.
           ++ eapply same_committed_trans; [|exact Hsame].
              apply same_committed_store with st;
                [apply same_committed_set_history | exact Hl | cbn; now rewrite Htx].
           ++ rewrite Hcm. cbn. now rewrite Htx.
        -- intros Hr. rewrite (Hok' Hr). cbn. now rewrite insert_insert_eq.
Qed.

(** The bulk insert of line 164 on a table that exists. *)
Lemma executemany_insert_any (p stmt t : string) (ks : list string) (w : world)
    (st : connection_state) (entries : list string) :
  sqlite_parse stmt = Some (InsertIfAbsent t) ->
  files w !! p = Some st ->
  current st !! t = Some entries ->
  exists r w' st',
    cursor_executemany (SqliteCon p) stmt ks E w = (r, w')
    /\ files w' !! p = Some st'
    /\ in_transaction st' = in_transaction st
    /\ sets w' = sets w
    /\ (in_transaction st = true ->
        same_committed w w' /\ committed st' = committed st)
    /\ (r = Ok tt -> current st' = <[t := insert_entries ks entries]> (current st))
    /\ ((forall h, oracle E (h ++ [executemany_call (SqliteCon p) stmt ks])%list = None)
        -> r = Ok tt).
Proof.
  intros Hp Hl Hc.
  destruct (oracle E (history w ++ [executemany_call (SqliteCon p) stmt ks])%list)
    as [e|] eqn:Ho.
  - exists (Raise e), (set_history (history w ++ [executemany_call (SqliteCon p) stmt ks])%list w), st.
    split.
    { unfold cursor_executemany. unfold_monad.
      now rewrite (request_refused E _ _ _ Ho). }
    split; [exact Hl|]. split; [reflexivity|]. split; [reflexivity|].
    split; [intros _; split; [apply same_committed_set_history|reflexivity]|].
    split; [discriminate|]. intros Hs. rewrite Hs in Ho. discriminate.
  - rewrite (cursor_executemany_served E (SqliteCon p) stmt ks w st
               (InsertIfAbsent t) _ Ho Hl Hp (run_many_insert _ _ _ _ Hc)).
    eexists (Ok tt), _, _. split; [reflexivity|].
    split; [cbn; apply lookup_insert_eq|]. split; [reflexivity|].
    split; [reflexivity|].
    split; [|split; [reflexivity|reflexivity]].
    intros Htx. split; [|cbn; now rewrite Htx].
    apply same_committed_store with st;
      [apply same_committed_set_history | exact Hl | cbn; now rewrite Htx].
Qed.

End FinalizeSteps.

(** X7. Whenever [finalize] of the buffered SQLite ledger returns normally,
    in any environment, the engine has received exactly these calls: none
    when no key is pending; otherwise [BEGIN], then one [execute] per pending
    key when fewer than 100 keys are pending and a single [executemany] with
    all of them when 100 or more are, then [commit]. *)
Theorem finalize_batches_from_one_hundred_keys
    (s : DownloadArchiveMemory.t) (E : env) (w w' : world) :
  DownloadArchiveMemory.finalize s E w = (Ok tt, w') ->
  let ks := pending (SqliteMemory s) w in
  let con := DownloadArchive.connection (DownloadArchiveMemory.base s) in
  let stmt := DownloadArchive._stmt_insert (DownloadArchiveMemory.base s) in
  history w'
  = (history w
     ++ if bool_decide (ks = ∅) then []
        else [execute_call con "BEGIN" []]
             ++ (if (size ks <? 100)%nat
                 then map (fun key => execute_call con stmt [key]) (elements ks)
                 else [executemany_call con stmt (elements ks)])
             ++ [commit_call con])%list.
Proof.
  intros H ks con stmt. rewrite finalize_unfold in H. cbv zeta in H.
  cbn [pending] in ks. fold ks con stmt in H.
  case_bool_decide as Hks.
  { inversion H; subst. now rewrite app_nil_r. }
  destruct (begin_frame E con w) as (r1 & w1 & Hrun1 & Hh1 & _).
  rewrite Hrun1 in H. destruct r1 as [[]|e1].
  - destruct ((if (size ks <? 100)%nat
               then for_each (elements ks)
                      (fun key => cursor_execute con stmt [key];; mret tt)
               else cursor_executemany con stmt (elements ks)) E w1)
      as [[[]|e2] w2] eqn:Hrun2.
    + destruct (commit_frame E con w2) as (r3 & w3 & Hrun3 & Hh3 & _).
      rewrite Hrun3 in H. destruct r3 as [[]|e3]; [|discriminate].
      inversion H; subst w3. rewrite Hh3.
      assert (Hh2 : history w2
                    = (history w1
                       ++ if (size ks <? 100)%nat
                          then map (fun key => execute_call con stmt [key]) (elements ks)
                          else [executemany_call con stmt (elements ks)])%list).
      { destruct (size ks <? 100)%nat.
        - now apply for_each_execute_history in Hrun2.
        - destruct (cursor_executemany_frame E con stmt (elements ks) w1)
            as (r & w2' & Hrun2' & Hh2' & _).
          rewrite Hrun2 in Hrun2'. now inversion Hrun2'; subst. }
      rewrite Hh2, Hh1. now rewrite <- !app_assoc.
    + destruct (rollback con E w2) as [[[]|e3] w3]; discriminate.
  - destruct (rollback con E w1) as [[[]|e3] w3]; discriminate.
Qed.

Lemma finalize_batches_from_one_hundred_keys_witness :
  DownloadArchiveMemory.finalize example_memory example_env pending_world
  = (Ok tt, snd (DownloadArchiveMemory.finalize example_memory example_env
                   pending_world))
  /\ history (snd (DownloadArchiveMemory.finalize example_memory example_env
                     pending_world))
     = [execute_call (SqliteCon "archive.sqlite3") "BEGIN" [];
        execute_call (SqliteCon "archive.sqlite3")
          "INSERT OR IGNORE INTO archive (entry) VALUES (?)" ["a"];
        commit_call (SqliteCon "archive.sqlite3")].
Proof.
  assert (H : DownloadArchiveMemory.finalize example_memory example_env pending_world
              = (Ok tt, snd (DownloadArchiveMemory.finalize example_memory example_env
                               pending_world)))
    by (vm_compute; reflexivity).
  split; [exact H|].
  rewrite (finalize_batches_from_one_hundred_keys example_memory example_env
             pending_world _ H).
  vm_compute. reflexivity.
Defined.

(** * Atomicity of the buffered flush *)

Lemma begin_served (E : env) (p : string) (w : world) (st : connection_state) :
  oracle E (history w ++ [execute_call (SqliteCon p) "BEGIN" []])%list = None ->
  files w !! p = Some st ->
  in_transaction st = false ->
  try_except_when is_sqlite3_OperationalError
    (cursor_execute (SqliteCon p) "BEGIN" [];; mret tt) (fun _ => mret tt) E w
  = (Ok tt,
     store_con (SqliteCon p)
       {| committed := committed st; current := current st;
          in_transaction := true |}
       (set_history (history w ++ [execute_call (SqliteCon p) "BEGIN" []])%list w)).
Proof.
  intros Ho Hl Ht. unfold try_except_when. rewrite bind_run.
  unfold cursor_execute. rewrite bind_run, (request_served E _ _ Ho).
  cbv beta iota. rewrite bind_run. unfold get at 1. cbv beta iota.
  cbn. now rewrite Hl, Ht.
Qed.

Lemma begin_refused (E : env) (con : handle) (w : world) (e : exn) :
  oracle E (history w ++ [execute_call con "BEGIN" []])%list = Some e ->
  try_except_when is_sqlite3_OperationalError
    (cursor_execute con "BEGIN" [];; mret tt) (fun _ => mret tt) E w
  = (if is_sqlite3_OperationalError e then Ok tt else Raise e,
     set_history (history w ++ [execute_call con "BEGIN" []])%list w).
Proof.
  intros Ho. unfold try_except_when.
  rewrite bind_run, (cursor_execute_refused E _ _ _ _ _ Ho).
  now destruct (is_sqlite3_OperationalError e).
Qed.

Lemma commit_cases (E : env) (con : handle) (w : world) (st : connection_state) :
  lookup_con con w = Some st ->
  commit con E w
  = match oracle E (history w ++ [commit_call con])%list with
    | Some e => (Raise e, set_history (history w ++ [commit_call con])%list w)
    | None =>
        (Ok tt,
         store_con con {| committed := current st; current := current st;
                          in_transaction := false |}
           (set_history (history w ++ [commit_call con])%list w))
    end.
Proof.
  intros Hl. destruct (oracle E _) eqn:Ho.
  - unfold commit. rewrite bind_run. now rewrite (request_refused E _ _ _ Ho).
  - now apply commit_served.
Qed.

Lemma stored_lookup (con : handle) (table : option string) (w : world)
    (st : connection_state) :
  lookup_con con w = Some st ->
  stored con table w = committed st !! table_name table.
Proof. intros H. unfold stored. now rewrite H. Qed.

(** After the body of [with self.connection:] raised. *)
Lemma rollback_after_raise (E : env) (con : handle) (w0 w : world) (e : exn) :
  same_committed w0 w ->
  exists e' w',
    match rollback con E w with
    | (Ok _, w3) => (Raise e, w3)
    | (Raise e', w3) => (Raise e', w3)
    end = (Raise e' : result unit, w')
    /\ same_committed w0 w' /\ sets w' = sets w.
Proof.
  intros Hsame.
  destruct (rollback_same_committed E con w) as (r & w' & Hrun & Hs & Hsets).
  rewrite Hrun. destruct r as [[]|e'];
    eexists _, _; (split; [reflexivity|]); split; auto;
    eapply same_committed_trans; eauto.
Qed.

(** X8. The flush of the buffered SQLite ledger is all or nothing, whatever
    fails, provided the [BEGIN] of line 155 does not fail with
    [sqlite3.OperationalError]: when [finalize] returns, every pending key
    is a committed row of the table; when it raises, no committed row of any
    table has changed.  In both cases the pending set is as it was. *)
Theorem finalize_is_all_or_nothing
    (s : DownloadArchiveMemory.t) (loc : string) (table : option string)
    (entries : list string) (E : env) (w : world) :
  constructed (SqliteMemory s) loc table ->
  table_holds (SqliteCon loc) table entries w ->
  (forall e,
      oracle E (history w ++ [execute_call (SqliteCon loc) "BEGIN" []])%list = Some e ->
      is_sqlite3_OperationalError e = false) ->
  exists r w',
    DownloadArchiveMemory.finalize s E w = (r, w')
    /\ pending (SqliteMemory s) w' = pending (SqliteMemory s) w
    /\ match r with
       | Ok _ =>
           stored (SqliteCon loc) table w'
           = Some (insert_entries (elements (pending (SqliteMemory s) w)) entries)
       | Raise _ => same_committed w w'
       end.
Proof.
  intros Hc (st & Hl & Ht & Hcur & Hcm) Hbegin.
  pose proof (constructed_parse_insert _ _ _ Hc) as Hp.
  destruct Hc as (Hcon & _ & _). cbn in Hcon, Hp, Hl. rewrite Hcon in Hp.
  cbn in Hp. rewrite finalize_unfold. cbv zeta. rewrite Hcon.
  cbn [pending].
  set (ks := default ∅ (sets w !! DownloadArchiveMemory.keys s)).
  set (stmt := DownloadArchive._stmt_insert (DownloadArchiveMemory.base s)) in *.
  case_bool_decide as Hks.
  { exists (Ok tt), w. split; [reflexivity|]. split; [reflexivity|].
    rewrite Hks, elements_empty. cbn. now rewrite (stored_lookup (SqliteCon loc) table w st Hl). }
  destruct (oracle E (history w ++ [execute_call (SqliteCon loc) "BEGIN" []])%list)
    as [e|] eqn:Ho.
  { rewrite (begin_refused E _ _ _ Ho), (Hbegin e eq_refl).
    match goal with
    | |- context [rollback _ E (set_history ?h w)] =>
        destruct (rollback_after_raise E (SqliteCon loc) w (set_history h w) e
                    (same_committed_set_history h w))
          as (e' & w' & Hrun & Hsame & Hsets)
    end.
    rewrite Hrun. exists (Raise e'), w'. split; [reflexivity|].
    split; [now rewrite Hsets | exact Hsame]. }
  rewrite (begin_served E loc w st Ho Hl Ht).
  set (st1 := {| committed := committed st; current := current st;
                 in_transaction := true |}).
  set (w1 := store_con (SqliteCon loc) st1 _).
  assert (Hl1 : files w1 !! loc = Some st1) by (cbn; apply lookup_insert_eq).
  assert (Hc1 : current st1 !! table_name table = Some entries)
    by (cbn; rewrite Hcur; exact Hcm).
  assert (Hsame1 : same_committed w w1).
  { apply same_committed_store with st;
      [apply same_committed_set_history | exact Hl | reflexivity]. }
  assert (exists r2 w2 st2,
             (if (size ks <? 100)%nat
              then for_each (elements ks)
                     (fun key => cursor_execute (SqliteCon loc) stmt [key];; mret tt)
              else cursor_executemany (SqliteCon loc) stmt (elements ks)) E w1
             = (r2, w2)
             /\ files w2 !! loc = Some st2
             /\ sets w2 = sets w1
             /\ same_committed w1 w2
             /\ committed st2 = committed st1
             /\ (r2 = Ok tt ->
                 current st2
                 = <[table_name table := insert_entries (elements ks) entries]>
                     (current st1)))
    as (r2 & w2 & st2 & Hrun2 & Hl2 & Hs2 & Hsame2 & Hcm2 & Hok2).
  { destruct (size ks <? 100)%nat.
    - destruct (for_each_insert_any E loc stmt _ Hp (elements ks) w1 st1 entries
                  Hl1 Hc1)
        as (r2 & w2 & st2 & Hrun2 & Hl2 & _ & Hs2 & Htx2 & Hok2 & _).
      destruct (Htx2 eq_refl) as [Hsame2 Hcm2].
      exists r2, w2, st2. auto 10.
    - destruct (executemany_insert_any E loc stmt _ (elements ks) w1 st1 entries
                  Hp Hl1 Hc1)
        as (r2 & w2 & st2 & Hrun2 & Hl2 & _ & Hs2 & Htx2 & Hok2 & _).
      destruct (Htx2 eq_refl) as [Hsame2 Hcm2].
      exists r2, w2, st2. auto 10. }
  rewrite Hrun2.
  assert (Hsets2 : sets w2 = sets w) by (now rewrite Hs2).
  destruct r2 as [[]|e2].
  - rewrite (commit_cases E (SqliteCon loc) w2 st2 Hl2).
    destruct (oracle E (history w2 ++ [commit_call (SqliteCon loc)])%list) as [e3|].
    + eexists (Raise e3), _. split; [reflexivity|].
      split; [cbn; now rewrite Hsets2|].
      eapply same_committed_trans; [exact Hsame1|].
      eapply same_committed_trans; [exact Hsame2|].
      apply same_committed_set_history.
    + eexists (Ok tt), _. split; [reflexivity|].
      split; [cbn; now rewrite Hsets2|].
      erewrite stored_lookup by apply lookup_store_con. cbn.
      rewrite (Hok2 eq_refl). apply lookup_insert_eq.
  - destruct (rollback_after_raise E (SqliteCon loc) w w2 e2) as
      (e' & w' & Hrun & Hsame & Hsets).
    { eapply same_committed_trans; eauto. }
    rewrite Hrun. exists (Raise e'), w'. split; [reflexivity|].
    split; [now rewrite Hsets, Hsets2 | exact Hsame].
Qed.

Lemma finalize_is_all_or_nothing_witness :
  constructed (SqliteMemory example_memory) "archive.sqlite3" None
  /\ table_holds (SqliteCon "archive.sqlite3") None [] pending_world
  /\ exists r w',
      DownloadArchiveMemory.finalize example_memory
        (failing_env Replay_commit (sqlite3_OperationalError "disk I/O error"))
        pending_world = (r, w')
      /\ pending (SqliteMemory example_memory) w'
         = pending (SqliteMemory example_memory) pending_world
      /\ match r with
         | Ok _ =>
             stored (SqliteCon "archive.sqlite3") None w'
             = Some (insert_entries
                       (elements (pending (SqliteMemory example_memory) pending_world))
                       [])
         | Raise _ => same_committed pending_world w'
         end.
Proof.
  assert (H1 : constructed (SqliteMemory example_memory) "archive.sqlite3" None)
    by (repeat split).
  assert (H2 : table_holds (SqliteCon "archive.sqlite3") None [] pending_world)
    by (exists (table_of "archive" []); repeat split).
  repeat (split; [assumption|]).
  apply (finalize_is_all_or_nothing example_memory "archive.sqlite3" None []
           (failing_env Replay_commit (sqlite3_OperationalError "disk I/O error"))
           pending_world H1 H2).
  intros e He. vm_compute in He. discriminate.
Defined.

(** X9. When the [BEGIN] of line 155 fails with [sqlite3.OperationalError]
    and every other call is served, [finalize] of the buffered SQLite ledger
    goes on outside a transaction: it returns normally and every pending key
    is a committed row of the table. *)
Theorem finalize_goes_on_when_begin_fails
    (s : DownloadArchiveMemory.t) (loc : string) (table : option string)
    (entries : list string) (E : env) (w : world) (msg : string) :
  constructed (SqliteMemory s) loc table ->
  table_holds (SqliteCon loc) table entries w ->
  fails_only E is_begin (sqlite3_OperationalError msg) ->
  exists w',
    DownloadArchiveMemory.finalize s E w = (Ok tt, w')
    /\ stored (SqliteCon loc) table w'
       = Some (insert_entries (elements (pending (SqliteMemory s) w)) entries)
    /\ pending (SqliteMemory s) w' = pending (SqliteMemory s) w.
Proof.
  intros Hc (st & Hl & Ht & Hcur & Hcm) Hpol.
  pose proof (constructed_parse_insert _ _ _ Hc) as Hp.
  destruct Hc as (Hcon & _ & _). cbn in Hcon, Hp, Hl. rewrite Hcon in Hp.
  cbn in Hp. rewrite finalize_unfold. cbv zeta. rewrite Hcon.
  cbn [pending].
  set (ks := default ∅ (sets w !! DownloadArchiveMemory.keys s)).
  set (stmt := DownloadArchive._stmt_insert (DownloadArchiveMemory.base s)) in *.
  case_bool_decide as Hks.
  { exists w. split; [reflexivity|]. split; [|reflexivity].
    rewrite Hks, elements_empty. cbn. now rewrite (stored_lookup (SqliteCon loc) table w st Hl). }
  rewrite (begin_refused E (SqliteCon loc) w (sqlite3_OperationalError msg))
    by (rewrite Hpol; reflexivity).
  cbn [is_sqlite3_OperationalError].
  set (w1 := set_history _ w).
  assert (Hl1 : files w1 !! loc = Some st) by exact Hl.
  assert (Hc1 : current st !! table_name table = Some entries)
    by (rewrite Hcur; exact Hcm).
  assert (exists w2 st2,
             (if (size ks <? 100)%nat
              then for_each (elements ks)
                     (fun key => cursor_execute (SqliteCon loc) stmt [key];; mret tt)
              else cursor_executemany (SqliteCon loc) stmt (elements ks)) E w1
             = (Ok tt, w2)
             /\ files w2 !! loc = Some st2
             /\ sets w2 = sets w1
             /\ current st2
                = <[table_name table := insert_entries (elements ks) entries]>
                    (current st))
    as (w2 & st2 & Hrun2 & Hl2 & Hs2 & Hcur2).
  { destruct (size ks <? 100)%nat.
    - destruct (for_each_insert_any E loc stmt _ Hp (elements ks) w1 st entries
                  Hl1 Hc1)
        as (r2 & w2 & st2 & Hrun2 & Hl2 & _ & Hs2 & _ & Hok2 & Hsv2).
      assert (Hr : r2 = Ok tt) by (apply Hsv2; intros h k; now rewrite Hpol).
      subst r2. exists w2, st2. auto.
    - destruct (executemany_insert_any E loc stmt _ (elements ks) w1 st entries
                  Hp Hl1 Hc1)
        as (r2 & w2 & st2 & Hrun2 & Hl2 & _ & Hs2 & _ & Hok2 & Hsv2).
      assert (Hr : r2 = Ok tt) by (apply Hsv2; intros h; now rewrite Hpol).
      subst r2. exists w2, st2. auto. }
  rewrite Hrun2, (commit_cases E (SqliteCon loc) w2 st2 Hl2), Hpol.
  cbn [is_begin]. eexists. split; [reflexivity|].
  split; [|cbn; now rewrite Hs2].
  erewrite stored_lookup by apply lookup_store_con. cbn.
  rewrite Hcur2. apply lookup_insert_eq.
Qed.

Lemma begin_fails_fails_only :
  fails_only begin_fails is_begin
    (sqlite3_OperationalError "cannot start a transaction within a transaction").
Proof. intros h c. cbn. rewrite last_snoc. reflexivity. Qed.

Lemma finalize_goes_on_when_begin_fails_witness :
  constructed (SqliteMemory example_memory) "archive.sqlite3" None
  /\ table_holds (SqliteCon "archive.sqlite3") None [] pending_world
  /\ fails_only begin_fails is_begin
       (sqlite3_OperationalError "cannot start a transaction within a transaction")
  /\ exists w',
      DownloadArchiveMemory.finalize example_memory begin_fails pending_world
      = (Ok tt, w')
      /\ stored (SqliteCon "archive.sqlite3") None w'
         = Some (insert_entries
                   (elements (pending (SqliteMemory example_memory) pending_world)) [])
      /\ pending (SqliteMemory example_memory) w'
         = pending (SqliteMemory example_memory) pending_world.
Proof.
  assert (H1 : constructed (SqliteMemory example_memory) "archive.sqlite3" None)
    by (repeat split).
  assert (H2 : table_holds (SqliteCon "archive.sqlite3") None [] pending_world)
    by (exists (table_of "archive" []); repeat split).
  pose proof begin_fails_fails_only as H3.
  repeat (split; [assumption|]).
  exact (finalize_goes_on_when_begin_fails example_memory "archive.sqlite3" None []
           begin_fails pending_world _ H1 H2 H3).
Defined.

(** * The flush of the buffered networked ledger *)

Lemma log_rollback_served (E : env) (con : handle) (msg : string) (w : world)
    (st : connection_state) :
  (forall h, oracle E (h ++ [rollback_call con])%list = None) ->
  lookup_con con w = Some st ->
  (log ERROR msg;; rollback con) E w
  = (Ok tt,
     store_con con {| committed := committed st; current := committed st;
                      in_transaction := false |}
       (set_history (history w ++ [rollback_call con])%list
          (set_logged (logged w ++ [(ERROR, msg)])%list w))).
Proof.
  intros Hr Hl. rewrite bind_run. unfold log at 1, modify. cbv beta iota.
  erewrite rollback_served; [reflexivity | apply Hr |].
  now rewrite lookup_con_set_logged.
Qed.

Lemma pg_finalize_unfold (E : env) (s : DownloadArchivePostgresqlMemory.t)
    (w : world) :
  DownloadArchivePostgresqlMemory.finalize s E w
  = let ks := default ∅ (sets w !! DownloadArchivePostgresqlMemory.keys s) in
    let con := DownloadArchivePostgresql.connection
                 (DownloadArchivePostgresqlMemory.base s) in
    let stmt := DownloadArchivePostgresql._stmt_insert
                  (DownloadArchivePostgresqlMemory.base s) in
    if bool_decide (ks = ∅) then (Ok tt, w)
    else
      match cursor_executemany con stmt (elements ks) E w with
      | (Ok _, w1) =>
          match commit con E w1 with
          | (Ok _, w2) => (Ok tt, w2)
          | (Raise e, w2) =>
              (log ERROR "%s: %s when writing entries: %s";; rollback con) E w2
          end
      | (Raise e, w1) =>
          (log ERROR "%s: %s when writing entries: %s";; rollback con) E w1
      end.
Proof.
  unfold DownloadArchivePostgresqlMemory.finalize, set_read, try_except,
    try_except_when.
  unfold mbind, M_bind, bind, get, mret, M_ret, ret. cbn.
  case_bool_decide; [reflexivity|].
  destruct (cursor_executemany _ _ _ E w) as [[[]|e] w1]; [|reflexivity].
  destruct (commit _ E w1) as [[[]|e] w2]; reflexivity.
Qed.

(** X10. The flush of the buffered networked ledger never raises, whatever
    fails, provided the [rollback] call itself is served.  Either every
    pending key is then a committed row and nothing is logged, or no
    committed row of any table has changed and one error is logged; the
    caller gets the same normal return in both cases.  The session is left
    outside a transaction and the pending set is as it was. *)
Theorem networked_flush_never_raises
    (s : DownloadArchivePostgresqlMemory.t) (uri : string) (table : option string)
    (entries : list string) (E : env) (w : world) :
  constructed (PostgresqlMemory s) uri table ->
  table_holds (PgCon uri) table entries w ->
  (forall h, oracle E (h ++ [rollback_call (PgCon uri)])%list = None) ->
  exists w',
    DownloadArchivePostgresqlMemory.finalize s E w = (Ok tt, w')
    /\ pending (PostgresqlMemory s) w' = pending (PostgresqlMemory s) w
    /\ settled (PgCon uri) w'
    /\ ((stored (PgCon uri) table w'
         = Some (insert_entries (elements (pending (PostgresqlMemory s) w)) entries)
         /\ logged w' = logged w)
        \/ (same_committed w w'
            /\ logged w'
               = (logged w ++ [(ERROR, "%s: %s when writing entries: %s")])%list)).
Proof.
  intros Hc (st & Hl & Ht & Hcur & Hcm) Hr.
  pose proof (constructed_parse_insert _ _ _ Hc) as Hp.
  destruct Hc as (Hcon & _ & _). cbn in Hcon, Hp. rewrite Hcon in Hp.
  rewrite pg_finalize_unfold. cbv zeta. rewrite Hcon. cbn [pending].
  set (ks := default ∅ (sets w !! DownloadArchivePostgresqlMemory.keys s)).
  set (stmt := DownloadArchivePostgresql._stmt_insert
                 (DownloadArchivePostgresqlMemory.base s)) in *.
  case_bool_decide as Hks.
  { exists w. split; [reflexivity|]. split; [reflexivity|].
    split; [exists st; auto|]. left. split; [|reflexivity].
    rewrite Hks, elements_empty. cbn.
    now rewrite (stored_lookup (PgCon uri) table w st Hl). }
  destruct (oracle E (history w ++ [executemany_call (PgCon uri) stmt (elements ks)])%list)
    as [e|] eqn:Ho.
  - assert (Hrun : cursor_executemany (PgCon uri) stmt (elements ks) E w
                   = (Raise e,
                      set_history
                        (history w ++ [executemany_call (PgCon uri) stmt (elements ks)])%list
                        w)).
    { unfold cursor_executemany. rewrite bind_run.
      now rewrite (request_refused E _ _ _ Ho). }
    rewrite Hrun.
    rewrite (log_rollback_served E (PgCon uri) _ _ st Hr)
      by (rewrite lookup_con_set_history; exact Hl).
    eexists. split; [reflexivity|]. split; [reflexivity|].
    split; [eexists; rewrite lookup_store_con; split; [reflexivity|]; split;
            reflexivity|].
    right. split; [|reflexivity].
    apply same_committed_store with st;
      [intros [?|?] ?; reflexivity
      |rewrite lookup_con_set_history, lookup_con_set_logged, lookup_con_set_history;
       exact Hl
      |reflexivity].
  - rewrite (cursor_executemany_served E (PgCon uri) stmt (elements ks) w st
               (InsertIfAbsent (table_name table))
               (<[table_name table := insert_entries (elements ks) entries]>
                  (current st)) Ho Hl Hp)
      by (apply run_many_insert; rewrite Hcur; exact Hcm).
    set (st1 := after_statement (PgCon uri) st _).
    set (w1 := store_con (PgCon uri) st1 _).
    assert (Hl1 : lookup_con (PgCon uri) w1 = Some st1) by apply lookup_store_con.
    assert (Hsame1 : same_committed w w1).
    { apply same_committed_store with st;
        [apply same_committed_set_history
        | rewrite lookup_con_set_history; exact Hl | reflexivity]. }
    rewrite (commit_cases E (PgCon uri) w1 st1 Hl1).
    destruct (oracle E (history w1 ++ [commit_call (PgCon uri)])%list) as [e|].
    + rewrite (log_rollback_served E (PgCon uri) _ _ st1 Hr)
        by (rewrite lookup_con_set_history; exact Hl1).
      eexists. split; [reflexivity|]. split; [reflexivity|].
      split; [eexists; rewrite lookup_store_con; split; [reflexivity|]; split;
              reflexivity|].
      right. split; [|reflexivity].
      eapply same_committed_trans; [exact Hsame1|].
      apply same_committed_store with st1;
        [intros [?|?] ?; reflexivity
        |rewrite lookup_con_set_history, lookup_con_set_logged,
            lookup_con_set_history; exact Hl1
        |reflexivity].
    + eexists. split; [reflexivity|]. split; [reflexivity|].
      split; [eexists; rewrite lookup_store_con; split; [reflexivity|]; split;
              reflexivity|].
      left. split; [|reflexivity].
      erewrite stored_lookup by apply lookup_store_con. cbn.
      apply lookup_insert_eq.
Qed.

Lemma networked_flush_never_raises_witness :
  constructed (PostgresqlMemory example_pg_memory) "postgres://db/gallery" None
  /\ table_holds (PgCon "postgres://db/gallery") None ["key-1"] pg_pending_world
  /\ exists w',
      DownloadArchivePostgresqlMemory.finalize example_pg_memory
        (failing_env Replay_executemany (psycopg_Error "server closed the connection"))
        pg_pending_world = (Ok tt, w')
      /\ pending (PostgresqlMemory example_pg_memory) w'
         = pending (PostgresqlMemory example_pg_memory) pg_pending_world
      /\ settled (PgCon "postgres://db/gallery") w'.
Proof.
  assert (H1 : constructed (PostgresqlMemory example_pg_memory)
                 "postgres://db/gallery" None) by (repeat split).
  assert (H2 : table_holds (PgCon "postgres://db/gallery") None ["key-1"]
                 pg_pending_world)
    by (exists (table_of "archive" ["key-1"]); repeat split).
  assert (H3 : forall h,
             oracle (failing_env Replay_executemany
                       (psycopg_Error "server closed the connection"))
               (h ++ [rollback_call (PgCon "postgres://db/gallery")])%list = None)
    by (intros h; cbn; rewrite last_snoc; reflexivity).
  repeat (split; [assumption|]).
  destruct (networked_flush_never_raises example_pg_memory "postgres://db/gallery"
              None ["key-1"]
              (failing_env Replay_executemany
                 (psycopg_Error "server closed the connection"))
              pg_pending_world H1 H2 H3)
    as (w' & Hrun & Hp & Hs & _).
  exists w'. auto.
Defined.

(** * What [connect] returns *)

Lemma construct_frame_dicts (c : cls) (loc : string)
    (keygen : gmap string string -> string) (table : option string)
    (pragma : option (list string)) (cache_key : option string)
    (E : env) (w w' : world) (a : archive) :
  construct c loc keygen table pragma cache_key E w = (Ok a, w') ->
  is_embedded a = match c with
                  | Cls_DownloadArchive | Cls_DownloadArchiveMemory => true
                  | _ => false
                  end
  /\ is_buffered a = match c with
                     | Cls_DownloadArchiveMemory
                     | Cls_DownloadArchivePostgresqlMemory => true
                     | _ => false
                     end.
Proof.
  destruct c; cbn [construct]; unfold fmap, M_fmap, bind, ret;
    match goal with
    | |- context [match ?m E w with _ => _ end] => destruct (m E w) as [[s|e] w1]
    end; intros H; inversion H; split; reflexivity.
Qed.

(** X11. For a location without a PostgreSQL scheme, a ledger that
    [connect] returns is an embedded one, buffered exactly when [mode] is
    ["memory"], opened at the expanded path (formatted with the item when
    one is given and the path holds a brace), on the given table (formatted
    with the item when both are given and the name is not empty); it has
    the key function built from [prefix + format], the cache field given or
    ["_archive_key"], its table in place and nothing pending. *)
Theorem connect_local_returns_embedded_ledger
    (path prefix format : string) (table mode : option string)
    (pragma : option (list string)) (kwdict : option nat)
    (cache_key : option string) (E : env) (w w' : world) (a : archive) :
  startswith path "postgres://" || startswith path "postgresql://" = false ->
  connect path prefix format table mode pragma kwdict cache_key E w = (Ok a, w') ->
  is_embedded a = true
  /\ is_buffered a = bool_decide (mode = Some "memory")
  /\ constructed a (connect_path E w path kwdict) (connect_table E w table kwdict)
  /\ archive_keygen a = formatter_parse E (prefix ++ format)
  /\ archive_cache_key a = py_or cache_key "_archive_key"
  /\ (exists entries,
         table_holds (SqliteCon (connect_path E w path kwdict))
           (connect_table E w table kwdict) entries w')
  /\ pending a w' = ∅.
Proof.
  intros Hs. unfold connect. rewrite bind_run. unfold ask at 1.
  cbv beta iota zeta. rewrite Hs.
  assert (Hrun : forall c,
             (path0 ← match kwdict with
                      | Some kw =>
                          if contains "{"%char (util_expand_path E path)
                          then d ← dict_read kw;
                               mret (formatter_parse E (util_expand_path E path) d)
                          else mret (util_expand_path E path)
                      | None => mret (util_expand_path E path)
                      end;
              mret (inr (path0, c) : archive + string * cls)) E w
             = (Ok (inr (connect_path E w path kwdict, c)), w)).
  { intros c. unfold connect_path, dict_read. unfold_monad.
    destruct kwdict as [kw|]; [|reflexivity].
    now destruct (contains _ _). }
  rewrite bind_run, Hrun. cbv beta iota.
  assert (Htab : (match kwdict, table with
                  | Some kw, Some t =>
                      if truthy_str t then
                        d ← dict_read kw; mret (Some (formatter_parse E t d))
                      else mret table
                  | _, _ => mret table
                  end) E w = (Ok (connect_table E w table kwdict), w)).
  { unfold connect_table, dict_read. unfold_monad.
    destruct kwdict as [kw|], table as [t|]; try reflexivity.
    now destruct (truthy_str t). }
  rewrite bind_run, Htab. cbv beta iota. intros Hc.
  destruct (construct_returns E _ _ _ _ _ _ _ _ _ Hc)
    as (Hcons & Hk & Hck & Hth & Hpend).
  destruct (construct_frame_dicts _ _ _ _ _ _ _ _ _ _ Hc) as (Hemb & Hbuf).
  assert (Hcon : archive_connection a
                 = SqliteCon (connect_path E w path kwdict)).
  { unfold constructed in Hcons.
    rewrite Hemb in Hcons.
    case_bool_decide; apply Hcons. }
  rewrite Hcon in Hth.
  split; [rewrite Hemb; now case_bool_decide|].
  split; [rewrite Hbuf; now case_bool_decide|].
  auto.
Qed.

Lemma connect_local_returns_embedded_ledger_witness :
  startswith "archive.sqlite3" "postgres://"
  || startswith "archive.sqlite3" "postgresql://" = false
  /\ connect "archive.sqlite3" "" "key-" None (Some "memory") None None None
       example_env world0
     = (Ok (SqliteMemory example_memory),
        snd (connect "archive.sqlite3" "" "key-" None (Some "memory") None None None
               example_env world0))
  /\ is_buffered (SqliteMemory example_memory) = true
  /\ exists entries,
      table_holds (SqliteCon "archive.sqlite3") None entries
        (snd (connect "archive.sqlite3" "" "key-" None (Some "memory") None None
                None example_env world0)).
Proof.
  assert (H1 : startswith "archive.sqlite3" "postgres://"
               || startswith "archive.sqlite3" "postgresql://" = false)
    by reflexivity.
  assert (H2 : connect "archive.sqlite3" "" "key-" None (Some "memory") None None
                 None example_env world0
               = (Ok (SqliteMemory example_memory),
                  snd (connect "archive.sqlite3" "" "key-" None (Some "memory") None
                         None None example_env world0)))
    by (vm_compute; reflexivity).
  repeat (split; [assumption|]).
  destruct (connect_local_returns_embedded_ledger "archive.sqlite3" "" "key-" None
              (Some "memory") None None None example_env world0 _ _ H1 H2)
    as (_ & Hb & _ & _ & _ & Hth & _).
  split; [reflexivity | exact Hth].
Defined.

(** The block of lines 33-44 around the reconciliation never raises. *)
Lemma guarded_by_logs_returns (body : M unit) (l1 l2 : level) (m1 m2 : string)
    (E : env) (w : world) :
  exists w',
    try_except body (fun _ => log l1 m1;; log l2 m2) E w = (Ok tt, w').
Proof.
  unfold try_except, try_except_when.
  destruct (body E w) as [[[]|e] w1]; eexists; reflexivity.
Qed.

(** X12. For a location with a PostgreSQL scheme, once the networked ledger
    is constructed [connect] returns that very ledger, whatever the
    environment does during the reconciliation with the fallback file:
    nothing raised there reaches the caller.  The ledger is on the table as
    it was given, not formatted with the item; and when no fallback file
    exists nothing more happens to the world at all. *)
Theorem connect_returns_networked_ledger_whatever_sync_does
    (path prefix format : string) (table mode : option string)
    (pragma : option (list string)) (kwdict : option nat)
    (cache_key : option string) (E : env) (w w1 : world) (pg : archive) :
  startswith path "postgres://" || startswith path "postgresql://" = true ->
  construct (if bool_decide (mode = Some "memory")
             then Cls_DownloadArchivePostgresqlMemory
             else Cls_DownloadArchivePostgresql)
    path (formatter_parse E (prefix ++ format)) table pragma cache_key E w
  = (Ok pg, w1) ->
  exists w',
    connect path prefix format table mode pragma kwdict cache_key E w = (Ok pg, w')
    /\ constructed pg path table
    /\ (exists_ (util_expand_path E "archive-fallback.sqlite3") E w1 = (Ok false, w1)
        -> w' = w1).
Proof.
  intros Hs Hpg. unfold connect. rewrite bind_run. unfold ask at 1.
  cbv beta iota zeta. rewrite Hs.
  rewrite bind_run. unfold try_except at 1, try_except_when at 1.
  rewrite bind_run, Hpg. cbv beta iota. rewrite bind_run.
  match goal with
  | |- context [try_except ?body (fun _ => log ?l1 ?m1;; log ?l2 ?m2) E w1] =>
      destruct (guarded_by_logs_returns body l1 l2 m1 m2 E w1) as (w2 & Hrun);
      rewrite Hrun
  end.
  cbv beta iota. rewrite !ret_run.
  exists w2. split; [reflexivity|].
  split; [apply (construct_returns E _ _ _ _ _ _ _ _ _ Hpg)|].
  intros Hex. revert Hrun. unfold try_except at 1, try_except_when at 1.
  rewrite bind_run, Hex. cbv beta iota. rewrite ret_run. congruence.
Qed.

Lemma connect_returns_networked_ledger_whatever_sync_does_witness :
  startswith "postgres://db/gallery" "postgres://"
  || startswith "postgres://db/gallery" "postgresql://" = true
  /\ exists w',
      connect "postgres://db/gallery" "" "key-" None None None None None
        (failing_env Replay_executemany (psycopg_Error "server closed the connection"))
        reconcile_world
      = (Ok (Postgresql example_pg), w')
      /\ constructed (Postgresql example_pg) "postgres://db/gallery" None.
Proof.
  assert (H1 : startswith "postgres://db/gallery" "postgres://"
               || startswith "postgres://db/gallery" "postgresql://" = true)
    by reflexivity.
  split; [exact H1|].
  destruct (connect_returns_networked_ledger_whatever_sync_does
              "postgres://db/gallery" "" "key-" None None None None None
              (failing_env Replay_executemany
                 (psycopg_Error "server closed the connection"))
              reconcile_world
              (snd (construct Cls_DownloadArchivePostgresql "postgres://db/gallery"
                      (formatter_parse
                         (failing_env Replay_executemany
                            (psycopg_Error "server closed the connection"))
                         ("" ++ "key-"))
                      None None None
                      (failing_env Replay_executemany
                         (psycopg_Error "server closed the connection"))
                      reconcile_world))
              (Postgresql example_pg) H1 ltac:(vm_compute; reflexivity))
    as (w' & Hrun & Hc & _).
  exists w'. split; [exact Hrun | exact Hc].
Defined.

(** * The fallback file after a reconciliation *)

(** Without [delete_sqlite] the replay touches no SQLite file, whatever
    happens. *)
Lemma replay_keeps_files (self : DownloadArchivePostgresql.t) (uri path : string)
    (rows : list string) (E : env) (w : world) :
  DownloadArchivePostgresql.connection self = PgCon uri ->
  files (snd (replay self (SqliteCon path) path false rows E w)) = files w.
Proof.
  intros Hcon. unfold replay, try_finally, try_except, try_except_when,
    cursor_executemany, commit, rollback, close, request, log, modify.
  rewrite Hcon. unfold_monad. cbn.
  destruct rows as [|k rows]; cbn.
  - destruct (oracle E _); reflexivity.
  - repeat match goal with
           | |- context [match oracle E ?h with _ => _ end] =>
               destruct (oracle E h); cbn
           | |- context [match servers ?w0 !! uri with _ => _ end] =>
               destruct (servers w0 !! uri); cbn
           | |- context [match <[uri := ?x]> ?m !! uri with _ => _ end] =>
               rewrite (lookup_insert_eq m uri x); cbn
           | |- context [match pg_parse ?s with _ => _ end] =>
               destruct (pg_parse s); cbn
           | |- context [match run_statement ?s ?p ?d with _ => _ end] =>
               destruct (run_statement s p d) as [|[]]; cbn
           | |- context [match run_many ?s ?p ?d with _ => _ end] =>
               destruct (run_many s p d); cbn
           end; reflexivity.
Qed.

(** X13. In an environment that serves every call, [sync_from_sqlite]
    removes the fallback file exactly when it was asked to with
    [delete_sqlite] and the fallback table held at least one row: an empty
    fallback table leaves the file in place even with [delete_sqlite], and
    then the networked session is not touched at all.  A file that is left
    still holds its rows. *)
Theorem sync_removes_fallback_only_after_replaying_rows
    (self : DownloadArchivePostgresql.t) (uri sqlite_path : string)
    (table : option string) (delete_sqlite : bool)
    (entries rows : list string) (E : env) (w : world) :
  quiet E ->
  before_sync E self uri sqlite_path table entries rows w ->
  exists n w',
    DownloadArchivePostgresql.sync_from_sqlite self sqlite_path table
      delete_sqlite E w = (Ok n, w')
    /\ (files w' !! util_expand_path E sqlite_path = None
        <-> rows <> [] /\ delete_sqlite = true)
    /\ (rows = [] -> servers w' = servers w)
    /\ (forall fb,
           files w' !! util_expand_path E sqlite_path = Some fb ->
           committed fb !! table_name table = Some rows).
Proof.
  intros Hq Hbefore.
  destruct (before_sync_parse _ _ _ _ _ _ _ _ Hbefore) as (Hcon & Hp).
  destruct Hbefore as (_ & (st & Hl & Ht & Hcur & Hcm) & (fb & Hf & Hfr)).
  cbn in Hl.
  destruct (sync_reads_rows E self sqlite_path table delete_sqlite fb rows w)
    as (w2 & Hrun & Hs2 & Hlg2 & Hf2); [|exact Hf|exact Hfr|].
  { intros h c. destruct c; try exact I; apply Hq. }
  rewrite <- Hs2 in Hl. rewrite Hrun.
  set (path := util_expand_path E sqlite_path) in *.
  destruct rows as [|k rows'].
  - unfold replay, try_finally. rewrite bind_run. unfold log at 1, modify.
    cbv beta iota. rewrite ret_run.
    match goal with
    | |- context [try_except (close ?c) _ E ?w1] =>
        destruct (close_pass E c w1) as (w' & Hrun' & Hs & Hfs & _)
    end.
    rewrite Hrun'. exists 0, w'. split; [reflexivity|].
    cbn in Hfs, Hs. rewrite Hfs, Hf2.
    split; [split; [discriminate | intros [H _]; contradiction]|].
    split; [intros _; now rewrite Hs, Hs2|].
    intros fb' H. inversion H; subst. exact Hfr.
  - destruct delete_sqlite.
    + destruct (replay_run E (fun _ => false) (OtherException "")
                  (fun h c => Hq (h ++ [c])%list) self uri path table true entries
                  (k :: rows') st (new_session fb) w2 eq_refl Hcon Hp Hl Ht Hcur
                  Hcm Hf2 ltac:(discriminate))
        as (r & w' & Hrun' & -> & _ & Hdel).
      cbn in Hdel. specialize (Hdel eq_refl).
      eexists _, w'. split; [exact Hrun'|]. rewrite Hdel.
      split; [split; [intros _; split; [discriminate|reflexivity] | reflexivity]|].
      split; [discriminate|]. discriminate.
    + destruct (replay_run E (fun _ => false) (OtherException "")
                  (fun h c => Hq (h ++ [c])%list) self uri path table false entries
                  (k :: rows') st (new_session fb) w2 eq_refl Hcon Hp Hl Ht Hcur
                  Hcm Hf2 ltac:(discriminate))
        as (r & w' & Hrun' & -> & _ & _).
      pose proof (replay_keeps_files self uri path (k :: rows') E w2 Hcon) as Hk.
      rewrite Hrun' in Hk. cbn [snd] in Hk.
      eexists _, w'. split; [exact Hrun'|]. rewrite Hk, Hf2.
      split; [split; [discriminate | intros [_ H]; discriminate]|].
      split; [discriminate|].
      intros fb' H. inversion H; subst. exact Hfr.
Qed.

Lemma sync_removes_fallback_only_after_replaying_rows_witness :
  quiet example_env
  /\ before_sync example_env example_pg "postgres://db/gallery"
       "archive-fallback.sqlite3" None ["b"] ["a"; "b"; "c"] reconcile_world
  /\ exists n w',
      DownloadArchivePostgresql.sync_from_sqlite example_pg
        "archive-fallback.sqlite3" None true example_env reconcile_world
      = (Ok n, w')
      /\ files w' !! "archive-fallback.sqlite3" = None.
Proof.
  assert (H1 : quiet example_env) by (intros h; reflexivity).
  assert (H2 : before_sync example_env example_pg "postgres://db/gallery"
                 "archive-fallback.sqlite3" None ["b"] ["a"; "b"; "c"]
                 reconcile_world)
    by (apply example_before_sync; reflexivity).
  repeat (split; [assumption|]).
  destruct (sync_removes_fallback_only_after_replaying_rows example_pg
              "postgres://db/gallery" "archive-fallback.sqlite3" None true
              ["b"] ["a"; "b"; "c"] example_env reconcile_world H1 H2)
    as (n & w' & Hrun & Hgone & _).
  exists n, w'. split; [exact Hrun|].
  apply Hgone. split; [discriminate | reflexivity].
Defined.

Lemma ensure_sqlite3_frame (E : env) (w : world) :
  oracle E (history w ++ [import_call "sqlite3"])%list = None ->
  exists w0,
    ensure_sqlite3 E w = (Ok tt, w0)
    /\ files w0 = files w /\ servers w0 = servers w /\ dirs w0 = dirs w
    /\ logged w0 = logged w /\ dicts w0 = dicts w /\ sets w0 = sets w.
Proof.
  intros Ho. unfold ensure_sqlite3, import. unfold_monad.
  destruct (sqlite3_module w).
  - exists w. repeat split.
  - rewrite (request_served _ _ _ Ho). eexists. split; [reflexivity|].
    repeat split.
Qed.

(** [sqlite3.connect] on a path that is served: an existing file is opened,
    a missing one is created where its directory allows. *)
Lemma sqlite3_connect_opens (E : env) (path : string) (w : world) :
  oracle E (history w ++ [sqlite3_connect_call path])%list = None ->
  match files w !! path with
  | Some _ => True
  | None => (path ∉ dirs w) /\ (dirname path = "" \/ dirname path ∈ dirs w)
  end ->
  sqlite3_connect path E w
  = (Ok (SqliteCon path),
     set_files
       (<[path := match files w !! path with
                  | Some fb => new_session fb
                  | None => empty_database
                  end]> (files w))
       (set_history (history w ++ [sqlite3_connect_call path])%list w)).
Proof.
  intros Ho Hst. unfold sqlite3_connect. unfold_monad.
  rewrite (request_served _ _ _ Ho). cbn.
  destruct (files w !! path) as [fb|]; [reflexivity|].
  destruct Hst as (Hnd & Hdir).
  rewrite bool_decide_eq_false_2 by exact Hnd.
  destruct Hdir as [-> | Hd]; [reflexivity|].
  rewrite (bool_decide_eq_true_2 _ Hd), orb_true_r. reflexivity.
Qed.

(** A served statement that the engine rejects. *)
Lemma cursor_execute_rejected (E : env) (con : handle) (sql : string)
    (params : list string) (w : world) (st : connection_state) (s : statement)
    (err : sql_error) :
  oracle E (history w ++ [execute_call con sql params])%list = None ->
  lookup_con con w = Some st ->
  parse con sql = Some s ->
  s <> Begin ->
  run_statement s params (current st) = inl err ->
  cursor_execute con sql params E w
  = (Raise (engine_exn con err),
     set_history (history w ++ [execute_call con sql params])%list w).
Proof.
  intros Ho Hl Hp Hb Hr. unfold cursor_execute. unfold_monad.
  rewrite (request_served _ _ _ Ho). rewrite lookup_con_set_history, Hl, Hp.
  destruct s; try congruence; now rewrite Hr.
Qed.

(** X14. In an environment that serves every call, [sync_from_sqlite] on a
    fallback path whose file lacks the table, or does not exist yet, raises
    the engine's [OperationalError] for the missing table after closing the
    SQLite connection; the networked session is not touched, and a file that
    did not exist has been created, empty, by the attempt. *)
Theorem sync_without_fallback_table_raises
    (self : DownloadArchivePostgresql.t) (sqlite_path : string)
    (table : option string) (delete_sqlite : bool) (E : env) (w : world) :
  quiet E ->
  match files w !! util_expand_path E sqlite_path with
  | Some fb => committed fb !! table_name table = None
  | None =>
      (util_expand_path E sqlite_path ∉ dirs w)
      /\ (dirname (util_expand_path E sqlite_path) = ""
          \/ dirname (util_expand_path E sqlite_path) ∈ dirs w)
  end ->
  exists w',
    DownloadArchivePostgresql.sync_from_sqlite self sqlite_path table
      delete_sqlite E w
    = (Raise (sqlite3_OperationalError ("no such table: " ++ table_name table)), w')
    /\ servers w' = servers w
    /\ files w'
       = <[util_expand_path E sqlite_path
           := match files w !! util_expand_path E sqlite_path with
              | Some fb => new_session fb
              | None => empty_database
              end]> (files w)
    /\ last (history w')
       = Some (close_call (SqliteCon (util_expand_path E sqlite_path))).
Proof.
  intros Hq Hst. set (path := util_expand_path E sqlite_path) in *.
  destruct (ensure_sqlite3_frame E w (Hq _))
    as (w0 & Hrun0 & Hf0 & Hs0 & Hd0 & _).
  assert (Hrun1 := sqlite3_connect_opens E path w0 (Hq _)).
  rewrite Hf0, Hd0 in Hrun1.
  specialize (Hrun1 ltac:(destruct (files w !! path); [exact I | exact Hst])).
  set (fb1 := match files w !! path with
              | Some fb => new_session fb
              | None => empty_database
              end) in *.
  set (w1 := set_files (<[path := fb1]> (files w)) _) in Hrun1.
  set (sql := DownloadArchivePostgresql.stmt_select_entries
                (sanitize (match table with None => "archive" | Some t => t end))).
  assert (Hrun2 : cursor_execute (SqliteCon path) sql [] E w1
                  = (Raise (sqlite3_OperationalError
                              ("no such table: " ++ table_name table)),
                     set_history
                       (history w1 ++ [execute_call (SqliteCon path) sql []])%list w1)).
  { apply (cursor_execute_rejected E (SqliteCon path) sql [] w1 fb1
             (SelectEntries (table_name table)) (NoSuchTable (table_name table))).
    - apply Hq.
    - cbn. apply lookup_insert_eq.
    - unfold sql. cbn [parse]. rewrite sqlite_parse_select_entries.
      now rewrite table_name_sync.
    - discriminate.
    - cbn. unfold fb1. destruct (files w !! path) as [fb|]; cbn.
      + now rewrite Hst.
      + reflexivity. }
  unfold DownloadArchivePostgresql.sync_from_sqlite.
  rewrite bind_run, Hrun0. cbv beta iota.
  rewrite bind_run. unfold ask at 1. cbv beta iota zeta.
  fold path. rewrite bind_run, Hrun1. cbv beta iota.
  unfold try_finally. fold sql. rewrite bind_run, Hrun2.
  match goal with
  | |- context [try_except (close ?c) _ E ?w2] =>
      destruct (close_pass E c w2) as (w' & Hrun' & Hs & Hfs & _ & Hh)
  end.
  rewrite Hrun'. exists w'. split; [reflexivity|].
  split; [rewrite Hs; cbn; exact Hs0|].
  split; [rewrite Hfs; reflexivity|].
  rewrite Hh. apply last_snoc.
Qed.

Lemma sync_without_fallback_table_raises_witness :
  quiet example_env
  /\ exists w',
      DownloadArchivePostgresql.sync_from_sqlite example_pg
        "archive-fallback.sqlite3" None false example_env pg_item_world
      = (Raise (sqlite3_OperationalError "no such table: archive"), w')
      /\ files w' = {["archive-fallback.sqlite3" := empty_database]}.
Proof.
  assert (H1 : quiet example_env) by (intros h; reflexivity).
  split; [exact H1|].
  destruct (sync_without_fallback_table_raises example_pg "archive-fallback.sqlite3"
              None false example_env pg_item_world H1)
    as (w' & Hrun & _ & Hf & _).
  { cbn. split; [apply not_elem_of_empty | left; reflexivity]. }
  exists w'. split; [exact Hrun | exact Hf].
Defined.

(** * Opening the embedded store: what [__init__] does step by step *)

Lemma after_statement_settled (path : string) (st : connection_state) :
  in_transaction st = false ->
  current st = committed st ->
  after_statement (SqliteCon path) st (current st) = st.
Proof. destruct st as [cm cu tx]. cbn. intros -> ->. reflexivity. Qed.

Section InitSteps.

Context (E : env) (p : syscall -> bool) (e : exn).
Context (Hpol : fails_only E p e).

(** The pragmas of lines 102-104, all served, leave the store as it is. *)
Lemma pragma_served (path : string) (stmts : list string) :
  (forall stmt, p (execute_call (SqliteCon path) ("PRAGMA " ++ stmt) []) = false) ->
  forall (w : world) (st : connection_state),
    files w !! path = Some st ->
    in_transaction st = false ->
    current st = committed st ->
    exists w',
      for_each stmts
        (fun stmt => cursor_execute (SqliteCon path) ("PRAGMA " ++ stmt) [];; mret tt)
        E w = (Ok tt, w')
      /\ files w' = files w /\ dirs w' = dirs w /\ servers w' = servers w
      /\ sets w' = sets w.
Proof.
  intros Hp. induction stmts as [|stmt stmts IH]; intros w st Hl Ht Hc.
  - exists w. repeat split.
  - cbn [for_each]. unfold bind at 1. rewrite bind_run.
    rewrite (cursor_execute_served E (SqliteCon path) ("PRAGMA " ++ stmt) [] w st
               (Pragma stmt) (current st) []
               (oracle_served E p e Hpol _ _ (Hp stmt)) Hl
               (sqlite_parse_pragma stmt) ltac:(discriminate) eq_refl).
    rewrite ret_run, (after_statement_settled path st Ht Hc).
    match goal with
    | |- context [for_each stmts _ E ?w1] =>
        destruct (IH w1 st) as (w' & Hrun & Hf & Hd & Hs & Hsets)
    end; [cbn; apply lookup_insert_eq | exact Ht | exact Hc |].
    exists w'. split; [exact Hrun|]. rewrite Hf, Hd, Hs, Hsets. cbn.
    rewrite insert_id by exact Hl. repeat split.
Qed.

(** [CREATE TABLE IF NOT EXISTS], served, on a settled session. *)
Lemma create_served (path sql : string) (table : option string) (flag : bool)
    (w : world) (st : connection_state) :
  p (execute_call (SqliteCon path) sql []) = false ->
  sqlite_parse sql = Some (CreateTableIfNotExists (table_name table) flag) ->
  files w !! path = Some st ->
  in_transaction st = false ->
  current st = committed st ->
  cursor_execute (SqliteCon path) sql [] E w
  = (Ok [],
     store_con (SqliteCon path)
       {| committed := create_if_missing (table_name table) (committed st);
          current := create_if_missing (table_name table) (committed st);
          in_transaction := false |}
       (set_history (history w ++ [execute_call (SqliteCon path) sql []])%list w)).
Proof.
  intros Hs Hp Hl Ht Hc.
  erewrite (cursor_execute_served E (SqliteCon path) sql [] w st
              (CreateTableIfNotExists (table_name table) flag)
              (create_if_missing (table_name table) (committed st)) []
              (oracle_served E p e Hpol _ _ Hs) Hl Hp ltac:(discriminate)).
  - cbn. now rewrite Ht.
  - cbn. rewrite Hc. unfold create_if_missing.
    now destruct (committed st !! table_name table).
Qed.

End InitSteps.

Lemma create_if_missing_lookup (t : string) (d : database) :
  create_if_missing t d !! t = Some (default [] (d !! t)).
Proof.
  unfold create_if_missing. destruct (d !! t) eqn:H; cbn.
  - exact H.
  - apply lookup_insert_eq.
Qed.

Lemma quiet_fails_only (E : env) (e : exn) :
  quiet E -> fails_only E (fun _ => false) e.
Proof. intros Hq h c. apply Hq. Qed.

(** The part of [__init__] that follows the opening of the store, in an
    environment that serves every call. *)
Lemma init_after_open (E : env) (path : string)
    (keygen : gmap string string -> string) (table : option string)
    (pragma : option (list string)) (cache_key : option string)
    (w w0 w1 : world) (st : connection_state) :
  quiet E ->
  ensure_sqlite3 E w = (Ok tt, w0) ->
  try_except_when is_sqlite3_OperationalError
    (sqlite3_connect path)
    (fun _ => makedirs (dirname path);; sqlite3_connect path) E w0
  = (Ok (SqliteCon path), w1) ->
  files w1 !! path = Some st ->
  in_transaction st = false ->
  current st = committed st ->
  exists self w',
    DownloadArchive.__init__ path keygen table pragma cache_key E w = (Ok self, w')
    /\ constructed (Sqlite self) path table
    /\ table_holds (SqliteCon path) table
         (default [] (committed st !! table_name table)) w'
    /\ dirs w' = dirs w1
    /\ servers w' = servers w1
    /\ (forall p', p' <> path -> files w' !! p' = files w1 !! p').
Proof.
  intros Hq Hens Hopen Hl Ht Hc.
  pose proof (quiet_fails_only E (OtherException "") Hq) as Hpol.
  unfold DownloadArchive.__init__. rewrite bind_run, Hens. cbv beta iota.
  rewrite bind_run, Hopen. cbv beta iota zeta. fold (table_text table).
  assert (exists w2,
             (match pragma with
              | Some stmts =>
                  for_each stmts
                    (fun stmt =>
                       cursor_execute (SqliteCon path) ("PRAGMA " ++ stmt) [];;
                       mret tt)
              | None => mret tt
              end) E w1 = (Ok tt, w2)
             /\ files w2 = files w1 /\ dirs w2 = dirs w1 /\ servers w2 = servers w1)
    as (w2 & Hrun2 & Hf2 & Hd2 & Hs2).
  { destruct pragma as [stmts|].
    - destruct (pragma_served E _ _ Hpol path stmts (fun _ => eq_refl) w1 st Hl Ht Hc)
        as (w2 & Hrun & Hf & Hd & Hs & _).
      exists w2. auto.
    - exists w1. rewrite ret_run. auto. }
  rewrite bind_run, Hrun2. cbv beta iota. rewrite bind_run.
  unfold try_except_when at 1. rewrite bind_run.
  rewrite (create_served E _ _ Hpol path _ table true w2 st eq_refl
             (sqlite_parse_create_without_rowid table))
    by (rewrite ?Hf2; auto).
  rewrite !ret_run. eexists _, _. split; [reflexivity|].
  split; [repeat split|]. split; [|split; [|split]].
  - eexists. split; [apply lookup_store_con|]. cbn.
    split; [reflexivity|]. split; [reflexivity|]. apply create_if_missing_lookup.
  - cbn. exact Hd2.
  - cbn. exact Hs2.
  - intros p' Hne. cbn. rewrite lookup_insert_ne by congruence. now rewrite Hf2.
Qed.

(** X15. In an environment that serves every call, [DownloadArchive] on a
    file that exists, or that can be created in place, is constructed
    without any directory being made; its table then holds exactly the rows
    that were committed in the file (none when the file or the table is
    new), and no other file is touched. *)
Theorem init_keeps_the_rows_of_an_existing_file
    (path : string) (keygen : gmap string string -> string)
    (table : option string) (pragma : option (list string))
    (cache_key : option string) (E : env) (w : world) :
  quiet E ->
  match files w !! path with
  | Some _ => True
  | None => (path ∉ dirs w) /\ (dirname path = "" \/ dirname path ∈ dirs w)
  end ->
  exists self w',
    DownloadArchive.__init__ path keygen table pragma cache_key E w = (Ok self, w')
    /\ constructed (Sqlite self) path table
    /\ table_holds (SqliteCon path) table
         (default [] (fb ← files w !! path; committed fb !! table_name table)) w'
    /\ dirs w' = dirs w
    /\ (forall p', p' <> path -> files w' !! p' = files w !! p').
Proof.
  intros Hq Hst.
  destruct (ensure_sqlite3_frame E w (Hq _))
    as (w0 & Hrun0 & Hf0 & Hs0 & Hd0 & _).
  assert (Hrun1 := sqlite3_connect_opens E path w0 (Hq _)).
  rewrite Hf0, Hd0 in Hrun1. specialize (Hrun1 Hst).
  set (st := match files w !! path with
             | Some fb => new_session fb
             | None => empty_database
             end) in *.
  set (w1 := set_files (<[path := st]> (files w)) _) in Hrun1.
  destruct (init_after_open E path keygen table pragma cache_key w w0 w1 st
              Hq Hrun0)
    as (self & w' & Hrun & Hcons & Hth & Hd & Hs & Hf).
  - unfold try_except_when. now rewrite Hrun1.
  - cbn. apply lookup_insert_eq.
  - unfold st. now destruct (files w !! path).
  - unfold st. now destruct (files w !! path).
  - exists self, w'. split; [exact Hrun|]. split; [exact Hcons|].
    split; [|split].
    + replace (default [] (fb ← files w !! path; committed fb !! table_name table))
        with (default [] (committed st !! table_name table)); [exact Hth|].
      unfold st. destruct (files w !! path); reflexivity.
    + rewrite Hd. cbn. exact Hd0.
    + intros p' Hne. rewrite (Hf p' Hne). cbn.
      rewrite lookup_insert_ne by congruence. reflexivity.
Qed.

Lemma init_keeps_the_rows_of_an_existing_file_witness :
  quiet example_env
  /\ exists self w',
      DownloadArchive.__init__ "archive-fallback.sqlite3"
        (formatter_parse example_env "key-") None (Some ["journal_mode=WAL"]) None
        example_env reconcile_world = (Ok self, w')
      /\ table_holds (SqliteCon "archive-fallback.sqlite3") None ["a"; "b"; "c"] w'.
Proof.
  assert (H1 : quiet example_env) by (intros h; reflexivity).
  split; [exact H1|].
  destruct (init_keeps_the_rows_of_an_existing_file "archive-fallback.sqlite3"
              (formatter_parse example_env "key-") None (Some ["journal_mode=WAL"])
              None example_env reconcile_world H1 I)
    as (self & w' & Hrun & _ & Hth & _).
  exists self, w'. split; [exact Hrun | exact Hth].
Defined.

(** * The directory of the embedded store *)

Lemma truthy_str_nonempty (s : string) : s <> "" -> truthy_str s = true.
Proof. destruct s; [contradiction | reflexivity]. Qed.

(** X16. In an environment that serves every call, [DownloadArchive] on a
    path whose directory does not exist yet makes the directory with its
    missing parents after the first open failed, opens the store again and
    is constructed on a new, empty table. *)
Theorem init_creates_the_missing_directory
    (path : string) (keygen : gmap string string -> string)
    (table : option string) (pragma : option (list string))
    (cache_key : option string) (E : env) (w : world) :
  quiet E ->
  files w !! path = None ->
  dirname path <> "" ->
  dirname path ∉ dirs w ->
  files w !! dirname path = None ->
  path ∉ ({[dirname path]} ∪ list_to_set (parents_from "" (dirname path)) ∪ dirs w
          : gset string) ->
  exists self w',
    DownloadArchive.__init__ path keygen table pragma cache_key E w = (Ok self, w')
    /\ constructed (Sqlite self) path table
    /\ table_holds (SqliteCon path) table [] w'
    /\ dirs w'
       = {[dirname path]} ∪ list_to_set (parents_from "" (dirname path)) ∪ dirs w.
Proof.
  intros Hq Hf Hne Hnd Hnf Hfree.
  destruct (ensure_sqlite3_frame E w (Hq _))
    as (w0 & Hrun0 & Hf0 & Hs0 & Hd0 & _).
  assert (Hpd : path ∉ dirs w)
    by (intros H; apply Hfree, elem_of_union_r; exact H).
  set (h1 := (history w0 ++ [sqlite3_connect_call path])%list).
  assert (Hrun1 : sqlite3_connect path E w0
                  = (Raise (sqlite3_OperationalError "unable to open database file"),
                     set_history h1 w0)).
  { unfold sqlite3_connect. unfold_monad.
    rewrite (request_served _ _ _ (Hq _)). cbn. rewrite Hf0, Hf, Hd0.
    rewrite (bool_decide_eq_false_2 _ Hpd), (bool_decide_eq_false_2 _ Hnd).
    now rewrite (truthy_str_nonempty _ Hne). }
  set (h2 := (h1 ++ [makedirs_call (dirname path)])%list).
  set (ds := ({[dirname path]} ∪ list_to_set (parents_from "" (dirname path)) ∪ dirs w
              : gset string)) in *.
  assert (Hrun2 : makedirs (dirname path) E (set_history h1 w0)
                  = (Ok tt, set_dirs ds (set_history h2 w0))).
  { unfold makedirs. unfold_monad.
    rewrite (request_served _ _ _ (Hq _)). cbn.
    rewrite (truthy_str_nonempty _ Hne). cbn. rewrite Hd0, Hf0.
    rewrite (bool_decide_eq_false_2 _ Hnd).
    rewrite bool_decide_eq_false_2 by (rewrite Hnf; now intros [? ?]).
    reflexivity. }
  assert (Hrun3 := sqlite3_connect_opens E path (set_dirs ds (set_history h2 w0))
                     (Hq _)).
  cbn [files set_dirs set_history dirs history] in Hrun3. rewrite Hf0, Hf in Hrun3.
  specialize (Hrun3 ltac:(split; [exact Hfree | right; unfold ds;
                          apply elem_of_union_l, elem_of_union_l, elem_of_singleton;
                          reflexivity])).
  match type of Hrun3 with
  | _ = (_, ?w1') => set (w1 := w1') in Hrun3
  end.
  destruct (init_after_open E path keygen table pragma cache_key w w0 w1
              empty_database Hq Hrun0)
    as (self & w' & Hrun & Hcons & Hth & Hd & Hs & Hfs); try reflexivity.
  - unfold try_except_when. rewrite Hrun1. cbn [is_sqlite3_OperationalError].
    rewrite bind_run, Hrun2. exact Hrun3.
  - cbn. apply lookup_insert_eq.
  - exists self, w'. split; [exact Hrun|]. split; [exact Hcons|].
    split; [exact Hth|]. rewrite Hd. reflexivity.
Qed.

Lemma init_creates_the_missing_directory_witness :
  quiet example_env
  /\ dirname "data/gallery/archive.sqlite3" = "data/gallery"
  /\ exists self w',
      DownloadArchive.__init__ "data/gallery/archive.sqlite3"
        (formatter_parse example_env "key-") None None None example_env world0
      = (Ok self, w')
      /\ table_holds (SqliteCon "data/gallery/archive.sqlite3") None [] w'
      /\ dirs w' = {["data/gallery"]} ∪ list_to_set ["data"] ∪ ∅.
Proof.
  assert (H1 : quiet example_env) by (intros h; reflexivity).
  split; [exact H1|]. split; [reflexivity|].
  destruct (init_creates_the_missing_directory "data/gallery/archive.sqlite3"
              (formatter_parse example_env "key-") None None None example_env world0
              H1 eq_refl ltac:(discriminate) ltac:(apply not_elem_of_empty) eq_refl)
    as (self & w' & Hrun & _ & Hth & Hd).
  { intros H. apply elem_of_union in H as [H|H];
      [apply elem_of_union in H as [H|H]|].
    - apply elem_of_singleton in H. vm_compute in H. discriminate H.
    - apply elem_of_list_to_set in H.
      change (parents_from "" (dirname "data/gallery/archive.sqlite3"))
        with ["data"] in H.
      apply list_elem_of_singleton in H. discriminate H.
    - exact (proj1 (elem_of_empty _) H). }
  exists self, w'. split; [exact Hrun|]. split; [exact Hth | exact Hd].
Defined.

(** X17. When the first [sqlite3.connect] raises [OperationalError] although
    the directory of the path exists, the [os.makedirs] of line 81 raises
    [FileExistsError]: [DownloadArchive.__init__] raises that exception in
    place of the engine's, and does not try to open the store again. *)
Theorem open_failure_in_existing_directory_raises_file_exists
    (path : string) (keygen : gmap string string -> string)
    (table : option string) (pragma : option (list string))
    (cache_key : option string) (E : env) (w w0 w1 : world) (msg : string) :
  ensure_sqlite3 E w = (Ok tt, w0) ->
  sqlite3_connect path E w0 = (Raise (sqlite3_OperationalError msg), w1) ->
  dirname path <> "" ->
  dirname path ∈ dirs w1 ->
  oracle E (history w1 ++ [makedirs_call (dirname path)])%list = None ->
  exists w',
    DownloadArchive.__init__ path keygen table pragma cache_key E w
    = (Raise (FileExistsError (dirname path)), w')
    /\ history w' = (history w1 ++ [makedirs_call (dirname path)])%list
    /\ files w' = files w1
    /\ dirs w' = dirs w1.
Proof.
  intros Hmod Hopen Hne Hdir Ho.
  unfold DownloadArchive.__init__. rewrite bind_run, Hmod. cbv beta iota.
  rewrite bind_run. unfold try_except_when at 1. rewrite Hopen.
  cbn [is_sqlite3_OperationalError]. rewrite bind_run.
  unfold makedirs at 1. rewrite bind_run, (request_served E _ _ Ho).
  cbv beta iota. rewrite bind_run. unfold get at 1. cbv beta iota.
  rewrite (truthy_str_nonempty _ Hne). cbn [negb].
  cbn [dirs set_history]. rewrite (bool_decide_eq_true_2 _ Hdir). cbn [orb].
  eexists. split; [reflexivity|]. repeat split.
Qed.

Lemma open_failure_in_existing_directory_raises_file_exists_witness :
  ensure_sqlite3 first_open_fails data_dir_world = (Ok tt, data_dir_world)
  /\ sqlite3_connect "data/archive.sqlite3" first_open_fails data_dir_world
     = (Raise (sqlite3_OperationalError "unable to open database file"),
        set_history [sqlite3_connect_call "data/archive.sqlite3"] data_dir_world)
  /\ dirname "data/archive.sqlite3" = "data"
  /\ exists w',
      DownloadArchive.__init__ "data/archive.sqlite3"
        (formatter_parse first_open_fails "key-") None None None
        first_open_fails data_dir_world
      = (Raise (FileExistsError "data"), w')
      /\ files w' = ∅.
Proof.
  assert (H1 : ensure_sqlite3 first_open_fails data_dir_world
               = (Ok tt, data_dir_world)) by reflexivity.
  assert (H2 : sqlite3_connect "data/archive.sqlite3" first_open_fails data_dir_world
               = (Raise (sqlite3_OperationalError "unable to open database file"),
                  set_history [sqlite3_connect_call "data/archive.sqlite3"]
                    data_dir_world)) by reflexivity.
  assert (H3 : dirname "data/archive.sqlite3"
               ∈ dirs (set_history [sqlite3_connect_call "data/archive.sqlite3"]
                         data_dir_world))
    by (change ("data" ∈ ({["data"]} : gset string));
        apply elem_of_singleton; reflexivity).
  split; [exact H1|]. split; [exact H2|]. split; [reflexivity|].
  destruct (open_failure_in_existing_directory_raises_file_exists
              "data/archive.sqlite3" (formatter_parse first_open_fails "key-")
              None None None first_open_fails data_dir_world data_dir_world _ _
              H1 H2 ltac:(discriminate) H3 eq_refl)
    as (w' & Hrun & _ & Hf & _).
  exists w'. split; [exact Hrun | exact Hf].
Defined.

(** * Engines without [WITHOUT ROWID] *)

Lemma is_create_without_rowid_pragma (path stmt : string) :
  is_create_without_rowid (execute_call (SqliteCon path) ("PRAGMA " ++ stmt) [])
  = false.
Proof. unfold is_create_without_rowid. now rewrite sqlite_parse_pragma. Qed.

Lemma is_create_without_rowid_first (path : string) (table : option string) :
  is_create_without_rowid
    (execute_call (SqliteCon path)
       (DownloadArchive.stmt_create_without_rowid (table_text table)) [])
  = true.
Proof.
  unfold is_create_without_rowid. now rewrite sqlite_parse_create_without_rowid.
Qed.

Lemma is_create_without_rowid_second (path : string) (table : option string) :
  is_create_without_rowid
    (execute_call (SqliteCon path) (DownloadArchive.stmt_create (table_text table)) [])
  = false.
Proof. unfold is_create_without_rowid. now rewrite sqlite_parse_create. Qed.

(** X18. Let the engine fail the [CREATE TABLE ... WITHOUT ROWID] of
    lines 107-108 with the exception [e] and serve every other call, the
    file being there.  When [e] is an [sqlite3.OperationalError],
    [DownloadArchive.__init__] creates the table with the plain statement of
    lines 111-112 and returns the ledger, keeping the rows of the file; for
    any other exception it raises [e] and the plain statement is not
    tried. *)
Theorem create_falls_back_to_plain_table
    (path : string) (keygen : gmap string string -> string)
    (table : option string) (pragma : option (list string))
    (cache_key : option string) (E : env) (e : exn) (w : world)
    (fb : connection_state) :
  fails_only E is_create_without_rowid e ->
  files w !! path = Some fb ->
  exists r w',
    DownloadArchive.__init__ path keygen table pragma cache_key E w = (r, w')
    /\ if is_sqlite3_OperationalError e
       then (exists self, r = Ok self /\ constructed (Sqlite self) path table)
            /\ table_holds (SqliteCon path) table
                 (default [] (committed fb !! table_name table)) w'
            /\ last (history w')
               = Some (execute_call (SqliteCon path)
                         (DownloadArchive.stmt_create (table_text table)) [])
       else r = Raise e
            /\ stored (SqliteCon path) table w' = committed fb !! table_name table
            /\ last (history w')
               = Some (execute_call (SqliteCon path)
                         (DownloadArchive.stmt_create_without_rowid
                            (table_text table)) []).
Proof.
  intros Hpol Hf.
  destruct (ensure_sqlite3_frame E w
              (oracle_served E _ e Hpol (history w) (import_call "sqlite3") eq_refl))
    as (w0 & Hrun0 & Hf0 & Hs0 & Hd0 & _).
  assert (Hrun1 := sqlite3_connect_opens E path w0
                     (oracle_served E _ e Hpol (history w0)
                        (sqlite3_connect_call path) eq_refl)).
  rewrite Hf0, Hf in Hrun1. specialize (Hrun1 I).
  match type of Hrun1 with
  | _ = (_, ?w1') => set (w1 := w1') in Hrun1
  end.
  assert (Hl1 : files w1 !! path = Some (new_session fb))
    by (cbn; apply lookup_insert_eq).
  assert (exists w2,
             (match pragma with
              | Some stmts =>
                  for_each stmts
                    (fun stmt =>
                       cursor_execute (SqliteCon path) ("PRAGMA " ++ stmt) [];;
                       mret tt)
              | None => mret tt
              end) E w1 = (Ok tt, w2)
             /\ files w2 = files w1)
    as (w2 & Hrun2 & Hf2).
  { destruct pragma as [stmts|].
    - destruct (pragma_served E _ _ Hpol path stmts
                  (is_create_without_rowid_pragma path) w1 (new_session fb) Hl1
                  eq_refl eq_refl)
        as (w2 & Hrun & Hf' & _).
      exists w2. auto.
    - exists w1. rewrite ret_run. auto. }
  assert (Hl2 : files w2 !! path = Some (new_session fb)) by (now rewrite Hf2).
  unfold DownloadArchive.__init__. rewrite bind_run, Hrun0. cbv beta iota.
  rewrite bind_run. unfold try_except_when at 1. rewrite Hrun1.
  cbv beta iota zeta. fold (table_text table).
  rewrite bind_run, Hrun2. cbv beta iota. rewrite bind_run.
  unfold try_except_when at 1. rewrite bind_run.
  rewrite (cursor_execute_refused E _ _ _ _ e
             (oracle_refused E _ e Hpol _ _
                (is_create_without_rowid_first path table))).
  destruct (is_sqlite3_OperationalError e).
  - rewrite bind_run.
    match goal with
    | |- context [cursor_execute _ _ [] E ?w3] =>
        rewrite (create_served E _ _ Hpol path _ table false w3 (new_session fb)
                   (is_create_without_rowid_second path table)
                   (sqlite_parse_create table) Hl2 eq_refl eq_refl)
    end.
    rewrite !ret_run. eexists _, _. split; [reflexivity|].
    split; [eexists; split; [reflexivity | repeat split]|].
    split.
    + eexists. split; [apply lookup_store_con|]. cbn.
      split; [reflexivity|]. split; [reflexivity|]. apply create_if_missing_lookup.
    + cbn. apply last_snoc.
  - eexists _, _. split; [reflexivity|]. split; [reflexivity|].
    split; [|cbn; apply last_snoc].
    unfold stored. cbn. now rewrite Hl2.
Qed.

Lemma without_rowid_fails_only (e : exn) :
  fails_only (without_rowid_fails e) is_create_without_rowid e.
Proof. intros h c. cbn. now rewrite last_snoc. Qed.

Lemma create_falls_back_to_plain_table_witness :
  fails_only (without_rowid_fails (sqlite3_OperationalError "near WITHOUT: syntax error"))
    is_create_without_rowid (sqlite3_OperationalError "near WITHOUT: syntax error")
  /\ files reconcile_world !! "archive-fallback.sqlite3"
     = Some (table_of "archive" ["a"; "b"; "c"])
  /\ exists self w',
      DownloadArchive.__init__ "archive-fallback.sqlite3"
        (formatter_parse example_env "key-") None None None
        (without_rowid_fails (sqlite3_OperationalError "near WITHOUT: syntax error"))
        reconcile_world = (Ok self, w')
      /\ table_holds (SqliteCon "archive-fallback.sqlite3") None ["a"; "b"; "c"] w'.
Proof.
  pose proof (without_rowid_fails_only
                (sqlite3_OperationalError "near WITHOUT: syntax error")) as H1.
  assert (H2 : files reconcile_world !! "archive-fallback.sqlite3"
               = Some (table_of "archive" ["a"; "b"; "c"])) by reflexivity.
  split; [exact H1|]. split; [exact H2|].
  destruct (create_falls_back_to_plain_table "archive-fallback.sqlite3"
              (formatter_parse example_env "key-") None None None
              (without_rowid_fails
                 (sqlite3_OperationalError "near WITHOUT: syntax error"))
              _ reconcile_world _ H1 H2)
    as (r & w' & Hrun & Hres).
  cbn [is_sqlite3_OperationalError] in Hres.
  destruct Hres as ((self & -> & _) & Hth & _).
  exists self, w'. split; [exact Hrun | exact Hth].
Defined.

(** * Constructing the networked ledger *)

(** On a psycopg session no statement changes a committed row before
    [commit]. *)
Lemma pg_execute_same_committed (E : env) (uri sql : string) (params : list string)
    (w : world) :
  exists r w',
    cursor_execute (PgCon uri) sql params E w = (r, w')
    /\ same_committed w w'
    /\ logged w' = logged w
    /\ (forall st, servers w !! uri = Some st ->
                   exists st', servers w' !! uri = Some st'
                               /\ committed st' = committed st).
Proof.
  unfold cursor_execute, request. unfold_monad. cbn.
  destruct (oracle E _); cbn.
  { eexists _, _. split; [reflexivity|].
    split; [apply same_committed_set_history|]. split; [reflexivity|]. eauto. }
  destruct (servers w !! uri) as [st|] eqn:Hl; cbn.
  2:{ eexists _, _. split; [reflexivity|].
      split; [apply same_committed_set_history|]. split; [reflexivity|].
      intros st H. discriminate. }
  assert (Hstore : forall st',
             committed st' = committed st ->
             same_committed w
               (set_servers (<[uri := st']> (servers w))
                  (set_history (history w ++ [execute_call (PgCon uri) sql params])%list
                     w))).
  { intros st' Hc.
    apply (same_committed_store (PgCon uri) st st' w (set_history _ w));
      [apply same_committed_set_history | exact Hl | exact Hc]. }
  destruct (pg_parse sql) as [s|]; cbn.
  2:{ eexists _, _. split; [reflexivity|].
      split; [apply same_committed_set_history|]. split; [reflexivity|].
      intros st0 H. inversion H; subst. eauto. }
  destruct s; cbv beta iota;
    try (match goal with
         | |- context [run_statement ?s ?p ?d] =>
             destruct (run_statement s p d) as [err|[d' rows']]
         end; cbn);
    try (destruct (in_transaction st); cbn);
    eexists _, _; (split; [reflexivity|]); cbn;
    try (split; [apply same_committed_set_history|]; split; [reflexivity|];
         intros st0 H; inversion H; subst; eauto);
    (split; [apply Hstore; reflexivity|]; split; [reflexivity|];
     intros st0 H; inversion H; subst; rewrite lookup_insert_eq; eauto).
Qed.

Lemma commit_raises_same_committed (E : env) (con : handle) (w w' : world) (e : exn) :
  commit con E w = (Raise e, w') ->
  same_committed w w' /\ logged w' = logged w
  /\ lookup_con con w' = lookup_con con w.
Proof.
  intros H. apply commit_raises in H. subst w'.
  split; [apply same_committed_set_history|]. split; [reflexivity|].
  apply lookup_con_set_history.
Qed.

(** X19. When the [CREATE TABLE] of [DownloadArchivePostgresql.__init__] or
    its commit raises, whatever the exception, the constructor logs one
    error, rolls the session back and raises the same exception (the
    [rollback] call being served): no ledger is returned, no committed row
    has changed, and the session is left outside a transaction. *)
Theorem networked_init_failure_is_logged_and_raised
    (uri : string) (keygen : gmap string string -> string)
    (table : option string) (pragma : option (list string))
    (cache_key : option string) (E : env) (w w0 w1 w2 : world) (e : exn) :
  ensure_psycopg E w = (Ok tt, w0) ->
  psycopg_connect uri E w0 = (Ok (PgCon uri), w1) ->
  (cursor_execute (PgCon uri) (DownloadArchivePostgresql.stmt_create (table_text table))
     [];;
   commit (PgCon uri)) E w1 = (Raise e, w2) ->
  (forall h, oracle E (h ++ [rollback_call (PgCon uri)])%list = None) ->
  exists w',
    DownloadArchivePostgresql.__init__ uri keygen table pragma cache_key E w
    = (Raise e, w')
    /\ logged w'
       = (logged w1 ++ [(ERROR, "%s: %s when creating '%s' table: %s")])%list
    /\ same_committed w1 w'
    /\ settled (PgCon uri) w'.
Proof.
  intros Hmod Hopen Hbody Hr.
  destruct (psycopg_connect_returns E _ _ _ _ Hopen) as (_ & (st & Hl & Ht & Hc)).
  cbn in Hl.
  assert (Hw2 : same_committed w1 w2 /\ logged w2 = logged w1
                /\ exists st2, servers w2 !! uri = Some st2
                               /\ committed st2 = committed st).
  { rewrite bind_run in Hbody.
    destruct (pg_execute_same_committed E uri
                (DownloadArchivePostgresql.stmt_create (table_text table)) [] w1)
      as (r & wx & Hx & Hsame & Hlog & Hst).
    rewrite Hx in Hbody. destruct (Hst st Hl) as (stx & Hlx & Hcx).
    destruct r as [rows|e'].
    - destruct (commit_raises_same_committed E _ _ _ _ Hbody) as (Hs' & Hl' & Hk').
      split; [eapply same_committed_trans; eauto|]. split; [congruence|].
      exists stx. cbn in Hk'. rewrite Hk'. auto.
    - inversion Hbody; subst. split; [exact Hsame|]. split; [exact Hlog|].
      exists stx. auto. }
  destruct Hw2 as (Hsame2 & Hlog2 & (st2 & Hl2 & Hc2)).
  unfold DownloadArchivePostgresql.__init__. rewrite bind_run, Hmod.
  cbv beta iota. rewrite bind_run, Hopen. cbv beta iota zeta.
  fold (table_text table). rewrite bind_run.
  unfold try_except at 1, try_except_when at 1. rewrite Hbody.
  rewrite bind_run. unfold log at 1, modify. cbv beta iota. rewrite bind_run.
  erewrite rollback_served; [ | apply Hr | exact Hl2 ].
  cbv beta iota. unfold raise.
  eexists. split; [reflexivity|].
  split; [cbn; now rewrite Hlog2|]. split.
  - eapply same_committed_trans; [exact Hsame2|].
    apply same_committed_store with st2;
      [intros [?|?] ?; reflexivity | exact Hl2 | reflexivity].
  - eexists. split; [apply lookup_store_con|]. split; reflexivity.
Qed.

Lemma networked_init_failure_is_logged_and_raised_witness :
  exists w',
    DownloadArchivePostgresql.__init__ "postgres://db/gallery"
      (formatter_parse execute_fails "key-") None None None execute_fails
      pg_item_world
    = (Raise (psycopg_Error "server closed the connection"), w')
    /\ settled (PgCon "postgres://db/gallery") w'.
Proof.
  destruct (networked_init_failure_is_logged_and_raised "postgres://db/gallery"
              (formatter_parse execute_fails "key-") None None None execute_fails
              pg_item_world pg_item_world
              (snd (psycopg_connect "postgres://db/gallery" execute_fails
                      pg_item_world))
              (snd ((cursor_execute (PgCon "postgres://db/gallery")
                       (DownloadArchivePostgresql.stmt_create (table_text None)) [];;
                     commit (PgCon "postgres://db/gallery")) execute_fails
                      (snd (psycopg_connect "postgres://db/gallery" execute_fails
                              pg_item_world))))
              (psycopg_Error "server closed the connection")
              eq_refl ltac:(vm_compute; reflexivity) ltac:(vm_compute; reflexivity))
    as (w' & Hrun & _ & _ & Hs).
  { intros h. cbn. rewrite last_snoc. reflexivity. }
  exists w'. split; [exact Hrun | exact Hs].
Defined.

(** * [connect] on a reachable server with a fallback file *)

Lemma ensure_psycopg_frame (E : env) (w : world) :
  oracle E (history w ++ [import_call "psycopg"])%list = None ->
  exists w0,
    ensure_psycopg E w = (Ok tt, w0)
    /\ files w0 = files w /\ servers w0 = servers w /\ dirs w0 = dirs w
    /\ logged w0 = logged w /\ dicts w0 = dicts w /\ sets w0 = sets w.
Proof.
  intros Ho. unfold ensure_psycopg, import. unfold_monad.
  destruct (psycopg_module w).
  - exists w. repeat split.
  - rewrite (request_served _ _ _ Ho). eexists. split; [reflexivity|].
    repeat split.
Qed.

(** [DownloadArchivePostgresql.__init__] on a reachable server, every call
    being served. *)
Lemma pg_init_quiet (E : env) (uri : string)
    (keygen : gmap string string -> string) (table : option string)
    (pragma : option (list string)) (cache_key : option string)
    (w : world) (st : connection_state) :
  quiet E ->
  servers w !! uri = Some st ->
  exists self w1,
    DownloadArchivePostgresql.__init__ uri keygen table pragma cache_key E w
    = (Ok self, w1)
    /\ constructed (Postgresql self) uri table
    /\ table_holds (PgCon uri) table
         (default [] (committed st !! table_name table)) w1
    /\ files w1 = files w /\ dirs w1 = dirs w /\ sets w1 = sets w.
Proof.
  intros Hq Hl.
  destruct (ensure_psycopg_frame E w (Hq _))
    as (w0 & Hrun0 & Hf0 & Hs0 & Hd0 & _ & _ & Hsets0).
  assert (Hrun1 : psycopg_connect uri E w0
                  = (Ok (PgCon uri),
                     set_servers (<[uri := new_session st]> (servers w0))
                       (set_history (history w0 ++ [psycopg_connect_call uri])%list
                          w0))).
  { unfold psycopg_connect. unfold_monad.
    rewrite (request_served _ _ _ (Hq _)). cbn. now rewrite Hs0, Hl. }
  match type of Hrun1 with
  | _ = (_, ?w1') => set (w1 := w1') in Hrun1
  end.
  assert (Hrun2 :
            cursor_execute (PgCon uri)
              (DownloadArchivePostgresql.stmt_create (table_text table)) [] E w1
            = (Ok [],
               store_con (PgCon uri)
                 (after_statement (PgCon uri) (new_session st)
                    (create_if_missing (table_name table) (committed st)))
                 (set_history
                    (history w1
                     ++ [execute_call (PgCon uri)
                           (DownloadArchivePostgresql.stmt_create (table_text table))
                           []])%list w1))).
  { apply (cursor_execute_served E (PgCon uri) _ [] w1 (new_session st)
             (CreateTableIfNotExists (table_name table) false)).
    - apply Hq.
    - cbn. apply lookup_insert_eq.
    - apply pg_parse_create.
    - discriminate.
    - cbn. unfold create_if_missing.
      now destruct (committed st !! table_name table). }
  unfold DownloadArchivePostgresql.__init__. rewrite bind_run, Hrun0.
  cbv beta iota. rewrite bind_run, Hrun1. cbv beta iota zeta.
  fold (table_text table). rewrite bind_run.
  unfold try_except at 1, try_except_when at 1. rewrite bind_run, Hrun2.
  erewrite commit_served; [ | apply Hq | apply lookup_store_con ].
  rewrite ret_run. eexists _, _. split; [reflexivity|].
  split; [repeat split|]. split.
  - eexists. split; [apply lookup_store_con|]. cbn.
    split; [reflexivity|]. split; [reflexivity|]. apply create_if_missing_lookup.
  - cbn. auto.
Qed.

(** Either networked class, constructed on a reachable server. *)
Lemma construct_networked_quiet (E : env) (memory : bool) (uri : string)
    (keygen : gmap string string -> string) (table : option string)
    (pragma : option (list string)) (cache_key : option string)
    (w : world) (st : connection_state) :
  quiet E ->
  servers w !! uri = Some st ->
  exists pg self w1,
    construct (if memory then Cls_DownloadArchivePostgresqlMemory
               else Cls_DownloadArchivePostgresql)
      uri keygen table pragma cache_key E w = (Ok pg, w1)
    /\ archive_sync_from_sqlite pg
       = DownloadArchivePostgresql.sync_from_sqlite self
    /\ is_embedded pg = false
    /\ is_buffered pg = memory
    /\ constructed pg uri table
    /\ constructed (Postgresql self) uri table
    /\ table_holds (PgCon uri) table
         (default [] (committed st !! table_name table)) w1
    /\ files w1 = files w /\ dirs w1 = dirs w
    /\ pending pg w1 = ∅.
Proof.
  intros Hq Hl.
  destruct (pg_init_quiet E uri keygen table pragma cache_key w st Hq Hl)
    as (self & w1 & Hrun & Hc & Hth & Hf & Hd & Hs).
  destruct memory; cbn [construct]; unfold fmap, M_fmap; unfold bind at 1, ret at 1.
  - unfold DownloadArchivePostgresqlMemory.__init__. rewrite bind_run, Hrun.
    unfold set_new. unfold_monad. cbn.
    eexists _, self, _. split; [reflexivity|]. split; [reflexivity|].
    split; [reflexivity|]. split; [reflexivity|].
    split; [exact Hc|]. split; [exact Hc|].
    split; [now apply table_holds_set_sets|]. split; [exact Hf|].
    split; [exact Hd|]. cbn. now rewrite lookup_insert_eq.
  - rewrite Hrun. eexists _, self, _. split; [reflexivity|].
    split; [reflexivity|]. split; [reflexivity|]. split; [reflexivity|].
    auto 10.
Qed.

(** The reconciliation that [connect] asks for: every call served, the
    fallback file kept. *)
Lemma sync_quiet_keep (E : env) (self : DownloadArchivePostgresql.t)
    (uri sqlite_path : string) (table : option string)
    (entries rows : list string) (fb : connection_state) (w : world) :
  quiet E ->
  constructed (Postgresql self) uri table ->
  table_holds (PgCon uri) table entries w ->
  files w !! util_expand_path E sqlite_path = Some fb ->
  committed fb !! table_name table = Some rows ->
  exists w',
    DownloadArchivePostgresql.sync_from_sqlite self sqlite_path table false E w
    = (Ok (Z.of_nat (List.length rows)), w')
    /\ table_holds (PgCon uri) table (insert_entries rows entries) w'
    /\ files w' !! util_expand_path E sqlite_path = Some (new_session fb).
Proof.
  intros Hq Hc Hth Hf Hfr.
  assert (Hbefore : before_sync E self uri sqlite_path table entries rows w)
    by (split; [exact Hc|]; split; [exact Hth|]; eauto).
  destruct (before_sync_parse _ _ _ _ _ _ _ _ Hbefore) as (Hcon & Hp).
  destruct Hth as (st & Hl & Ht & Hcur & Hcm). cbn in Hl.
  destruct (sync_reads_rows E self sqlite_path table false fb rows w)
    as (w2 & Hrun & Hs2 & Hlg2 & Hf2); [|exact Hf|exact Hfr|].
  { intros h c. destruct c; try exact I; apply Hq. }
  rewrite <- Hs2 in Hl. rewrite Hrun.
  set (path := util_expand_path E sqlite_path) in *.
  destruct rows as [|k rows'].
  - unfold replay, try_finally. rewrite bind_run. unfold log at 1, modify.
    cbv beta iota. rewrite ret_run.
    match goal with
    | |- context [try_except (close ?c) _ E ?w1] =>
        destruct (close_pass E c w1) as (w' & Hrun' & Hs & Hfs & _)
    end.
    rewrite Hrun'. exists w'. split; [reflexivity|]. split.
    + exists st. cbn [lookup_con]. rewrite Hs. cbn. auto.
    + rewrite Hfs. exact Hf2.
  - destruct (replay_run E (fun _ => false) (OtherException "")
                (fun h c => Hq (h ++ [c])%list) self uri path table false entries
                (k :: rows') st (new_session fb) w2 eq_refl Hcon Hp Hl Ht Hcur
                Hcm Hf2 ltac:(discriminate))
      as (r & w' & Hrun' & -> & Hth' & _).
    pose proof (replay_keeps_files self uri path (k :: rows') E w2 Hcon) as Hk.
    rewrite Hrun' in Hk. cbn [snd] in Hk.
    exists w'. split; [exact Hrun'|]. split; [exact Hth'|]. now rewrite Hk.
Qed.

(** X20. In an environment that serves every call, [connect] on a
    PostgreSQL location whose server is reachable, with a fallback file in
    place, returns the networked ledger after having copied the rows of the
    fallback table into the networked table: that table then holds its
    former rows followed by the fallback keys that were missing.  The
    fallback file is kept, with its rows. *)
Theorem connect_reconciles_the_fallback_file
    (path prefix format : string) (table mode : option string)
    (pragma : option (list string)) (kwdict : option nat)
    (cache_key : option string) (E : env) (w : world)
    (st fb : connection_state) (rows : list string) :
  quiet E ->
  startswith path "postgres://" || startswith path "postgresql://" = true ->
  servers w !! path = Some st ->
  util_expand_path E (util_expand_path E "archive-fallback.sqlite3")
  = util_expand_path E "archive-fallback.sqlite3" ->
  files w !! util_expand_path E "archive-fallback.sqlite3" = Some fb ->
  committed fb !! table_name table = Some rows ->
  exists pg w',
    connect path prefix format table mode pragma kwdict cache_key E w = (Ok pg, w')
    /\ is_embedded pg = false
    /\ is_buffered pg = bool_decide (mode = Some "memory")
    /\ constructed pg path table
    /\ stored (PgCon path) table w'
       = Some (insert_entries rows (default [] (committed st !! table_name table)))
    /\ files w' !! util_expand_path E "archive-fallback.sqlite3"
       = Some (new_session fb)
    /\ (INFO, "Postgres is up — synced %s entries from fallback sqlite") ∈ logged w'.
Proof.
  intros Hq Hs Hl Hidem Hf Hfr.
  set (fallback := util_expand_path E "archive-fallback.sqlite3") in *.
  destruct (construct_networked_quiet E (bool_decide (mode = Some "memory")) path
              (formatter_parse E (prefix ++ format)) table pragma cache_key w st
              Hq Hl)
    as (pg & self & w1 & Hrun1 & Hsync & Hemb & Hbuf & Hc & Hcs & Hth & Hf1 & Hd1 & _).
  destruct (sync_quiet_keep E self path fallback table _ rows fb w1 Hq Hcs Hth)
    as (w2 & Hrun2 & Hth2 & Hf2); [rewrite Hidem, Hf1; exact Hf | exact Hfr |].
  rewrite Hidem in Hf2.
  unfold connect. rewrite bind_run. unfold ask at 1. cbv beta iota zeta.
  rewrite Hs. rewrite bind_run. unfold try_except at 1, try_except_when at 1.
  rewrite bind_run.
  replace (if bool_decide (mode = Some "memory")
           then Cls_DownloadArchivePostgresqlMemory
           else Cls_DownloadArchivePostgresql)
    with (if bool_decide (mode = Some "memory")
          then Cls_DownloadArchivePostgresqlMemory
          else Cls_DownloadArchivePostgresql) by reflexivity.
  rewrite Hrun1. cbv beta iota. rewrite bind_run.
  unfold try_except at 1, try_except_when at 1. rewrite bind_run.
  fold fallback.
  assert (Hex : exists_ fallback E w1 = (Ok true, w1)).
  { unfold exists_. unfold_monad. rewrite Hf1, Hf.
    rewrite bool_decide_eq_true_2 by eauto. reflexivity. }
  rewrite Hex. cbv beta iota.
  unfold try_except at 1, try_except_when at 1. rewrite bind_run.
  rewrite Hsync, Hrun2. cbv beta iota.
  unfold log at 1, modify. rewrite !ret_run. cbv beta iota.
  eexists _, _. split; [reflexivity|].
  split; [exact Hemb|]. split; [exact Hbuf|]. split; [exact Hc|].
  destruct Hth2 as (st2 & Hl2 & _ & _ & Hcm2).
  split; [unfold stored; cbn; cbn in Hl2; now rewrite Hl2|].
  split; [exact Hf2|].
  cbn. apply elem_of_app. right. apply list_elem_of_singleton. reflexivity.
Qed.

Lemma connect_reconciles_the_fallback_file_witness :
  quiet example_env
  /\ exists pg w',
      connect "postgres://db/gallery" "" "key-" None None None None None
        example_env reconcile_world = (Ok pg, w')
      /\ stored (PgCon "postgres://db/gallery") None w'
         = Some (insert_entries ["a"; "b"; "c"] ["b"])
      /\ files w' !! "archive-fallback.sqlite3"
         = Some (new_session (table_of "archive" ["a"; "b"; "c"])).
Proof.
  assert (H1 : quiet example_env) by (intros h; reflexivity).
  split; [exact H1|].
  destruct (connect_reconciles_the_fallback_file "postgres://db/gallery" "" "key-"
              None None None None None example_env reconcile_world
              (table_of "archive" ["b"]) (table_of "archive" ["a"; "b"; "c"])
              ["a"; "b"; "c"] H1 eq_refl eq_refl eq_refl eq_refl eq_refl)
    as (pg & w' & Hrun & _ & _ & _ & Hst & Hf & _).
  exists pg, w'. split; [exact Hrun|]. split; [exact Hst | exact Hf].
Defined.

(** * When a key becomes durable *)

Lemma buffered_add_history (a : archive) (kwdict : nat) (E : env) (w : world) :
  is_buffered a = true ->
  history (snd (archive_add a kwdict E w)) = history w
  /\ same_committed w (snd (archive_add a kwdict E w)).
Proof.
  destruct a as [s|s|s|s]; try discriminate; intros _; cbn [archive_add].
  - unfold DownloadArchiveMemory.add, dict_read, set_add. unfold_monad. cbn.
    split; [reflexivity | apply same_committed_set_sets].
  - unfold DownloadArchivePostgresqlMemory.add, dict_read, set_add.
    unfold_monad. cbn.
    split; [reflexivity | apply same_committed_set_sets].
Qed.

(** X21. In an environment that serves every call, [add] on an unbuffered
    ledger makes the key a committed row at once; [add] on a buffered ledger
    calls no engine and changes no committed row, and the key is committed by
    the next [finalize]. *)
Theorem add_is_durable_at_once_unless_buffered
    (a : archive) (loc : string) (table : option string)
    (entries : list string) (kwdict : nat) (E : env) (w : world) :
  quiet E ->
  constructed a loc table ->
  table_holds (archive_connection a) table entries w ->
  let key := spec_key (archive_cache_key a) (archive_keygen a)
               (default ∅ (dicts w !! kwdict)) in
  exists w1 w2 entries2,
    archive_add a kwdict E w = (Ok tt, w1)
    /\ archive_finalize a E w1 = (Ok tt, w2)
    /\ stored (archive_connection a) table w1
       = Some (if is_buffered a then entries else insert_entry key entries)
    /\ (is_buffered a = true -> history w1 = history w /\ same_committed w w1)
    /\ stored (archive_connection a) table w2 = Some entries2
    /\ key ∈ entries2.
Proof.
  intros Hq Hc Hholds key.
  destruct (add_quiet E Hq a loc table entries kwdict w Hc Hholds)
    as (w1 & Hrun1 & Hd1 & Hh1 & Hp1).
  destruct (finalize_quiet E Hq a loc table _ w1 Hc Hh1)
    as (w2 & Hrun2 & Hh2 & _ & _).
  fold key in Hh1, Hp1, Hh2.
  exists w1, w2, (insert_entries (elements (pending a w1))
                    (if is_buffered a then entries else insert_entry key entries)).
  split; [exact Hrun1|]. split; [exact Hrun2|].
  destruct Hh1 as (st1 & Hl1 & _ & _ & Hcm1).
  destruct Hh2 as (st2 & Hl2 & _ & _ & Hcm2).
  split; [unfold stored; now rewrite Hl1|].
  split.
  { intros Hb. pose proof (buffered_add_history a kwdict E w Hb) as H.
    now rewrite Hrun1 in H. }
  split; [unfold stored; now rewrite Hl2|].
  apply elem_of_insert_entries. rewrite Hp1.
  destruct (is_buffered a).
  - right. apply elem_of_elements, elem_of_union_l, elem_of_singleton. reflexivity.
  - left. apply elem_of_insert_entry. now right.
Qed.

Lemma add_is_durable_at_once_unless_buffered_witness :
  quiet example_env
  /\ constructed (SqliteMemory example_memory) "archive.sqlite3" None
  /\ table_holds (SqliteCon "archive.sqlite3") None [] fresh_item_world
  /\ exists w1 w2 entries2,
      archive_add (SqliteMemory example_memory) 0 example_env fresh_item_world
      = (Ok tt, w1)
      /\ archive_finalize (SqliteMemory example_memory) example_env w1 = (Ok tt, w2)
      /\ stored (SqliteCon "archive.sqlite3") None w1 = Some []
      /\ stored (SqliteCon "archive.sqlite3") None w2 = Some entries2
      /\ "key-7" ∈ entries2.
Proof.
  assert (H1 : quiet example_env) by (intros h; reflexivity).
  assert (H2 : constructed (SqliteMemory example_memory) "archive.sqlite3" None)
    by (repeat split).
  assert (H3 : table_holds (SqliteCon "archive.sqlite3") None [] fresh_item_world)
    by (exists (table_of "archive" []); repeat split).
  repeat (split; [assumption|]).
  destruct (add_is_durable_at_once_unless_buffered (SqliteMemory example_memory)
              "archive.sqlite3" None [] 0%nat example_env fresh_item_world H1 H2 H3)
    as (w1 & w2 & entries2 & Hr1 & Hr2 & Hs1 & _ & Hs2 & Hk).
  exists w1, w2, entries2. auto 10.
Defined.

(** * Flushing again *)

Lemma insert_entries_absorb (ks : list string) :
  forall entries,
    (forall k, k ∈ ks -> k ∈ entries) -> insert_entries ks entries = entries.
Proof.
  induction ks as [|k ks IH]; intros entries H; cbn; [reflexivity|].
  assert (Hk : insert_entry k entries = entries).
  { unfold insert_entry. rewrite bool_decide_eq_true_2; [reflexivity|].
    apply H, elem_of_cons. now left. }
  rewrite Hk. apply IH. intros k' Hk'. apply H, elem_of_cons. now right.
Qed.

(** X22. In an environment that serves every call, on any of the four
    ledgers, a second [finalize] right after the first succeeds and changes
    nothing: the table holds the same rows, in the same order, as after the
    first, and the pending set is still what it was before the first. *)
Theorem finalize_again_changes_nothing
    (a : archive) (loc : string) (table : option string)
    (entries : list string) (E : env) (w : world) :
  quiet E ->
  constructed a loc table ->
  table_holds (archive_connection a) table entries w ->
  exists w1 w2 entries1,
    archive_finalize a E w = (Ok tt, w1)
    /\ archive_finalize a E w1 = (Ok tt, w2)
    /\ stored (archive_connection a) table w1 = Some entries1
    /\ stored (archive_connection a) table w2 = Some entries1
    /\ pending a w2 = pending a w.
Proof.
  intros Hq Hc Hholds.
  destruct (finalize_quiet E Hq a loc table entries w Hc Hholds)
    as (w1 & Hrun1 & Hh1 & Hs1 & _).
  destruct (finalize_quiet E Hq a loc table _ w1 Hc Hh1)
    as (w2 & Hrun2 & Hh2 & Hs2 & _).
  assert (Hp1 : pending a w1 = pending a w) by (destruct a; cbn; now rewrite ?Hs1).
  assert (Hp2 : pending a w2 = pending a w1) by (destruct a; cbn; now rewrite ?Hs2).
  rewrite Hp1 in Hh2.
  rewrite insert_entries_absorb in Hh2
    by (intros k Hk; apply elem_of_insert_entries; now right).
  destruct Hh1 as (st1 & Hl1 & _ & _ & Hcm1).
  destruct Hh2 as (st2 & Hl2 & _ & _ & Hcm2).
  exists w1, w2, (insert_entries (elements (pending a w)) entries).
  split; [exact Hrun1|]. split; [exact Hrun2|].
  split; [unfold stored; now rewrite Hl1|].
  split; [unfold stored; now rewrite Hl2|]. congruence.
Qed.

Lemma finalize_again_changes_nothing_witness :
  quiet example_env
  /\ constructed (SqliteMemory example_memory) "archive.sqlite3" None
  /\ table_holds (SqliteCon "archive.sqlite3") None [] pending_world
  /\ exists w1 w2 entries1,
      archive_finalize (SqliteMemory example_memory) example_env pending_world
      = (Ok tt, w1)
      /\ archive_finalize (SqliteMemory example_memory) example_env w1 = (Ok tt, w2)
      /\ stored (SqliteCon "archive.sqlite3") None w1 = Some entries1
      /\ stored (SqliteCon "archive.sqlite3") None w2 = Some entries1
      /\ pending (SqliteMemory example_memory) w2
         = pending (SqliteMemory example_memory) pending_world.
Proof.
  assert (H1 : quiet example_env) by (intros h; reflexivity).
  assert (H2 : constructed (SqliteMemory example_memory) "archive.sqlite3" None)
    by (repeat split).
  assert (H3 : table_holds (SqliteCon "archive.sqlite3") None [] pending_world)
    by (exists (table_of "archive" []); repeat split).
  repeat (split; [assumption|]).
  exact (finalize_again_changes_nothing (SqliteMemory example_memory)
           "archive.sqlite3" None [] example_env pending_world H1 H2 H3).
Defined.
